(** * Managed-identity token acquisition (msal/imds.py)

    A shallow embedding of [msal/imds.py]: the scope-to-resource mapper, the
    environment resolver, the three backend adapters and the cache-aside
    orchestrator [ManagedIdentity.acquire_token], followed by the properties
    the specification states about them, and of the authority builder and
    [canonicalize] of [msal/authority.py].

    Python values are an inductive type; dictionaries are association lists
    in insertion order; exceptions and the effects on the collaborators (the
    transport, the token cache, the logger, the clock) are threaded through a
    small state-and-exception monad whose state keeps a log of every call
    made to a collaborator. *)

From Stdlib Require Import String Ascii ZArith QArith Qround List Bool Lia.
Import ListNotations.
Local Open Scope string_scope.
Local Open Scope Z_scope.

Set Warnings "-register-all".

(** ** Python values *)

(** What [json.loads] can produce, and what the dictionaries handled by the
    module hold.  A Python [float] is idealised as the rational it denotes:
    rounding, infinities and NaN are not modelled. *)
Inductive pyval : Type :=
| PNone
| PBool (b : bool)
| PInt (z : Z)
| PFloat (q : Q)
| PStr (s : string)
| PList (l : list pyval)
| PDict (d : list (string * pyval)).

Definition pydict : Type := list (string * pyval).

(** The exceptions that can leave the module. *)
Inductive exn : Type :=
| ValueError (msg : string)
| KeyError (key : string)
| TypeError
| AttributeError
| TransportError (msg : string).

Inductive result (A : Type) : Type :=
| Ret (a : A)
| Raise (e : exn).
Arguments Ret {A} a.
Arguments Raise {A} e.

(** [bool(v)]. *)
Definition truthy (v : pyval) : bool :=
  match v with
  | PNone => false
  | PBool b => b
  | PInt z => negb (z =? 0)
  | PFloat q => negb (Qeq_bool q 0)
  | PStr s => negb (s =? "")%string
  | PList l => match l with [] => false | _ => true end
  | PDict d => match d with [] => false | _ => true end
  end.

(** [bool(s)] for an argument that is [None] or a [str]. *)
Definition truthy_str (o : option string) : bool :=
  match o with
  | None => false
  | Some s => negb (s =? "")%string
  end.

Section Dict.
Context {V : Type}.

(** [d.get(k)], as an option. *)
Fixpoint dict_lookup (d : list (string * V)) (k : string) : option V :=
  match d with
  | [] => None
  | (k', v) :: d' => if (k' =? k)%string then Some v else dict_lookup d' k
  end.

(** [k in d]. *)
Definition dict_has (d : list (string * V)) (k : string) : bool :=
  match dict_lookup d k with Some _ => true | None => false end.

(** [d[k] = v]: replaces the value of an existing key in place, appends a
    new key at the end. *)
Fixpoint dict_set (k : string) (v : V) (d : list (string * V)) : list (string * V) :=
  match d with
  | [] => [(k, v)]
  | (k', v') :: d' =>
      if (k' =? k)%string then (k, v) :: d' else (k', v') :: dict_set k v d'
  end.
End Dict.

(** [d.get(k, default)]. *)
Definition dict_get (d : pydict) (k : string) (default : pyval) : pyval :=
  match dict_lookup d k with Some v => v | None => default end.

(** [d[k]] on a [dict]. *)
Definition dict_index (d : pydict) (k : string) : result pyval :=
  match dict_lookup d k with Some v => Ret v | None => Raise (KeyError k) end.

(** [v.get(k, default)] on an arbitrary value: only a [dict] has the
    method. *)
Definition py_get (v : pyval) (k : string) (default : pyval) : result pyval :=
  match v with
  | PDict d => Ret (dict_get d k default)
  | _ => Raise AttributeError
  end.

(** [v[k]] with a string key on an arbitrary value. *)
Definition py_index (v : pyval) (k : string) : result pyval :=
  match v with
  | PDict d => dict_index d k
  | _ => Raise TypeError
  end.

(** [int(x)] on a [float]: truncation towards zero. *)
Definition Qtrunc (q : Q) : Z := Z.quot (Qnum q) (Zpos (Qden q)).

(** [x < y] on rationals, as a boolean. *)
Definition Qlt_bool (x y : Q) : bool := negb (Qle_bool y x).

(** [v - z] for an integer [z]. *)
Definition py_sub_int (v : pyval) (z : Z) : result pyval :=
  match v with
  | PInt a => Ret (PInt (a - z))
  | PBool b => Ret (PInt ((if b then 1 else 0) - z))
  | PFloat q => Ret (PFloat (q - inject_Z z))
  | _ => Raise TypeError
  end.

(** ** Requests, cache calls and the log of effects *)

Record request : Type := {
  req_url : string;
  req_params : list (string * string);
  req_headers : list (string * string)
}.

Record response : Type := {
  status_code : Z;
  text : string
}.

(** The keyword arguments of [token_cache.find]. *)
Record find_args : Type := {
  find_credential_type : string;
  find_target : list string;
  find_query : pydict
}.

(** The event dictionary handed to [token_cache.add]. *)
Record add_args : Type := {
  add_client_id : string;
  add_scope : list string;
  add_token_endpoint : string;
  add_response : pyval;
  add_params : pydict;
  add_data : pydict
}.

Inductive event : Type :=
| EvDebug (fmt : string) (args : list string)
| EvGet (req : request)
| EvFind (a : find_args)
| EvAdd (a : add_args).

Definition is_get (e : event) : bool :=
  match e with EvGet _ => true | _ => false end.
Definition is_add (e : event) : bool :=
  match e with EvAdd _ => true | _ => false end.
Definition is_find (e : event) : bool :=
  match e with EvFind _ => true | _ => false end.

(** How many transport calls, cache writes and cache reads a log records. *)
Definition gets (l : list event) : nat := length (filter is_get l).
Definition adds (l : list event) : nat := length (filter is_add l).
Definition finds (l : list event) : nat := length (filter is_find l).

(** ** Scope-to-resource mapper *)

(** The six components [urlparse] returns. *)
Record ParseResult : Type := {
  scheme : string;
  netloc : string;
  path : string;
  params : string;
  query : string;
  fragment : string
}.

Section Mapper.

(** [urllib.parse.urlparse], which returns a result or raises. *)
Variable urlparse : string -> result ParseResult.

Definition _scope_to_resource (scope : string) : result string :=
  match urlparse scope with
  | Raise e => Raise e
  | Ret u =>
      if truthy (PStr (scheme u))
      then Ret (scheme u ++ "://" ++ netloc u)
      else Ret scope
  end.

End Mapper.

(** *** CPython's [urlparse]

    A transcription of [urlsplit] and [urlparse] of CPython 3.11's
    [urllib/parse.py] on byte strings, with the default arguments.  The two
    validations of an authority that the library runs besides the bracket
    test below ([_check_bracketed_netloc] and the NFKC test of
    [_checknetloc]) are left out: they return nothing and can only raise
    [ValueError] on further inputs. *)

Definition code (c : ascii) : nat := nat_of_ascii c.

Definition is_c0_control_or_space (c : ascii) : bool := (code c <=? 32)%nat.

Definition is_unsafe_url_byte (c : ascii) : bool :=
  (code c =? 9)%nat || (code c =? 13)%nat || (code c =? 10)%nat.

Definition is_upper (c : ascii) : bool := (65 <=? code c)%nat && (code c <=? 90)%nat.
Definition is_lower (c : ascii) : bool := (97 <=? code c)%nat && (code c <=? 122)%nat.
Definition is_digit (c : ascii) : bool := (48 <=? code c)%nat && (code c <=? 57)%nat.

(** Membership in [scheme_chars]. *)
Definition is_scheme_char (c : ascii) : bool :=
  is_lower c || is_upper c || is_digit c
  || (code c =? 43)%nat || (code c =? 45)%nat || (code c =? 46)%nat.

Definition ascii_lower (c : ascii) : ascii :=
  if is_upper c then ascii_of_nat (code c + 32) else c.

Fixpoint str_lstrip (f : ascii -> bool) (s : string) : string :=
  match s with
  | String c s' => if f c then str_lstrip f s' else s
  | EmptyString => s
  end.

Fixpoint str_remove (f : ascii -> bool) (s : string) : string :=
  match s with
  | String c s' => if f c then str_remove f s' else String c (str_remove f s')
  | EmptyString => EmptyString
  end.

Fixpoint str_forallb (f : ascii -> bool) (s : string) : bool :=
  match s with
  | String c s' => f c && str_forallb f s'
  | EmptyString => true
  end.

Fixpoint str_map (f : ascii -> ascii) (s : string) : string :=
  match s with
  | String c s' => String (f c) (str_map f s')
  | EmptyString => EmptyString
  end.

(** [c in s]. *)
Fixpoint str_mem (c : ascii) (s : string) : bool :=
  match s with
  | String c' s' => Ascii.eqb c' c || str_mem c s'
  | EmptyString => false
  end.

(** [s] cut before its first character satisfying [f]: the part before,
    and the part from that character on ([None] when there is none). *)
Fixpoint str_break (f : ascii -> bool) (s : string) : string * option string :=
  match s with
  | String c s' =>
      if f c then (EmptyString, Some s)
      else let (a, b) := str_break f s' in (String c a, b)
  | EmptyString => (EmptyString, None)
  end.

(** The scheme step of [urlsplit]: [(scheme, rest)]. *)
Definition split_scheme (url : string) : string * string :=
  match url, str_break (Ascii.eqb ":") url with
  | String c0 _, (String _ _ as before, Some (String _ rest)) =>
      if (is_upper c0 || is_lower c0) && str_forallb is_scheme_char before
      then (str_map ascii_lower before, rest)
      else ("", url)
  | _, _ => ("", url)
  end.

(** [_splitnetloc(url, 2)] for a [url] that starts with two slashes, given
    without them. *)
Definition _splitnetloc (after_slashes : string) : string * string :=
  match str_break (fun c => Ascii.eqb c "/" || Ascii.eqb c "?" || Ascii.eqb c "#")
                  after_slashes with
  | (domain, Some rest) => (domain, rest)
  | (domain, None) => (domain, "")
  end.

(** [url.split(c, 1)] when [c] occurs in [url]. *)
Definition split_once (c : ascii) (url : string) : string * string :=
  match str_break (Ascii.eqb c) url with
  | (a, Some (String _ b)) => (a, b)
  | (a, _) => (a, "")
  end.

Definition urlsplit (url : string) : result (string * string * string * string * string) :=
  let url := str_lstrip is_c0_control_or_space url in
  let url := str_remove is_unsafe_url_byte url in
  let (scheme, url) := split_scheme url in
  let split_rest (netloc url : string) :=
    let (url, fragment) :=
      if str_mem "#" url then split_once "#" url else (url, "") in
    let (url, query) :=
      if str_mem "?" url then split_once "?" url else (url, "") in
    Ret (scheme, netloc, url, query, fragment) in
  match url with
  | String "/" (String "/" after) =>
      let (netloc, url) := _splitnetloc after in
      if (str_mem "[" netloc && negb (str_mem "]" netloc))
         || (str_mem "]" netloc && negb (str_mem "[" netloc))
      then Raise (ValueError "Invalid IPv6 URL")
      else split_rest netloc url
  | _ => split_rest "" url
  end.

Definition uses_params : list string :=
  [""; "ftp"; "hdl"; "prospero"; "http"; "imap"; "https"; "shttp"; "rtsp";
   "rtspu"; "sip"; "sips"; "mms"; "sftp"; "tel"].

(** Position of the last [c] in [s], counted from the left. *)
Fixpoint str_rfind (c : ascii) (s : string) : option nat :=
  match s with
  | String c' s' =>
      match str_rfind c s' with
      | Some i => Some (S i)
      | None => if Ascii.eqb c' c then Some O else None
      end
  | EmptyString => None
  end.

Definition _splitparams (url : string) : string * string :=
  let from := match str_rfind "/" url with Some i => i | None => O end in
  let head := substring 0 from url in
  let tail := substring from (String.length url - from) url in
  match str_break (Ascii.eqb ";") tail with
  | (a, Some (String _ b)) => (head ++ a, b)
  | (_, _) => (url, "")
  end.

Definition cpython_urlparse (url : string) : result ParseResult :=
  match urlsplit url with
  | Raise e => Raise e
  | Ret (scheme, netloc, url, query, fragment) =>
      let (url, params) :=
        if existsb (String.eqb scheme) uses_params && str_mem ";" url
        then _splitparams url else (url, "") in
      Ret {| scheme := scheme; netloc := netloc; path := url;
             params := params; query := query; fragment := fragment |}
  end.

(** ** Collaborators *)

(** The library functions and process-wide values the module relies on, and
    the type of the store behind the caller-supplied token cache:
    [json.loads] ([None] for a body on which it raises [ValueError]), [int]
    on a [str] ([None] when it raises [ValueError]), the [{}] rendering of
    [str.format], [os.environ], the successive readings of [time.time()]
    (floats, idealised as the rationals they denote) and
    [socket.getfqdn()]. *)
Class Runtime : Type := {
  store : Type;
  json_loads : string -> option pyval;
  int_of_str : string -> option Z;
  py_format : pyval -> string;
  os_environ : list (string * string);
  time_time : nat -> Q;
  socket_getfqdn : string
}.

Section Model.

Context {RT : Runtime}.

(** The token-cache collaborator, as the module uses it: the
    [CredentialType.ACCESS_TOKEN] constant, [find] and [add]. *)
Record TokenCache : Type := {
  ACCESS_TOKEN : string;
  tc_find : store -> find_args -> list pydict;
  tc_add : store -> add_args -> store
}.

(** ** The state-and-exception monad *)

Record state : Type := {
  st_log : list event;    (* calls made so far, oldest first *)
  st_store : store;       (* contents of the token cache *)
  st_ticks : nat          (* readings of the clock taken so far *)
}.

Definition M (A : Type) : Type := state -> result A * state.

Definition ret {A} (a : A) : M A := fun s => (Ret a, s).
Definition raise {A} (e : exn) : M A := fun s => (Raise e, s).
Definition bind {A B} (m : M A) (k : A -> M B) : M B :=
  fun s => match m s with
           | (Ret a, s') => k a s'
           | (Raise e, s') => (Raise e, s')
           end.
Definition lift {A} (r : result A) : M A := fun s => (r, s).

Notation "x <- m ;; k" := (bind m (fun x => k))
  (at level 100, m at next level, right associativity).
Notation "m ;;; k" := (bind m (fun _ => k))
  (at level 100, right associativity).

Definition emit (e : event) : M unit :=
  fun s => (Ret tt, {| st_log := st_log s ++ [e];
                       st_store := st_store s;
                       st_ticks := st_ticks s |}).

(** [logger.debug(fmt, *args)]. *)
Definition logger_debug (fmt : string) (args : list string) : M unit :=
  emit (EvDebug fmt args).

(** [time.time()]. *)
Definition time_now : M Q :=
  fun s => (Ret (time_time (st_ticks s)),
            {| st_log := st_log s;
               st_store := st_store s;
               st_ticks := S (st_ticks s) |}).

(** [http_client.get(url, params=..., headers=...)]: the call is logged,
    then the transport answers or raises. *)
Definition http_client_get (http_client : request -> result response)
    (req : request) : M response :=
  emit (EvGet req) ;;; lift (http_client req).

(** [token_cache.find(...)]. *)
Definition cache_find (tc : TokenCache) (a : find_args) : M (list pydict) :=
  emit (EvFind a) ;;; fun s => (Ret (tc_find tc (st_store s) a), s).

(** [token_cache.add(...)]. *)
Definition cache_add (tc : TokenCache) (a : add_args) : M unit :=
  emit (EvAdd a) ;;;
  fun s => (Ret tt, {| st_log := st_log s;
                       st_store := tc_add tc (st_store s) a;
                       st_ticks := st_ticks s |}).

(** [try: body  except ValueError: handler; raise]. *)
Definition try_except_ValueError {A} (body : M A) (handler : M unit) : M A :=
  fun s => match body s with
           | (Raise (ValueError msg), s') =>
               match handler s' with
               | (Ret _, s'') => (Raise (ValueError msg), s'')
               | (Raise e, s'') => (Raise e, s'')
               end
           | r => r
           end.

(** [json.loads(text)]. *)
Definition py_json_loads (t : string) : result pyval :=
  match json_loads t with
  | Some v => Ret v
  | None => Raise (ValueError "json")
  end.

(** [int(v)]. *)
Definition py_int (v : pyval) : result Z :=
  match v with
  | PInt z => Ret z
  | PBool b => Ret (if b then 1 else 0)
  | PFloat q => Ret (Qtrunc q)
  | PStr s => match int_of_str s with
              | Some z => Ret z
              | None => Raise (ValueError "int")
              end
  | _ => Raise TypeError
  end.

(** [int(time.time())]. *)
Definition int_time_now : M Z := now <- time_now ;; ret (Qtrunc now).

(** [os.environ[k]]. *)
Definition environ_index (k : string) : result string :=
  match dict_lookup os_environ k with
  | Some v => Ret v
  | None => Raise (KeyError k)
  end.

(** ** Backend adapters *)

(** The optional identity selectors appended to the query parameters. *)
Definition with_identity (client_id object_id mi_res_id : option string)
    (params : list (string * string)) : list (string * string) :=
  let params :=
    match client_id with
    | Some c => if truthy_str client_id then dict_set "client_id" c params else params
    | None => params
    end in
  let params :=
    match object_id with
    | Some o => if truthy_str object_id then dict_set "object_id" o params else params
    | None => params
    end in
  match mi_res_id with
  | Some r => if truthy_str mi_res_id then dict_set "mi_res_id" r params else params
  | None => params
  end.

(** [payload.get(a) and payload.get(b)], as the truth value the [if]
    tests. *)
Definition get_and_get (payload : pyval) (a b : string) : result bool :=
  match py_get payload a PNone with
  | Raise e => Raise e
  | Ret x =>
      if truthy x then
        match py_get payload b PNone with
        | Raise e => Raise e
        | Ret y => Ret (truthy y)
        end
      else Ret false
  end.

Definition _obtain_token_on_azure_vm (http_client : request -> result response)
    (resource : string) (client_id object_id mi_res_id : option string)
    : M pyval :=
  logger_debug "Obtaining token via managed identity on Azure VM" [] ;;;
  let params := [("api-version", "2018-02-01"); ("resource", resource)] in
  let params := with_identity client_id object_id mi_res_id params in
  resp <- http_client_get http_client
            {| req_url := "http://169.254.169.254/metadata/identity/oauth2/token";
               req_params := params;
               req_headers := [("Metadata", "true")] |} ;;
  try_except_ValueError
    (payload <- lift (py_json_loads (text resp)) ;;
     ok <- lift (get_and_get payload "access_token" "expires_in") ;;
     if ok then
       access_token <- lift (py_index payload "access_token") ;;
       e <- lift (py_index payload "expires_in") ;;
       expires_in <- lift (py_int e) ;;
       resource' <- lift (py_get payload "resource" PNone) ;;
       token_type <- lift (py_get payload "token_type" (PStr "Bearer")) ;;
       ret (PDict [("access_token", access_token);
                   ("expires_in", PInt expires_in);
                   ("resource", resource');
                   ("token_type", token_type)])
     else ret payload)
    (logger_debug "IMDS emits unexpected payload: %s" [text resp]).

Definition _obtain_token_on_app_service (http_client : request -> result response)
    (endpoint identity_header resource : string)
    (client_id object_id mi_res_id : option string) : M pyval :=
  logger_debug "Obtaining token via managed identity on Azure App Service" [] ;;;
  let params := [("api-version", "2019-08-01"); ("resource", resource)] in
  let params := with_identity client_id object_id mi_res_id params in
  resp <- http_client_get http_client
            {| req_url := endpoint;
               req_params := params;
               req_headers := [("X-IDENTITY-HEADER", identity_header);
                               ("Metadata", "true")] |} ;;
  try_except_ValueError
    (payload <- lift (py_json_loads (text resp)) ;;
     ok <- lift (get_and_get payload "access_token" "expires_on") ;;
     if ok then
       access_token <- lift (py_index payload "access_token") ;;
       e <- lift (py_index payload "expires_on") ;;
       expires_on <- lift (py_int e) ;;
       now <- int_time_now ;;
       resource' <- lift (py_get payload "resource" PNone) ;;
       token_type <- lift (py_get payload "token_type" (PStr "Bearer")) ;;
       ret (PDict [("access_token", access_token);
                   ("expires_in", PInt (expires_on - now));
                   ("resource", resource');
                   ("token_type", token_type)])
     else
       statusCode <- lift (py_get payload "statusCode" PNone) ;;
       message <- lift (py_get payload "message" PNone) ;;
       ret (PDict [("error", PStr "invalid_scope");
                   ("error_description",
                    PStr (py_format statusCode ++ ", " ++ py_format message))]))
    (logger_debug "IMDS emits unexpected payload: %s" [text resp]).

(** Service Fabric error codes mapped to OAuth2 errors. *)
Definition error_mapping : list (string * string) :=
  [("SecretHeaderNotFound", "unauthorized_client");
   ("ManagedIdentityNotFound", "invalid_client");
   ("ArgumentNullOrEmpty", "invalid_scope")].

(** [error_mapping.get(code, default)]: a list or a dictionary is not
    hashable; a key that is not a string equals none of the table's. *)
Definition error_mapping_get (code : pyval) (default : string) : result string :=
  match code with
  | PStr c => Ret match dict_lookup error_mapping c with
                  | Some v => v
                  | None => default
                  end
  | PList _ | PDict _ => Raise TypeError
  | _ => Ret default
  end.

Definition _obtain_token_on_service_fabric (http_client : request -> result response)
    (endpoint identity_header server_thumbprint resource : string) : M pyval :=
  logger_debug "Obtaining token via managed identity on Azure Service Fabric" [] ;;;
  resp <- http_client_get http_client
            {| req_url := endpoint;
               req_params := [("api-version", "2019-07-01-preview");
                              ("resource", resource)];
               req_headers := [("Secret", identity_header)] |} ;;
  try_except_ValueError
    (payload <- lift (py_json_loads (text resp)) ;;
     ok <- lift (get_and_get payload "access_token" "expires_on") ;;
     if ok then
       access_token <- lift (py_index payload "access_token") ;;
       expires_on <- lift (py_index payload "expires_on") ;;
       now <- int_time_now ;;
       expires_in <- lift (py_sub_int expires_on now) ;;
       resource' <- lift (py_get payload "resource" PNone) ;;
       token_type <- lift (py_index payload "token_type") ;;
       ret (PDict [("access_token", access_token);
                   ("expires_in", expires_in);
                   ("resource", resource');
                   ("token_type", token_type)])
     else
       error <- lift (py_get payload "error" (PDict [])) ;;
       err <- lift (py_index payload "error") ;;
       code <- lift (py_index err "code") ;;
       mapped <- lift (error_mapping_get code "invalid_request") ;;
       ret (PDict [("error", PStr mapped);
                   ("error_description", PStr (text resp))]))
    (logger_debug "IMDS emits unexpected payload: %s" [text resp]).

(** ** Environment resolver *)

Definition environ_has (k : string) : bool := dict_has os_environ k.

(** The debug message for a descriptor supplied on Service Fabric. *)
Definition ignoring_descriptor : string :=
  "Ignoring client_id/object_id/mi_res_id. "
  ++ "Managed Identity in Service Fabric is configured in the cluster, "
  ++ "not during runtime. See also "
  ++ "https://learn.microsoft.com/en-us/azure/service-fabric/configure-existing-cluster-enable-managed-identity-token-service".

Definition _obtain_token (http_client : request -> result response)
    (resource : string) (client_id object_id mi_res_id : option string)
    : M pyval :=
  if environ_has "IDENTITY_ENDPOINT" && environ_has "IDENTITY_HEADER"
     && environ_has "IDENTITY_SERVER_THUMBPRINT"
  then
    (if truthy_str client_id || truthy_str object_id || truthy_str mi_res_id
     then logger_debug ignoring_descriptor []
     else ret tt) ;;;
    endpoint <- lift (environ_index "IDENTITY_ENDPOINT") ;;
    identity_header <- lift (environ_index "IDENTITY_HEADER") ;;
    server_thumbprint <- lift (environ_index "IDENTITY_SERVER_THUMBPRINT") ;;
    _obtain_token_on_service_fabric http_client
      endpoint identity_header server_thumbprint resource
  else if environ_has "IDENTITY_ENDPOINT" && environ_has "IDENTITY_HEADER"
  then
    endpoint <- lift (environ_index "IDENTITY_ENDPOINT") ;;
    identity_header <- lift (environ_index "IDENTITY_HEADER") ;;
    _obtain_token_on_app_service http_client
      endpoint identity_header resource client_id object_id mi_res_id
  else
    _obtain_token_on_azure_vm http_client
      resource client_id object_id mi_res_id.

(** ** The orchestrator *)

(** A [ManagedIdentity] object.  [_token_cache] is [None] when no cache
    was supplied; a supplied cache object is true in a boolean context. *)
Record ManagedIdentity : Type := {
  _http_client : request -> result response;
  _client_id : option string;
  _object_id : option string;
  _mi_res_id : option string;
  _token_cache : option TokenCache
}.

(** Class attributes: placeholders for the cache key. *)
Definition _instance : string := socket_getfqdn.
Definition _tenant : string := "managed_identity".

Definition __init__ (http_client : request -> result response)
    (client_id object_id mi_res_id : option string)
    (token_cache : option TokenCache) : M ManagedIdentity :=
  if (1 <? length (filter truthy_str [client_id; object_id; mi_res_id]))%nat
  then raise (ValueError
                "You can use up to one of these: client_id, object_id, mi_res_id")
  else ret {| _http_client := http_client;
              _client_id := client_id;
              _object_id := object_id;
              _mi_res_id := mi_res_id;
              _token_cache := token_cache |}.

(** [a or b] where [a] is [None] or a [str] and [b] a non-empty [str]. *)
Definition str_or (a : option string) (b : string) : string :=
  match a with
  | Some s => if truthy_str a then s else b
  | None => b
  end.

(** [k in v] for a string [k]. *)
Definition py_contains (v : pyval) (k : string) : result bool :=
  match v with
  | PDict d => Ret (dict_has d k)
  | PList l => Ret (existsb (fun x => match x with
                                      | PStr s => (s =? k)%string
                                      | _ => false
                                      end) l)
  | PStr s => Ret match index 0 k s with Some _ => true | None => false end
  | _ => Raise TypeError
  end.

(** How the scan of the cache matches ends: with a [return] of a token
    that is still good as new, or by leaving the loop (exhausted, or
    [break] on an aging entry) with the current value of
    [access_token_from_cache]. *)
Inductive scan_exit : Type :=
| Returned (token : pyval)
| Refresh (access_token_from_cache : option pyval).

(** The [for entry in matches] loop of [acquire_token]. *)
Fixpoint scan (matches : list pydict) (now : Q)
    (access_token_from_cache : option pyval) : M scan_exit :=
  match matches with
  | [] => ret (Refresh access_token_from_cache)
  | entry :: rest =>
      e <- lift (dict_index entry "expires_on") ;;
      expires_on <- lift (py_int e) ;;
      let expires_in := (inject_Z expires_on - now)%Q in
      if Qlt_bool expires_in (inject_Z (5 * 60)) then
        scan rest now access_token_from_cache
      else
        logger_debug "Cache hit an AT" [] ;;;
        secret <- lift (dict_index entry "secret") ;;
        let access_token_from_cache :=
          PDict [("access_token", secret);
                 ("token_type", dict_get entry "token_type" (PStr "Bearer"));
                 ("expires_in", PInt (Qtrunc expires_in))] in
        if dict_has entry "refresh_on" then
          r <- lift (dict_index entry "refresh_on") ;;
          refresh_on <- lift (py_int r) ;;
          if Qlt_bool (inject_Z refresh_on) now
          then ret (Refresh (Some access_token_from_cache))
          else ret (Returned access_token_from_cache)
        else ret (Returned access_token_from_cache)
  end.

Definition resource_required : string :=
  "The resource parameter is currently required. "
  ++ "It is only declared as optional in method signature, "
  ++ "in case we want to support scope parameter in the future.".

(** The key under which this identity's tokens are cached. *)
Definition client_id_in_cache (self : ManagedIdentity) : string :=
  str_or (_client_id self)
    (str_or (_object_id self)
       (str_or (_mi_res_id self) "SYSTEM_ASSIGNED_MANAGED_IDENTITY")).

(** The arguments of the [find] call of [acquire_token]. *)
Definition find_call (self : ManagedIdentity) (token_cache : TokenCache)
    (resource : string) : find_args :=
  {| find_credential_type := ACCESS_TOKEN token_cache;
     find_target := [resource];
     find_query := [("client_id", PStr (client_id_in_cache self));
                    ("environment", PStr _instance);
                    ("realm", PStr _tenant);
                    ("home_account_id", PNone)] |}.

(** The arguments of the [add] call of [acquire_token]. *)
Definition add_call (self : ManagedIdentity) (resource : string)
    (result : pyval) : add_args :=
  {| add_client_id := client_id_in_cache self;
     add_scope := [resource];
     add_token_endpoint := "https://" ++ _instance ++ "/" ++ _tenant;
     add_response := result;
     add_params := [];
     add_data := [] |}.

Definition acquire_token (self : ManagedIdentity) (resource : option string)
    : M pyval :=
  if negb (truthy_str resource) then raise (ValueError resource_required)
  else
    let resource := match resource with Some r => r | None => "" end in
    exit <- match _token_cache self with
            | Some token_cache =>
                matches <- cache_find token_cache
                             (find_call self token_cache resource) ;;
                now <- time_now ;;
                scan matches now None
            | None => ret (Refresh None)
            end ;;
    match exit with
    | Returned token => ret token
    | Refresh access_token_from_cache =>
        result <- _obtain_token (_http_client self) resource
                    (_client_id self) (_object_id self) (_mi_res_id self) ;;
        has_token <- match _token_cache self with
                     | Some _ => lift (py_contains result "access_token")
                     | None => ret false
                     end ;;
        match _token_cache self, has_token with
        | Some token_cache, true =>
            cache_add token_cache (add_call self resource result) ;;;
            ret result
        | _, _ =>
            ret match access_token_from_cache with
                | Some token => if truthy token then token else result
                | None => result
                end
        end
    end.

(** ** Vocabulary of the specification *)

(** The backends of the specification's environment resolver, in its
    priority order. *)
Inductive backend : Type := ServiceFabric | AppService | AzureVM.

Definition resolved_backend : backend :=
  if environ_has "IDENTITY_ENDPOINT" && environ_has "IDENTITY_HEADER"
     && environ_has "IDENTITY_SERVER_THUMBPRINT"
  then ServiceFabric
  else if environ_has "IDENTITY_ENDPOINT" && environ_has "IDENTITY_HEADER"
  then AppService
  else AzureVM.

Definition environ_value (k : string) : string :=
  match dict_lookup os_environ k with Some v => v | None => "" end.

(** The request each backend's protocol asks for. *)
Definition backend_request (b : backend) (resource : string)
    (client_id object_id mi_res_id : option string) : request :=
  match b with
  | ServiceFabric =>
      {| req_url := environ_value "IDENTITY_ENDPOINT";
         req_params := [("api-version", "2019-07-01-preview");
                        ("resource", resource)];
         req_headers := [("Secret", environ_value "IDENTITY_HEADER")] |}
  | AppService =>
      {| req_url := environ_value "IDENTITY_ENDPOINT";
         req_params := with_identity client_id object_id mi_res_id
                         [("api-version", "2019-08-01"); ("resource", resource)];
         req_headers := [("X-IDENTITY-HEADER", environ_value "IDENTITY_HEADER");
                         ("Metadata", "true")] |}
  | AzureVM =>
      {| req_url := "http://169.254.169.254/metadata/identity/oauth2/token";
         req_params := with_identity client_id object_id mi_res_id
                         [("api-version", "2018-02-01"); ("resource", resource)];
         req_headers := [("Metadata", "true")] |}
  end.

(** The request [acquire_token] sends when it goes to the network. *)
Definition refresh_request (self : ManagedIdentity) (resource : string) : request :=
  backend_request resolved_backend resource
    (_client_id self) (_object_id self) (_mi_res_id self).

(** An identity selector that is set: supplied and not empty. *)
Definition is_set (o : option string) : Prop :=
  exists v, o = Some v /\ v <> "".

(** Entry [e] expires at the integer instant [z]. *)
Definition expires_at (e : pydict) (z : Z) : Prop :=
  exists v, dict_lookup e "expires_on" = Some v /\ py_int v = Ret z.

(** Past hard expiry at [now]: less than 300 seconds remain. *)
Definition hard_expired (now : Q) (e : pydict) : Prop :=
  exists z, expires_at e z /\ (inject_Z z - now < 300)%Q.

(** Entry [e] carries a [refresh_on] earlier than [now]. *)
Definition aging (now : Q) (e : pydict) : Prop :=
  exists v r, dict_lookup e "refresh_on" = Some v /\ py_int v = Ret r
              /\ (inject_Z r < now)%Q.

(** Entry [e] carries no [refresh_on] earlier than [now]. *)
Definition not_aging (now : Q) (e : pydict) : Prop :=
  dict_lookup e "refresh_on" = None
  \/ exists v r, dict_lookup e "refresh_on" = Some v /\ py_int v = Ret r
                 /\ ~ (inject_Z r < now)%Q.

(** The token [acquire_token] makes of entry [e], which expires at [z]. *)
Definition cached_token (e : pydict) (secret : pyval) (z : Z) (now : Q) : pyval :=
  PDict [("access_token", secret);
         ("token_type", dict_get e "token_type" (PStr "Bearer"));
         ("expires_in", PInt (Qtrunc (inject_Z z - now)))].

(** A Service Fabric error body names its error code: [payload["error"]]
    is a dictionary whose ["code"] can be looked up in the table. *)
Definition carries_error_code (d : pydict) : bool :=
  match dict_lookup d "error" with
  | Some (PDict e) =>
      match dict_lookup e "code" with
      | Some (PList _) | Some (PDict _) | None => false
      | Some _ => true
      end
  | _ => false
  end.

(** The two shapes of a canonical token response. *)
Definition success_record (r : pyval) : bool :=
  match r with
  | PDict d =>
      truthy (dict_get d "access_token" PNone)
      && dict_has d "token_type" && dict_has d "expires_in"
      && dict_has d "resource"
      && negb (dict_has d "error") && negb (dict_has d "error_description")
  | _ => false
  end.

Definition error_record (r : pyval) : bool :=
  match r with
  | PDict d =>
      dict_has d "error" && dict_has d "error_description"
      && negb (dict_has d "access_token")
  | _ => false
  end.

(** The state in which the scan of [acquire_token] starts from [s]: the
    [find] call is logged and the clock has been read once. *)
Definition scanning (self : ManagedIdentity) (token_cache : TokenCache)
    (resource : string) (s : state) : state :=
  {| st_log := st_log s ++ [EvFind (find_call self token_cache resource)];
     st_store := st_store s;
     st_ticks := S (st_ticks s) |}.

(** ** Reading a run *)

Local Open Scope list_scope.

Definition is_debug (e : event) : bool :=
  match e with EvDebug _ _ => true | _ => false end.

(** [m] leaves the cache alone and calls no collaborator but the logger
    and the clock. *)
Definition quiet {A} (m : M A) : Prop :=
  forall s,
    st_store (snd (m s)) = st_store s
    /\ exists l, st_log (snd (m s)) = st_log s ++ l /\ forallb is_debug l = true.

(** [m] leaves the cache alone and sends exactly the request [req]. *)
Definition sends {A} (req : request) (m : M A) : Prop :=
  forall s,
    st_store (snd (m s)) = st_store s
    /\ exists l1 l2,
         st_log (snd (m s)) = st_log s ++ l1 ++ EvGet req :: l2
         /\ forallb is_debug l1 = true /\ forallb is_debug l2 = true.

(** The state after one more debug message. *)
Definition logged (s : state) (fmt : string) : state :=
  {| st_log := st_log s ++ [EvDebug fmt []];
     st_store := st_store s;
     st_ticks := st_ticks s |}.

(** The state after the cache has taken the write [a]. *)
Definition written (token_cache : TokenCache) (a : add_args) (s : state) : state :=
  {| st_log := st_log s ++ [EvAdd a];
     st_store := tc_add token_cache (st_store s) a;
     st_ticks := st_ticks s |}.

(** [access_token_from_cache or result]. *)
Definition or_result (access_token_from_cache : option pyval) (result : pyval)
    : pyval :=
  match access_token_from_cache with
  | Some token => if truthy token then token else result
  | None => result
  end.

(** What [acquire_token] does once the scan has left the loop with
    [access_token_from_cache], in state [s]. *)
Definition refresh (self : ManagedIdentity) (token_cache : TokenCache)
    (resource : string) (access_token_from_cache : option pyval) (s : state)
    : result pyval * state :=
  match _obtain_token (_http_client self) resource
          (_client_id self) (_object_id self) (_mi_res_id self) s with
  | (Raise e, s') => (Raise e, s')
  | (Ret result, s') =>
      match py_contains result "access_token" with
      | Raise e => (Raise e, s')
      | Ret true => (Ret result, written token_cache (add_call self resource result) s')
      | Ret false => (Ret (or_result access_token_from_cache result), s')
      end
  end.

(** The matches the cache returns to [acquire_token] called in state [s]
    (none when no cache is configured). *)
Definition cache_matches (self : ManagedIdentity) (resource : string) (s : state)
    : list pydict :=
  match _token_cache self with
  | Some token_cache => tc_find token_cache (st_store s) (find_call self token_cache resource)
  | None => []
  end.

(** A token the scan hands out was made of a match with at least 300
    seconds left. *)
Definition from_live_entry (matches : list pydict) (now : Q) (token : pyval) : Prop :=
  exists e z secret,
    In e matches /\ expires_at e z /\ (300 <= inject_Z z - now)%Q
    /\ dict_lookup e "secret" = Some secret
    /\ token = cached_token e secret z now.

End Model.


(** ** Concrete scenarios *)

Definition dq : string := String (ascii_of_nat 34) EmptyString.

(** A JSON string literal. *)
Definition js (s : string) : string := dq ++ s ++ dq.

(** [{"access_token":"T","expires_in":"3600"}] *)
Definition body_token : string :=
  "{" ++ js "access_token" ++ ":" ++ js "T" ++ ","
      ++ js "expires_in" ++ ":" ++ js "3600" ++ "}".

(** [{"access_token":"T"}] *)
Definition body_partial : string :=
  "{" ++ js "access_token" ++ ":" ++ js "T" ++ "}".

(** [{"error":{"code":"ManagedIdentityNotFound"}}] *)
Definition body_not_found : string :=
  "{" ++ js "error" ++ ":{" ++ js "code" ++ ":" ++ js "ManagedIdentityNotFound" ++ "}}".

(** [{"error":"invalid_resource"}] *)
Definition body_error : string :=
  "{" ++ js "error" ++ ":" ++ js "invalid_resource" ++ "}".

(** [{}] *)
Definition body_empty : string := "{}".

(** Not JSON. *)
Definition body_html : string := "<html>Bad Gateway</html>".

(** [json.loads] on the bodies above. *)
Definition demo_json_loads (t : string) : option pyval :=
  if (t =? body_token)%string then
    Some (PDict [("access_token", PStr "T"); ("expires_in", PStr "3600")])
  else if (t =? body_partial)%string then
    Some (PDict [("access_token", PStr "T")])
  else if (t =? body_not_found)%string then
    Some (PDict [("error", PDict [("code", PStr "ManagedIdentityNotFound")])])
  else if (t =? body_error)%string then
    Some (PDict [("error", PStr "invalid_resource")])
  else if (t =? body_empty)%string then
    Some (PDict [])
  else None.

Fixpoint digits_value (s : string) (acc : Z) : option Z :=
  match s with
  | EmptyString => Some acc
  | String c s' =>
      if is_digit c
      then digits_value s' (10 * acc + Z.of_nat (code c - 48))
      else None
  end.

(** [int] on strings of decimal digits. *)
Definition demo_int_of_str (s : string) : option Z :=
  match s with
  | EmptyString => None
  | _ => digits_value s 0
  end.

Definition demo_format (v : pyval) : string :=
  match v with
  | PStr s => s
  | PNone => "None"
  | _ => "?"
  end.

(** A machine at time 1000 whose cache store is the list of its entries. *)
Definition demo_runtime (environ : list (string * string)) : Runtime :=
  {| store := list pydict;
     json_loads := demo_json_loads;
     int_of_str := demo_int_of_str;
     py_format := demo_format;
     os_environ := environ;
     time_time := fun _ => 1000 # 1;
     socket_getfqdn := "vm.example" |}.

Definition environ_vm : list (string * string) := [].
Definition environ_app_service : list (string * string) :=
  [("IDENTITY_ENDPOINT", "http://localhost:4141/token");
   ("IDENTITY_HEADER", "secret")].
Definition environ_service_fabric : list (string * string) :=
  [("IDENTITY_ENDPOINT", "https://localhost:2377/token");
   ("IDENTITY_HEADER", "secret");
   ("IDENTITY_SERVER_THUMBPRINT", "0123abcd")].

(** A cache whose [find] returns every entry of the store, in order, and
    whose [add] appends the response it is given. *)
Definition demo_find (c : list pydict) (_ : find_args) : list pydict := c.

Definition demo_add (c : list pydict) (a : add_args) : list pydict :=
  c ++ [match add_response a with PDict d => d | _ => [] end].

Definition demo_cache (environ : list (string * string))
    : @TokenCache (demo_runtime environ) :=
  @Build_TokenCache (demo_runtime environ) "AccessToken" demo_find demo_add.

(** A transport that answers every request with the same body. *)
Definition demo_transport (body : string) (_ : request) : result response :=
  Ret {| status_code := 200; text := body |}.

Definition demo_identity (environ : list (string * string)) (body : string)
    (with_cache : bool) : @ManagedIdentity (demo_runtime environ) :=
  {| _http_client := demo_transport body;
     _client_id := None;
     _object_id := None;
     _mi_res_id := None;
     _token_cache := if with_cache then Some (demo_cache environ) else None |}.

Definition demo_state (environ : list (string * string)) (entries : list pydict)
    : @state (demo_runtime environ) :=
  @Build_state (demo_runtime environ) [] entries 0.

(** Entries as the cache stores them: 1000 seconds left and no
    [refresh_on]; 1000 seconds left and due for refresh since 900; 100
    seconds left. *)
Definition entry_fresh : pydict :=
  [("secret", PStr "FRESH"); ("expires_on", PStr "2000")].
Definition entry_aging : pydict :=
  [("secret", PStr "AGING"); ("expires_on", PStr "2000"); ("refresh_on", PStr "900")].
Definition entry_expired : pydict :=
  [("secret", PStr "EXPIRED"); ("expires_on", PStr "1100"); ("refresh_on", PStr "900")].

Definition demo_resource : string := "https://management.azure.com".


(** *** More scenarios *)

(** [{"access_token":"T","expires_on":"4600"}] *)
Definition body_expires_on : string :=
  "{" ++ js "access_token" ++ ":" ++ js "T" ++ ","
      ++ js "expires_on" ++ ":" ++ js "4600" ++ "}".

(** [{"access_token":"T","expires_on":4600,"token_type":"Bearer"}] *)
Definition body_fabric_token : string :=
  "{" ++ js "access_token" ++ ":" ++ js "T" ++ ","
      ++ js "expires_on" ++ ":4600,"
      ++ js "token_type" ++ ":" ++ js "Bearer" ++ "}".

(** A JSON array. *)
Definition body_array : string := "[]".

(** [json.loads] on the bodies of both groups. *)
Definition lab_json_loads (t : string) : option pyval :=
  if (t =? body_expires_on)%string then
    Some (PDict [("access_token", PStr "T"); ("expires_on", PStr "4600")])
  else if (t =? body_fabric_token)%string then
    Some (PDict [("access_token", PStr "T"); ("expires_on", PInt 4600);
                 ("token_type", PStr "Bearer")])
  else if (t =? body_array)%string then Some (PList [])
  else demo_json_loads t.

(** A machine whose clock reads 1000.5. *)
Definition lab_runtime (environ : list (string * string)) : Runtime :=
  {| store := list pydict;
     json_loads := lab_json_loads;
     int_of_str := demo_int_of_str;
     py_format := demo_format;
     os_environ := environ;
     time_time := fun _ => 2001 # 2;
     socket_getfqdn := "vm.example" |}.

Definition lab_cache (environ : list (string * string))
    : @TokenCache (lab_runtime environ) :=
  @Build_TokenCache (lab_runtime environ) "AccessToken" demo_find demo_add.

Definition lab_identity (environ : list (string * string))
    (http_client : request -> result response)
    (client_id object_id mi_res_id : option string) (with_cache : bool)
    : @ManagedIdentity (lab_runtime environ) :=
  {| _http_client := http_client;
     _client_id := client_id;
     _object_id := object_id;
     _mi_res_id := mi_res_id;
     _token_cache := if with_cache then Some (lab_cache environ) else None |}.

Definition lab_state (environ : list (string * string)) (entries : list pydict)
    : @state (lab_runtime environ) :=
  @Build_state (lab_runtime environ) [] entries 0.

(** A transport that cannot connect. *)
Definition transport_down (_ : request) : result response :=
  Raise (TransportError "connection refused").

(** A cache entry without [expires_on]. *)
Definition entry_without_expiry : pydict := [("secret", PStr "S")].

(** The [hostname] of a parse result whose authority is a bare host. *)
Definition bare_hostname (u : ParseResult) : option string :=
  match netloc u with
  | EmptyString => None
  | host => Some (str_map ascii_lower host)
  end.

(** ** Authority URLs (msal/authority.py) *)

(** [s.rstrip(chars)], with [f] deciding membership in [chars]. *)
Fixpoint str_rstrip (f : ascii -> bool) (s : string) : string :=
  match s with
  | EmptyString => EmptyString
  | String c s' =>
      match str_rstrip f s' with
      | EmptyString => if f c then EmptyString else String c EmptyString
      | r => String c r
      end
  end.

(** [s.strip(chars)]. *)
Definition str_strip (f : ascii -> bool) (s : string) : string :=
  str_lstrip f (str_rstrip f s).

(** [s.split(sep)] for a separator of one character. *)
Fixpoint str_split (sep : ascii) (s : string) : list string :=
  match s with
  | EmptyString => [EmptyString]
  | String c s' =>
      if Ascii.eqb c sep then EmptyString :: str_split sep s'
      else match str_split sep s' with
           | p :: ps => String c p :: ps
           | [] => [String c EmptyString]
           end
  end.

(** The last character of [s]. *)
Fixpoint str_last (s : string) : option ascii :=
  match s with
  | EmptyString => None
  | String c EmptyString => Some c
  | String _ s' => str_last s'
  end.

(** The first character of [s]. *)
Definition str_first (s : string) : option ascii :=
  match s with
  | EmptyString => None
  | String c _ => Some c
  end.

Definition is_slash (c : ascii) : bool := Ascii.eqb c "/".

(** Characters of a plain host: ASCII, none of the delimiters of an
    authority, no bracket, no tab or line break. *)
Definition is_host_char (c : ascii) : bool :=
  (code c <? 128)%nat && negb (str_mem c "/?#[]") && negb (is_unsafe_url_byte c).

(** Characters that stay in the path: no [?], [#] or [;], no tab or line
    break. *)
Definition is_path_char (c : ascii) : bool :=
  negb (str_mem c "?#;") && negb (is_unsafe_url_byte c).

Module Authority.

Record AuthorityBuilder : Type := {
  _instance : string;
  _tenant : string
}.

Definition __init__ (instance tenant : string) : AuthorityBuilder :=
  {| _instance := str_rstrip is_slash instance;
     _tenant := str_strip is_slash tenant |}.

Definition __str__ (self : AuthorityBuilder) : string :=
  "https://" ++ _instance self ++ "/" ++ _tenant self.

Section Canonicalize.

(** [urlparse], and the [hostname] attribute of what it returns ([None]
    when the authority names no host). *)
Variable urlparse : string -> result ParseResult.
Variable hostname : ParseResult -> option string.

Definition address_message (authority_url : string) : string :=
  "Your given address (" ++ authority_url ++ ") should consist of "
  ++ "an https url with a minimum of one segment in a path: e.g. "
  ++ "https://login.microsoftonline.com/<tenant> "
  ++ "or https://<tenant_name>.b2clogin.com/<tenant_name>.onmicrosoft.com/policy".

Definition canonicalize (authority_url : string)
    : result (ParseResult * option string * string) :=
  match urlparse authority_url with
  | Raise e => Raise e
  | Ret authority =>
      let parts := str_split "/" (path authority) in
      if negb (scheme authority =? "https")%string
         || (List.length parts <? 2)%nat
         || negb (truthy (PStr (nth 1 parts "")))
      then Raise (ValueError (address_message authority_url))
      else Ret (authority, hostname authority, nth 1 parts "")
  end.

End Canonicalize.

End Authority.

(** ** Further vocabulary *)

(** A query parameter that selects an identity. *)
Definition is_identity_param (p : string * string) : bool :=
  (fst p =? "client_id")%string || (fst p =? "object_id")%string
  || (fst p =? "mi_res_id")%string.

(** The debug message with which each adapter starts. *)
Definition backend_banner (b : backend) : string :=
  match b with
  | ServiceFabric => "Obtaining token via managed identity on Azure Service Fabric"
  | AppService => "Obtaining token via managed identity on Azure App Service"
  | AzureVM => "Obtaining token via managed identity on Azure VM"
  end.

Section Normalization.

Context {RT : Runtime}.

(** A successful response of each backend and the token it is normalized
    to, after the specification's table of adapters: the body [d] has a
    true [access_token] and a true expiry field ([expires_in] on the Azure
    VM, [expires_on] elsewhere), and Service Fabric also needs
    [token_type]; [now] is the clock's whole second at that moment. *)
Inductive normalizes (now : Z) (d : pydict) : backend -> pyval -> Prop :=
| normalizes_azure_vm (token expires : pyval) (n : Z) :
    dict_lookup d "access_token" = Some token -> truthy token = true ->
    dict_lookup d "expires_in" = Some expires -> truthy expires = true ->
    py_int expires = Ret n ->
    normalizes now d AzureVM
      (PDict [("access_token", token);
              ("expires_in", PInt n);
              ("resource", dict_get d "resource" PNone);
              ("token_type", dict_get d "token_type" (PStr "Bearer"))])
| normalizes_app_service (token expires : pyval) (n : Z) :
    dict_lookup d "access_token" = Some token -> truthy token = true ->
    dict_lookup d "expires_on" = Some expires -> truthy expires = true ->
    py_int expires = Ret n ->
    normalizes now d AppService
      (PDict [("access_token", token);
              ("expires_in", PInt (n - now));
              ("resource", dict_get d "resource" PNone);
              ("token_type", dict_get d "token_type" (PStr "Bearer"))])
| normalizes_service_fabric (token expires expires_in token_type : pyval) :
    dict_lookup d "access_token" = Some token -> truthy token = true ->
    dict_lookup d "expires_on" = Some expires -> truthy expires = true ->
    py_sub_int expires now = Ret expires_in ->
    dict_lookup d "token_type" = Some token_type ->
    normalizes now d ServiceFabric
      (PDict [("access_token", token);
              ("expires_in", expires_in);
              ("resource", dict_get d "resource" PNone);
              ("token_type", token_type)]).

End Normalization.

(** ** Properties *)

Section Properties.

Context {RT : Runtime}.

Local Open Scope list_scope.

(** *** Counting events *)

Lemma gets_app (l l' : list event) : gets (l ++ l') = (gets l + gets l')%nat.
Proof. unfold gets. now rewrite filter_app, length_app. Qed.

Lemma adds_app (l l' : list event) : adds (l ++ l') = (adds l + adds l')%nat.
Proof. unfold adds. now rewrite filter_app, length_app. Qed.

Lemma debug_only_counts (l : list event) :
  forallb is_debug l = true -> gets l = 0%nat /\ adds l = 0%nat.
Proof.
  unfold gets, adds.
  induction l as [|e l IH]; simpl; [easy|].
  destruct e; simpl; try discriminate; auto.
Qed.

Lemma debug_only_app (l l' : list event) :
  forallb is_debug l = true -> forallb is_debug l' = true ->
  forallb is_debug (l ++ l') = true.
Proof. intros H H'. rewrite forallb_app, H, H'. reflexivity. Qed.

(** *** The effects of the building blocks *)

Lemma quiet_ret {A} (a : A) : quiet (ret a).
Proof. intros s; split; [reflexivity|]. exists []. now rewrite app_nil_r. Qed.

Lemma quiet_raise {A} (e : exn) : quiet (@raise _ A e).
Proof. intros s; split; [reflexivity|]. exists []. now rewrite app_nil_r. Qed.

Lemma quiet_lift {A} (r : result A) : quiet (lift r).
Proof. intros s; split; [reflexivity|]. exists []. now rewrite app_nil_r. Qed.

Lemma quiet_logger_debug (fmt : string) (args : list string) :
  quiet (logger_debug fmt args).
Proof. intros s; split; [reflexivity|]. now exists [EvDebug fmt args]. Qed.

Lemma quiet_time_now : quiet time_now.
Proof. intros s; split; [reflexivity|]. exists []. now rewrite app_nil_r. Qed.

Lemma quiet_bind {A B} (m : M A) (k : A -> M B) :
  quiet m -> (forall a, quiet (k a)) -> quiet (bind m k).
Proof.
  intros Hm Hk s. unfold bind.
  destruct (Hm s) as [Hst [l [Hl Hd]]].
  destruct (m s) as [[a|e] s1]; simpl in *.
  - destruct (Hk a s1) as [Hst' [l' [Hl' Hd']]].
    split; [congruence|].
    exists (l ++ l'). rewrite Hl', Hl, app_assoc. auto using debug_only_app.
  - split; [assumption|]. now exists l.
Qed.

Lemma quiet_int_time_now : quiet int_time_now.
Proof. apply quiet_bind; [apply quiet_time_now | intros; apply quiet_ret]. Qed.

Lemma quiet_try {A} (body : M A) (handler : M unit) :
  quiet body -> quiet handler -> quiet (try_except_ValueError body handler).
Proof.
  intros Hb Hh s. unfold try_except_ValueError.
  destruct (Hb s) as [Hst [l [Hl Hd]]].
  destruct (body s) as [[a|e] s1]; simpl in *.
  - split; [assumption|]. now exists l.
  - assert (Hq : forall r : result A * state,
               snd r = s1 ->
               st_store (snd r) = st_store s
               /\ exists l0, st_log (snd r) = st_log s ++ l0
                             /\ forallb is_debug l0 = true).
    { intros r ->. split; [assumption|]. now exists l. }
    destruct e; try (apply Hq; reflexivity).
    destruct (Hh s1) as [Hst' [l' [Hl' Hd']]].
    destruct (handler s1) as [[u|e'] s2]; simpl in *;
      (split; [congruence|]; exists (l ++ l');
       rewrite Hl', Hl, app_assoc; auto using debug_only_app).
Qed.

Lemma sends_http_client_get (http_client : request -> result response)
    (req : request) : sends req (http_client_get http_client req).
Proof.
  intros s. unfold http_client_get, bind, emit, lift. simpl.
  destruct (http_client req); simpl;
    (split; [reflexivity|]; exists [], []; auto).
Qed.

Lemma sends_then_quiet {A B} (req : request) (m : M A) (k : A -> M B) :
  sends req m -> (forall a, quiet (k a)) -> sends req (bind m k).
Proof.
  intros Hm Hk s. unfold bind.
  destruct (Hm s) as [Hst [l1 [l2 [Hl [Hd1 Hd2]]]]].
  destruct (m s) as [[a|e] s1]; simpl in *.
  - destruct (Hk a s1) as [Hst' [l' [Hl' Hd']]].
    split; [congruence|].
    exists l1, (l2 ++ l'). rewrite Hl', Hl.
    repeat split; auto using debug_only_app.
    now rewrite <- !app_assoc.
  - split; [assumption|]. now exists l1, l2.
Qed.

Lemma sends_after_debug {A} (req : request) (fmt : string) (args : list string)
    (m : M A) :
  sends req m -> sends req (bind (logger_debug fmt args) (fun _ => m)).
Proof.
  intros Hm s. unfold bind, logger_debug, emit. simpl.
  destruct (Hm {| st_log := st_log s ++ [EvDebug fmt args];
                  st_store := st_store s;
                  st_ticks := st_ticks s |})
    as [Hst [l1 [l2 [Hl [Hd1 Hd2]]]]]; simpl in *.
  split; [assumption|].
  exists (EvDebug fmt args :: l1), l2. rewrite Hl.
  repeat split; auto.
  now rewrite <- !app_assoc.
Qed.

(** *** The effects of the adapters *)

Ltac quiet_steps :=
  repeat first
    [ apply quiet_ret | apply quiet_raise | apply quiet_lift
    | apply quiet_logger_debug | apply quiet_int_time_now | apply quiet_time_now
    | apply quiet_try
    | apply quiet_bind; [|intros]
    | match goal with
      | |- quiet (if ?b then _ else _) => destruct b
      end ].

Lemma azure_vm_sends (http_client : request -> result response)
    (resource : string) (client_id object_id mi_res_id : option string) :
  sends (backend_request AzureVM resource client_id object_id mi_res_id)
        (_obtain_token_on_azure_vm http_client resource client_id object_id mi_res_id).
Proof.
  unfold _obtain_token_on_azure_vm.
  apply sends_after_debug, sends_then_quiet; [apply sends_http_client_get|].
  intros resp. quiet_steps.
Qed.

Lemma app_service_sends (http_client : request -> result response)
    (resource : string) (client_id object_id mi_res_id : option string) :
  sends (backend_request AppService resource client_id object_id mi_res_id)
        (_obtain_token_on_app_service http_client
           (environ_value "IDENTITY_ENDPOINT") (environ_value "IDENTITY_HEADER")
           resource client_id object_id mi_res_id).
Proof.
  unfold _obtain_token_on_app_service.
  apply sends_after_debug, sends_then_quiet; [apply sends_http_client_get|].
  intros resp. quiet_steps.
Qed.

Lemma service_fabric_sends (http_client : request -> result response)
    (thumbprint resource : string) (client_id object_id mi_res_id : option string) :
  sends (backend_request ServiceFabric resource client_id object_id mi_res_id)
        (_obtain_token_on_service_fabric http_client
           (environ_value "IDENTITY_ENDPOINT") (environ_value "IDENTITY_HEADER")
           thumbprint resource).
Proof.
  unfold _obtain_token_on_service_fabric.
  apply sends_after_debug, sends_then_quiet; [apply sends_http_client_get|].
  intros resp. quiet_steps.
Qed.

Lemma environ_index_has (k : string) :
  environ_has k = true -> environ_index k = Ret (environ_value k).
Proof.
  unfold environ_has, dict_has, environ_index, environ_value.
  now destruct (dict_lookup os_environ k).
Qed.

(** On Service Fabric [_obtain_token] is the adapter, which takes no
    identity descriptor; a supplied one costs a debug message. *)
Lemma obtain_token_service_fabric (http_client : request -> result response)
    (resource : string) (client_id object_id mi_res_id : option string) (s : state) :
  resolved_backend = ServiceFabric ->
  _obtain_token http_client resource client_id object_id mi_res_id s
  = _obtain_token_on_service_fabric http_client
      (environ_value "IDENTITY_ENDPOINT") (environ_value "IDENTITY_HEADER")
      (environ_value "IDENTITY_SERVER_THUMBPRINT") resource
      (if truthy_str client_id || truthy_str object_id || truthy_str mi_res_id
       then logged s ignoring_descriptor else s).
Proof.
  unfold resolved_backend, _obtain_token.
  destruct (environ_has "IDENTITY_ENDPOINT") eqn:HE;
    destruct (environ_has "IDENTITY_HEADER") eqn:HH;
    destruct (environ_has "IDENTITY_SERVER_THUMBPRINT") eqn:HT;
    simpl; try discriminate.
  intros _.
  rewrite (environ_index_has _ HE), (environ_index_has _ HH), (environ_index_has _ HT).
  destruct (truthy_str client_id || truthy_str object_id || truthy_str mi_res_id);
    reflexivity.
Qed.

Lemma obtain_token_app_service (http_client : request -> result response)
    (resource : string) (client_id object_id mi_res_id : option string) (s : state) :
  resolved_backend = AppService ->
  _obtain_token http_client resource client_id object_id mi_res_id s
  = _obtain_token_on_app_service http_client
      (environ_value "IDENTITY_ENDPOINT") (environ_value "IDENTITY_HEADER")
      resource client_id object_id mi_res_id s.
Proof.
  unfold resolved_backend, _obtain_token.
  destruct (environ_has "IDENTITY_ENDPOINT") eqn:HE;
    destruct (environ_has "IDENTITY_HEADER") eqn:HH;
    destruct (environ_has "IDENTITY_SERVER_THUMBPRINT") eqn:HT;
    simpl; try discriminate; intros _;
    now rewrite (environ_index_has _ HE), (environ_index_has _ HH).
Qed.

Lemma obtain_token_azure_vm (http_client : request -> result response)
    (resource : string) (client_id object_id mi_res_id : option string) (s : state) :
  resolved_backend = AzureVM ->
  _obtain_token http_client resource client_id object_id mi_res_id s
  = _obtain_token_on_azure_vm http_client
      resource client_id object_id mi_res_id s.
Proof.
  unfold resolved_backend, _obtain_token.
  destruct (environ_has "IDENTITY_ENDPOINT") eqn:HE;
    destruct (environ_has "IDENTITY_HEADER") eqn:HH;
    destruct (environ_has "IDENTITY_SERVER_THUMBPRINT") eqn:HT;
    simpl; try discriminate; reflexivity.
Qed.

Lemma obtain_token_sends (http_client : request -> result response)
    (resource : string) (client_id object_id mi_res_id : option string) :
  sends (backend_request resolved_backend resource client_id object_id mi_res_id)
        (_obtain_token http_client resource client_id object_id mi_res_id).
Proof.
  intros s. destruct resolved_backend eqn:Hb.
  - rewrite obtain_token_service_fabric by assumption.
    destruct (truthy_str client_id || truthy_str object_id || truthy_str mi_res_id).
    + destruct (service_fabric_sends http_client
                  (environ_value "IDENTITY_SERVER_THUMBPRINT") resource
                  client_id object_id mi_res_id (logged s ignoring_descriptor))
        as [Hst [l1 [l2 [Hl [Hd1 Hd2]]]]].
      split; [exact Hst|].
      exists (EvDebug ignoring_descriptor [] :: l1), l2.
      rewrite Hl. simpl. rewrite <- app_assoc. auto.
    + apply service_fabric_sends.
  - rewrite obtain_token_app_service by assumption. apply app_service_sends.
  - rewrite obtain_token_azure_vm by assumption. apply azure_vm_sends.
Qed.

(** *** The scan of the cache matches *)

Lemma Qlt_bool_iff (x y : Q) : Qlt_bool x y = true <-> (x < y)%Q.
Proof.
  unfold Qlt_bool. rewrite negb_true_iff.
  split.
  - intros H. apply Qnot_le_lt. intros Hle.
    apply Qle_bool_iff in Hle. congruence.
  - intros H. destruct (Qle_bool y x) eqn:E; [|reflexivity].
    apply Qle_bool_iff in E. exfalso. revert E. now apply Qlt_not_le.
Qed.

Lemma Qlt_bool_false (x y : Q) : Qlt_bool x y = false <-> ~ (x < y)%Q.
Proof.
  rewrite <- Qlt_bool_iff. destruct (Qlt_bool x y); split; congruence.
Qed.

Lemma expires_at_inj (e : pydict) (z z' : Z) :
  expires_at e z -> expires_at e z' -> z = z'.
Proof. intros [v [Hv Hz]] [v' [Hv' Hz']]. congruence. Qed.

(** An entry past its hard expiry is skipped. *)
Lemma scan_expired (e : pydict) (rest : list pydict) (now : Q)
    (acc : option pyval) (s : state) :
  hard_expired now e -> scan (e :: rest) now acc s = scan rest now acc s.
Proof.
  intros [z [[v [Hv Hz]] Hlt]].
  apply Qlt_bool_iff in Hlt.
  cbn [scan]. unfold bind, lift, dict_index. rewrite Hv, Hz.
  change (inject_Z (5 * 60)) with 300%Q. now rewrite Hlt.
Qed.

Lemma scan_expired_prefix (pre rest : list pydict) (now : Q)
    (acc : option pyval) (s : state) :
  Forall (hard_expired now) pre ->
  scan (pre ++ rest) now acc s = scan rest now acc s.
Proof.
  induction 1 as [|e pre He _ IH]; [reflexivity|].
  rewrite <- app_comm_cons, scan_expired by assumption. exact IH.
Qed.

(** A live entry due for refresh ends the scan with a fallback in hand. *)
Lemma scan_aging (e : pydict) (rest : list pydict) (now : Q)
    (acc : option pyval) (s : state) (z : Z) (secret : pyval) :
  expires_at e z -> (300 <= inject_Z z - now)%Q ->
  dict_lookup e "secret" = Some secret ->
  aging now e ->
  scan (e :: rest) now acc s
  = (Ret (Refresh (Some (cached_token e secret z now))), logged s "Cache hit an AT").
Proof.
  intros [v [Hv Hz]] Hlive Hs [rv [r [Hrv [Hr Hlt]]]].
  apply Qle_not_lt, Qlt_bool_false in Hlive.
  apply Qlt_bool_iff in Hlt.
  cbn [scan]. unfold bind, lift, dict_index, dict_has, logger_debug, emit, ret.
  rewrite Hv, Hz.
  change (inject_Z (5 * 60)) with 300%Q. rewrite Hlive.
  cbn. rewrite Hs, Hrv, Hr. cbn. now rewrite Hlt.
Qed.

(** A live entry not due for refresh is returned at once. *)
Lemma scan_fresh (e : pydict) (rest : list pydict) (now : Q)
    (acc : option pyval) (s : state) (z : Z) (secret : pyval) :
  expires_at e z -> (300 <= inject_Z z - now)%Q ->
  dict_lookup e "secret" = Some secret ->
  not_aging now e ->
  scan (e :: rest) now acc s
  = (Ret (Returned (cached_token e secret z now)), logged s "Cache hit an AT").
Proof.
  intros [v [Hv Hz]] Hlive Hs Hna.
  apply Qle_not_lt, Qlt_bool_false in Hlive.
  cbn [scan]. unfold bind, lift, dict_index, dict_has, logger_debug, emit, ret.
  rewrite Hv, Hz.
  change (inject_Z (5 * 60)) with 300%Q. rewrite Hlive.
  cbn. rewrite Hs.
  destruct Hna as [Hno | [rv [r [Hrv [Hr Hnlt]]]]].
  - now rewrite Hno.
  - apply Qlt_bool_false in Hnlt. rewrite Hrv, Hr. cbn. now rewrite Hnlt.
Qed.

Lemma scan_quiet (matches : list pydict) (now : Q) (acc : option pyval) :
  quiet (scan matches now acc).
Proof.
  induction matches as [|e rest IH]; cbn [scan]; [apply quiet_ret|].
  apply quiet_bind; [apply quiet_lift|intros v].
  apply quiet_bind; [apply quiet_lift|intros z].
  destruct (Qlt_bool _ _); [exact IH|]. quiet_steps.
Qed.

Lemma from_live_entry_cons (e : pydict) (matches : list pydict) (now : Q)
    (token : pyval) :
  from_live_entry matches now token -> from_live_entry (e :: matches) now token.
Proof.
  intros [e' [z [secret [Hin H]]]]. exists e', z, secret.
  split; [now right|exact H].
Qed.

Lemma scan_provenance (matches : list pydict) (now : Q) (acc : option pyval)
    (s : state) :
  match fst (scan matches now acc s) with
  | Ret (Returned token) => from_live_entry matches now token
  | Ret (Refresh (Some token)) =>
      acc = Some token \/ from_live_entry matches now token
  | _ => True
  end.
Proof.
  revert s. induction matches as [|e rest IH]; intros s.
  - cbn. destruct acc; auto.
  - cbn [scan]. unfold bind, lift, dict_index.
    destruct (dict_lookup e "expires_on") as [v|] eqn:Hv; cbn; [|exact I].
    destruct (py_int v) as [z|] eqn:Hz; cbn; [|exact I].
    match goal with
    | |- context [Qlt_bool ?a ?b] => destruct (Qlt_bool a b) eqn:Hlt
    end.
    + specialize (IH s).
      destruct (fst (scan rest now acc s)) as [[token|[token|]]|]; auto.
      * now apply from_live_entry_cons.
      * destruct IH; [now left|right; now apply from_live_entry_cons].
    + apply Qlt_bool_false, Qnot_lt_le in Hlt.
      assert (Hlive : forall secret, dict_lookup e "secret" = Some secret ->
                from_live_entry (e :: rest) now (cached_token e secret z now)).
      { intros secret Hs. exists e, z, secret.
        split; [now left|]. split; [now exists v|]. split; [exact Hlt|]. auto. }
      unfold logger_debug, emit, ret, dict_has. cbn.
      destruct (dict_lookup e "secret") as [secret|] eqn:Hs; cbn; [|exact I].
      destruct (dict_lookup e "refresh_on") as [rv|]; cbn; [|now apply Hlive].
      destruct (py_int rv) as [r|]; cbn; [|exact I].
      destruct (Qlt_bool (inject_Z r) now); cbn; [right|]; now apply Hlive.
Qed.

(** *** The shape of a run of [acquire_token] *)

Lemma truthy_str_some (r : string) : r <> ""%string -> truthy_str (Some r) = true.
Proof.
  intros H. unfold truthy_str. destruct (String.eqb_spec r ""); [contradiction|reflexivity].
Qed.

Lemma truthy_str_false (r : option string) :
  truthy_str r = false <-> r = None \/ r = Some ""%string.
Proof.
  destruct r as [r|]; simpl.
  - destruct (String.eqb_spec r ""); subst; simpl; split; auto.
    + intros; discriminate.
    + intros [H|H]; congruence.
  - split; auto.
Qed.

Lemma acquire_token_no_resource (self : ManagedIdentity) (resource : option string)
    (s : state) :
  truthy_str resource = false ->
  acquire_token self resource s = (Raise (ValueError resource_required), s).
Proof. intros H. unfold acquire_token. now rewrite H. Qed.

Lemma acquire_token_uncached (self : ManagedIdentity) (resource : string) (s : state) :
  _token_cache self = None -> resource <> ""%string ->
  acquire_token self (Some resource) s
  = _obtain_token (_http_client self) resource
      (_client_id self) (_object_id self) (_mi_res_id self) s.
Proof.
  intros Hc Hr. unfold acquire_token.
  rewrite (truthy_str_some _ Hr), Hc. unfold bind, ret; cbn.
  now destruct (_obtain_token _ _ _ _ _ s) as [[result|e] s'].
Qed.

Lemma acquire_token_cached (self : ManagedIdentity) (token_cache : TokenCache)
    (resource : string) (s : state) :
  _token_cache self = Some token_cache -> resource <> ""%string ->
  acquire_token self (Some resource) s
  = match scan (tc_find token_cache (st_store s) (find_call self token_cache resource))
            (time_time (st_ticks s)) None (scanning self token_cache resource s) with
    | (Raise e, s') => (Raise e, s')
    | (Ret (Returned token), s') => (Ret token, s')
    | (Ret (Refresh access_token_from_cache), s') =>
        refresh self token_cache resource access_token_from_cache s'
    end.
Proof.
  intros Hc Hr. unfold acquire_token, refresh.
  rewrite (truthy_str_some _ Hr), Hc.
  unfold bind, ret, cache_find, emit, time_now, lift, scanning; cbn.
  destruct (scan _ _ None _) as [[[token|cand]|e] s1]; try reflexivity.
  destruct (_obtain_token _ _ _ _ _ s1) as [[result|e] s2]; try reflexivity.
  destruct (py_contains result "access_token") as [[|]|e]; reflexivity.
Qed.

Lemma gets_sent (l1 l2 : list event) (req : request) :
  forallb is_debug l1 = true -> forallb is_debug l2 = true ->
  gets (l1 ++ EvGet req :: l2) = 1%nat /\ adds (l1 ++ EvGet req :: l2) = 0%nat.
Proof.
  intros H1 H2.
  destruct (debug_only_counts _ H1) as [G1 A1].
  destruct (debug_only_counts _ H2) as [G2 A2].
  rewrite gets_app, adds_app, G1, A1.
  change (EvGet req :: l2) with ([EvGet req] ++ l2).
  rewrite gets_app, adds_app, G2, A2. split; reflexivity.
Qed.

(** The refresh step sends the backend's request once; it writes to the
    cache at most once, and only the result it returns. *)
Lemma refresh_effects (self : ManagedIdentity) (token_cache : TokenCache)
    (resource : string) (cand : option pyval) (s : state) :
  let out := refresh self token_cache resource cand s in
  exists l,
    st_log (snd out) = st_log s ++ l /\ gets l = 1%nat
    /\ filter is_get l = [EvGet (refresh_request self resource)]
    /\ ((adds l = 0%nat /\ st_store (snd out) = st_store s)
        \/ exists result l0,
             fst out = Ret result
             /\ l = l0 ++ [EvAdd (add_call self resource result)]
             /\ adds l0 = 0%nat
             /\ st_store (snd out)
                = tc_add token_cache (st_store s) (add_call self resource result)).
Proof.
  unfold refresh.
  destruct (obtain_token_sends (_http_client self) resource
              (_client_id self) (_object_id self) (_mi_res_id self) s)
    as [Hst [l1 [l2 [Hl [Hd1 Hd2]]]]].
  destruct (gets_sent l1 l2 (refresh_request self resource) Hd1 Hd2) as [Hg Ha].
  assert (Hf : filter is_get (l1 ++ EvGet (refresh_request self resource) :: l2)
               = [EvGet (refresh_request self resource)]).
  { rewrite filter_app. cbn.
    assert (Hn : forall l, forallb is_debug l = true -> filter is_get l = []).
    { induction l as [|x l IH]; cbn; [easy|].
      destruct x; cbn; try discriminate; auto. }
    now rewrite (Hn _ Hd1), (Hn _ Hd2). }
  fold (refresh_request self resource) in Hl.
  destruct (_obtain_token _ _ _ _ _ s) as [[result|e] s1]; cbn in *.
  - destruct (py_contains result "access_token") as [[|]|e]; cbn.
    + exists ((l1 ++ EvGet (refresh_request self resource) :: l2)
              ++ [EvAdd (add_call self resource result)]).
      rewrite Hl. split; [now rewrite <- !app_assoc|].
      split; [rewrite gets_app, Hg; reflexivity|].
      split; [rewrite filter_app, Hf; reflexivity|].
      right. exists result, (l1 ++ EvGet (refresh_request self resource) :: l2).
      rewrite Hst. auto.
    + eexists; repeat split; eauto.
    + eexists; repeat split; eauto.
  - eexists; repeat split; eauto.
Qed.

(** The scan phase logs the [find] call and debug messages only. *)
Lemma scan_phase_effects (self : ManagedIdentity) (token_cache : TokenCache)
    (resource : string) (s : state) (matches : list pydict) (now : Q) :
  let out := scan matches now None (scanning self token_cache resource s) in
  st_store (snd out) = st_store s
  /\ exists l, st_log (snd out) = st_log s ++ l
               /\ gets l = 0%nat /\ adds l = 0%nat.
Proof.
  destruct (scan_quiet matches now None (scanning self token_cache resource s))
    as [Hst [l [Hl Hd]]].
  split; [exact Hst|].
  exists (EvFind (find_call self token_cache resource) :: l).
  destruct (debug_only_counts _ Hd) as [Hg Ha].
  split; [rewrite Hl; cbn; now rewrite <- app_assoc|].
  split; [exact Hg|exact Ha].
Qed.

(** *** What the adapters return *)

Ltac run_adapter :=
  unfold _obtain_token_on_azure_vm, _obtain_token_on_app_service,
    _obtain_token_on_service_fabric, http_client_get, try_except_ValueError,
    int_time_now, time_now, logger_debug, emit, bind, lift, ret, py_json_loads;
  cbn.

(** A body that is not JSON raises [ValueError] on every backend. *)
Lemma obtain_token_parse_error (http_client : request -> result response)
    (resource : string) (client_id object_id mi_res_id : option string)
    (resp : response) (s : state) :
  http_client (backend_request resolved_backend resource client_id object_id mi_res_id)
  = Ret resp ->
  json_loads (text resp) = None ->
  fst (_obtain_token http_client resource client_id object_id mi_res_id s)
  = Raise (ValueError "json").
Proof.
  intros Hh Hj. destruct resolved_backend eqn:Hb.
  - rewrite obtain_token_service_fabric by assumption.
    run_adapter. cbn in Hh. rewrite Hh. cbn. now rewrite Hj.
  - rewrite obtain_token_app_service by assumption.
    run_adapter. cbn in Hh. rewrite Hh. cbn. now rewrite Hj.
  - rewrite obtain_token_azure_vm by assumption.
    run_adapter. cbn in Hh. rewrite Hh. cbn. now rewrite Hj.
Qed.

Lemma dict_get_missing (d : pydict) (k : string) (default : pyval) :
  dict_has d k = false -> dict_get d k default = default.
Proof. unfold dict_has, dict_get. now destruct (dict_lookup d k). Qed.

(** A JSON object without [access_token] comes back as a result without
    [access_token]; on Service Fabric, provided it names an error code. *)
Lemma obtain_token_protocol_error (http_client : request -> result response)
    (resource : string) (client_id object_id mi_res_id : option string)
    (resp : response) (d : pydict) (s : state) :
  http_client (backend_request resolved_backend resource client_id object_id mi_res_id)
  = Ret resp ->
  json_loads (text resp) = Some (PDict d) ->
  dict_has d "access_token" = false ->
  (resolved_backend = ServiceFabric -> carries_error_code d = true) ->
  exists result,
    fst (_obtain_token http_client resource client_id object_id mi_res_id s)
    = Ret result
    /\ py_contains result "access_token" = Ret false.
Proof.
  intros Hh Hj Hd Hc. destruct resolved_backend eqn:Hb.
  - rewrite obtain_token_service_fabric by assumption.
    specialize (Hc eq_refl). unfold carries_error_code in Hc.
    run_adapter. cbn in Hh. rewrite Hh. cbn. rewrite Hj. cbn.
    unfold get_and_get, py_get. rewrite (dict_get_missing _ _ _ Hd). cbn.
    unfold dict_index.
    destruct (dict_lookup d "error") as [[| | | | | |e]|]; try discriminate.
    cbn. unfold dict_index.
    destruct (dict_lookup e "code") as [[| | | | | |]|]; try discriminate;
      cbn; eexists; split; reflexivity.
  - rewrite obtain_token_app_service by assumption.
    run_adapter. cbn in Hh. rewrite Hh. cbn. rewrite Hj. cbn.
    unfold get_and_get, py_get. rewrite (dict_get_missing _ _ _ Hd). cbn.
    eexists; split; reflexivity.
  - rewrite obtain_token_azure_vm by assumption.
    run_adapter. cbn in Hh. rewrite Hh. cbn. rewrite Hj. cbn.
    unfold get_and_get, py_get. rewrite (dict_get_missing _ _ _ Hd). cbn.
    eexists; split; [reflexivity|]. cbn. now rewrite Hd.
Qed.

(** *** The three ways through the cache *)

Lemma run_fresh (self : ManagedIdentity) (tc : TokenCache) (resource : string)
    (s : state) (pre post : list pydict) (e : pydict) (z : Z) (secret : pyval) :
  _token_cache self = Some tc -> resource <> ""%string ->
  cache_matches self resource s = pre ++ e :: post ->
  Forall (hard_expired (time_time (st_ticks s))) pre ->
  expires_at e z -> (300 <= inject_Z z - time_time (st_ticks s))%Q ->
  dict_lookup e "secret" = Some secret ->
  not_aging (time_time (st_ticks s)) e ->
  acquire_token self (Some resource) s
  = (Ret (cached_token e secret z (time_time (st_ticks s))),
     logged (scanning self tc resource s) "Cache hit an AT").
Proof.
  intros Hc Hr Hm Hpre He Hlive Hs Hna.
  unfold cache_matches in Hm. rewrite Hc in Hm.
  rewrite (acquire_token_cached self tc) by assumption.
  rewrite Hm, scan_expired_prefix by assumption.
  now rewrite (scan_fresh e post _ None _ z secret).
Qed.

Lemma run_aging (self : ManagedIdentity) (tc : TokenCache) (resource : string)
    (s : state) (pre post : list pydict) (e : pydict) (z : Z) (secret : pyval) :
  _token_cache self = Some tc -> resource <> ""%string ->
  cache_matches self resource s = pre ++ e :: post ->
  Forall (hard_expired (time_time (st_ticks s))) pre ->
  expires_at e z -> (300 <= inject_Z z - time_time (st_ticks s))%Q ->
  dict_lookup e "secret" = Some secret ->
  aging (time_time (st_ticks s)) e ->
  acquire_token self (Some resource) s
  = refresh self tc resource
      (Some (cached_token e secret z (time_time (st_ticks s))))
      (logged (scanning self tc resource s) "Cache hit an AT").
Proof.
  intros Hc Hr Hm Hpre He Hlive Hs Ha.
  unfold cache_matches in Hm. rewrite Hc in Hm.
  rewrite (acquire_token_cached self tc) by assumption.
  rewrite Hm, scan_expired_prefix by assumption.
  now rewrite (scan_aging e post _ None _ z secret).
Qed.

Lemma run_miss (self : ManagedIdentity) (tc : TokenCache) (resource : string)
    (s : state) :
  _token_cache self = Some tc -> resource <> ""%string ->
  Forall (hard_expired (time_time (st_ticks s))) (cache_matches self resource s) ->
  acquire_token self (Some resource) s
  = refresh self tc resource None (scanning self tc resource s).
Proof.
  intros Hc Hr Hall.
  unfold cache_matches in Hall. rewrite Hc in Hall.
  rewrite (acquire_token_cached self tc) by assumption.
  rewrite <- (app_nil_r (tc_find _ _ _)).
  now rewrite scan_expired_prefix by assumption.
Qed.

Lemma gets_scanning_logged (self : ManagedIdentity) (tc : TokenCache)
    (resource : string) (s : state) (fmt : string) :
  gets (st_log (logged (scanning self tc resource s) fmt)) = gets (st_log s)
  /\ adds (st_log (logged (scanning self tc resource s) fmt)) = adds (st_log s)
  /\ gets (st_log (scanning self tc resource s)) = gets (st_log s)
  /\ adds (st_log (scanning self tc resource s)) = adds (st_log s).
Proof.
  unfold logged, scanning; cbn [st_log].
  rewrite !gets_app, !adds_app. cbn. repeat split; lia.
Qed.

(** Every run: the log grows by at most one transport call and one cache
    write, and the store is untouched or has taken that one write. *)
Lemma acquire_token_effects (self : ManagedIdentity) (resource : option string)
    (s : state) :
  let out := acquire_token self resource s in
  exists l,
    st_log (snd out) = st_log s ++ l
    /\ (gets l <= 1)%nat
    /\ ((adds l = 0%nat /\ st_store (snd out) = st_store s)
        \/ exists tc res result l0,
             _token_cache self = Some tc /\ resource = Some res
             /\ fst out = Ret result
             /\ gets l = 1%nat
             /\ l = l0 ++ [EvAdd (add_call self res result)]
             /\ adds l0 = 0%nat
             /\ st_store (snd out)
                = tc_add tc (st_store s) (add_call self res result)).
Proof.
  cbn zeta.
  destruct (truthy_str resource) eqn:Ht.
  2:{ rewrite acquire_token_no_resource by assumption.
      exists []. rewrite app_nil_r. cbn. auto. }
  destruct resource as [res|]; [|discriminate].
  assert (Hr : res <> ""%string).
  { intros ->. discriminate. }
  destruct (_token_cache self) as [tc|] eqn:Hc.
  - rewrite (acquire_token_cached self tc) by assumption.
    destruct (scan_phase_effects self tc res s
                (tc_find tc (st_store s) (find_call self tc res))
                (time_time (st_ticks s)))
      as [Hst [l [Hl [Hg Ha]]]].
    destruct (scan _ _ None _) as [[[token|cand]|e] s1]; cbn in Hst, Hl.
    + exists l. cbn. rewrite Hg. auto.
    + destruct (refresh_effects self tc res cand s1)
        as [l' [Hl' [Hg' [_ Hw]]]].
      exists (l ++ l'). rewrite Hl', Hl, <- app_assoc.
      split; [reflexivity|]. rewrite gets_app, adds_app, Hg, Ha, Hg'.
      split; [lia|].
      destruct Hw as [[Ha' Hst']|[result [l0 [Hf [El [Ha0 Hst']]]]]].
      * left. split; [lia|congruence].
      * right. exists tc, res, result, (l ++ l0).
        rewrite Hst', Hst, El, adds_app, Ha, Ha0, <- app_assoc. auto 10.
    + exists l. cbn. rewrite Hg. auto.
  - rewrite acquire_token_uncached by assumption.
    destruct (obtain_token_sends (_http_client self) res
                (_client_id self) (_object_id self) (_mi_res_id self) s)
      as [Hst [l1 [l2 [Hl [Hd1 Hd2]]]]].
    destruct (gets_sent l1 l2 (refresh_request self res) Hd1 Hd2) as [Hg Ha].
    eexists. split; [exact Hl|]. fold (refresh_request self res).
    rewrite Hg. auto.
Qed.

(** *** Claims about the orchestrator *)

Lemma live_not_expired (now : Q) (e : pydict) (z : Z) :
  expires_at e z -> (300 <= inject_Z z - now)%Q -> ~ hard_expired now e.
Proof.
  intros He Hlive [z' [He' Hlt]].
  rewrite (expires_at_inj e z z' He He') in Hlive.
  revert Hlt. now apply Qle_not_lt.
Qed.

(** C8. Invalid arguments fail before any I/O.  Constructing a
    [ManagedIdentity] with more than one of [client_id], [object_id],
    [mi_res_id] set (supplied and not empty, which is how the code tests
    them everywhere) raises [ValueError] and leaves the log and the
    cache as they were; so does [acquire_token] with a resource that is
    absent or empty. *)
Theorem invalid_arguments_fail_before_io :
  (forall (http_client : request -> result response)
          (client_id object_id mi_res_id : option string)
          (token_cache : option TokenCache) (s : state),
      (is_set client_id /\ is_set object_id)
      \/ (is_set client_id /\ is_set mi_res_id)
      \/ (is_set object_id /\ is_set mi_res_id) ->
      exists msg,
        __init__ http_client client_id object_id mi_res_id token_cache s
        = (Raise (ValueError msg), s))
  /\ (forall (self : ManagedIdentity) (resource : option string) (s : state),
        resource = None \/ resource = Some ""%string ->
        exists msg,
          acquire_token self resource s = (Raise (ValueError msg), s)).
Proof.
  split.
  - intros http_client client_id object_id mi_res_id token_cache s H.
    assert (Hset : forall o, is_set o -> truthy_str o = true).
    { intros o [v [-> Hv]]. now apply truthy_str_some. }
    unfold __init__. cbn [filter].
    destruct H as [[H1 H2]|[[H1 H2]|[H1 H2]]];
      rewrite (Hset _ H1), (Hset _ H2);
      try destruct (truthy_str mi_res_id);
      try destruct (truthy_str object_id);
      try destruct (truthy_str client_id);
      cbn; eexists; reflexivity.
  - intros self resource s H.
    exists resource_required. apply acquire_token_no_resource.
    now apply truthy_str_false.
Qed.

(** What a successful response is normalized to is what the selected
    adapter returns, and it holds [access_token]. *)
Lemma obtain_token_normalizes (http_client : request -> result response)
    (resource : string) (client_id object_id mi_res_id : option string)
    (resp : response) (d : pydict) (result : pyval) (s : state) :
  http_client (backend_request resolved_backend resource client_id object_id mi_res_id)
  = Ret resp ->
  json_loads (text resp) = Some (PDict d) ->
  normalizes (Qtrunc (time_time (st_ticks s))) d resolved_backend result ->
  fst (_obtain_token http_client resource client_id object_id mi_res_id s)
  = Ret result
  /\ py_contains result "access_token" = Ret true.
Proof.
  intros Hh Hj Hn.
  assert (Hfound : forall k v, dict_lookup d k = Some v ->
                               dict_get d k PNone = v).
  { intros k v Hk. unfold dict_get. now rewrite Hk. }
  remember resolved_backend as b eqn:Hb in Hn. symmetry in Hb.
  destruct Hn as [token expires n Ha Ta He Te Hi
                 |token expires n Ha Ta He Te Hi
                 |token expires expires_in token_type Ha Ta He Te Hi Ht].
  - rewrite obtain_token_azure_vm by assumption.
    rewrite Hb in Hh. run_adapter. cbn in Hh. rewrite Hh. cbn. rewrite Hj. cbn.
    unfold get_and_get, py_get, dict_index.
    rewrite (Hfound _ _ Ha), Ta, (Hfound _ _ He), Te.
    cbn. rewrite Ha. cbn. rewrite He. cbn. rewrite Hi. cbn.
    split; reflexivity.
  - rewrite obtain_token_app_service by assumption.
    rewrite Hb in Hh. run_adapter. cbn in Hh. rewrite Hh. cbn. rewrite Hj. cbn.
    unfold get_and_get, py_get, dict_index.
    rewrite (Hfound _ _ Ha), Ta, (Hfound _ _ He), Te.
    cbn. rewrite Ha. cbn. rewrite He. cbn. rewrite Hi. cbn.
    split; reflexivity.
  - rewrite obtain_token_service_fabric by assumption.
    rewrite Hb in Hh. cbn in Hh.
    assert (Hrun : forall s0, st_ticks s0 = st_ticks s ->
              fst (_obtain_token_on_service_fabric http_client
                     (environ_value "IDENTITY_ENDPOINT")
                     (environ_value "IDENTITY_HEADER")
                     (environ_value "IDENTITY_SERVER_THUMBPRINT") resource s0)
              = Ret (PDict [("access_token", token);
                            ("expires_in", expires_in);
                            ("resource", dict_get d "resource" PNone);
                            ("token_type", token_type)])).
    { intros s0 Hs0. run_adapter. rewrite Hh. cbn. rewrite Hj. cbn.
      unfold get_and_get, py_get, dict_index.
      rewrite (Hfound _ _ Ha), Ta, (Hfound _ _ He), Te.
      cbn. rewrite Ha. cbn. rewrite He. cbn. rewrite Hs0, Hi. cbn.
      rewrite Ht. reflexivity. }
    split; [|reflexivity].
    destruct (truthy_str client_id || truthy_str object_id || truthy_str mi_res_id);
      now apply Hrun.
Qed.

(** C4. Side-effect bound.  A run of [acquire_token] adds to the log at
    most one transport call and at most one cache write, and the cache
    store is left as it was or has taken exactly that one [add] (nothing is
    deleted).  With an empty cache and a backend result that has an
    [access_token], the run returns that result and its one cache write is
    the [add] of it with [scope = [resource]].  In particular, when the
    transport answers the selected backend's request with a successful
    response, the run returns the token that response is normalized to
    (at the clock's second reading: the first is the scan's) and its one
    cache write is the [add] of that token for [scope = [resource]] under
    this identity's key and token endpoint; the log gains that one [add]
    and the one transport call of the backend's request. *)
Theorem side_effect_bound (self : ManagedIdentity) (resource : option string)
    (s : state) :
  let out := acquire_token self resource s in
  (exists l,
     st_log (snd out) = st_log s ++ l
     /\ (gets l <= 1)%nat /\ (adds l <= 1)%nat
     /\ ((adds l = 0%nat /\ st_store (snd out) = st_store s)
         \/ (adds l = 1%nat
             /\ exists tc a, _token_cache self = Some tc
                             /\ st_store (snd out) = tc_add tc (st_store s) a)))
  /\ (forall (tc : TokenCache) (res : string) (result : pyval),
        _token_cache self = Some tc -> resource = Some res -> res <> ""%string ->
        cache_matches self res s = [] ->
        fst (_obtain_token (_http_client self) res
               (_client_id self) (_object_id self) (_mi_res_id self)
               (scanning self tc res s)) = Ret result ->
        py_contains result "access_token" = Ret true ->
        fst out = Ret result
        /\ add_scope (add_call self res result) = [res]
        /\ st_store (snd out) = tc_add tc (st_store s) (add_call self res result)
        /\ exists l0, st_log (snd out)
                      = st_log s ++ l0 ++ [EvAdd (add_call self res result)]
                      /\ adds l0 = 0%nat /\ gets l0 = 1%nat)
  /\ (forall (tc : TokenCache) (res : string) (resp : response) (d : pydict)
             (token : pyval),
        _token_cache self = Some tc -> resource = Some res -> res <> ""%string ->
        cache_matches self res s = [] ->
        _http_client self (refresh_request self res) = Ret resp ->
        json_loads (text resp) = Some (PDict d) ->
        normalizes (Qtrunc (time_time (S (st_ticks s)))) d resolved_backend token ->
        let written :=
          {| add_client_id := client_id_in_cache self;
             add_scope := [res];
             add_token_endpoint :=
               ("https://" ++ socket_getfqdn ++ "/managed_identity")%string;
             add_response := token;
             add_params := [];
             add_data := [] |} in
        fst out = Ret token
        /\ st_store (snd out) = tc_add tc (st_store s) written
        /\ filter is_add (st_log (snd out))
           = filter is_add (st_log s) ++ [EvAdd written]
        /\ filter is_get (st_log (snd out))
           = filter is_get (st_log s) ++ [EvGet (refresh_request self res)]).
Proof.
  cbn zeta.
  assert (Hsecond :
    forall (tc : TokenCache) (res : string) (result : pyval),
      _token_cache self = Some tc -> resource = Some res -> res <> ""%string ->
      cache_matches self res s = [] ->
      fst (_obtain_token (_http_client self) res
             (_client_id self) (_object_id self) (_mi_res_id self)
             (scanning self tc res s)) = Ret result ->
      py_contains result "access_token" = Ret true ->
      fst (acquire_token self resource s) = Ret result
      /\ add_scope (add_call self res result) = [res]
      /\ st_store (snd (acquire_token self resource s))
         = tc_add tc (st_store s) (add_call self res result)
      /\ exists l1 l2,
           st_log (snd (acquire_token self resource s))
           = st_log s
             ++ ([EvFind (find_call self tc res)]
                 ++ l1 ++ EvGet (refresh_request self res) :: l2)
             ++ [EvAdd (add_call self res result)]
           /\ forallb is_debug l1 = true /\ forallb is_debug l2 = true).
  { intros tc res result Hc -> Hr Hm Hres Hhas.
    rewrite (run_miss self tc) by (try rewrite Hm; auto).
    unfold refresh.
    destruct (obtain_token_sends (_http_client self) res
                (_client_id self) (_object_id self) (_mi_res_id self)
                (scanning self tc res s))
      as [Hst [l1 [l2 [Hl [Hd1 Hd2]]]]].
    fold (refresh_request self res) in Hl.
    destruct (_obtain_token _ _ _ _ _ (scanning self tc res s))
      as [[result'|e] s1]; cbn in Hres, Hst, Hl; [|discriminate].
    injection Hres as ->. rewrite Hhas. cbn.
    repeat split; [now rewrite Hst|].
    exists l1, l2. split; [|split; assumption].
    unfold written; cbn [st_log snd]. rewrite Hl.
    unfold scanning; cbn [st_log]. now rewrite <- !app_assoc. }
  assert (Hnone : forall l, forallb is_debug l = true ->
                            filter is_get l = [] /\ filter is_add l = []).
  { induction l as [|x l IH]; cbn; [easy|].
    destruct x; cbn; try discriminate; auto. }
  split; [|split].
  - destruct (acquire_token_effects self resource s)
      as [l [Hl [Hg [[Ha Hst]|[tc [res [result [l0 [Hc [_ [_ [_ [El [Ha0 Hst]]]]]]]]]]]]]].
    + exists l. rewrite Ha. auto 10.
    + exists l. subst l. rewrite adds_app, Ha0. cbn.
      repeat split; auto. right. split; [reflexivity|]. eauto.
  - intros tc res result Hc Hres Hr Hm Hret Hhas.
    destruct (Hsecond tc res result Hc Hres Hr Hm Hret Hhas)
      as [H1 [H2 [H3 [l1 [l2 [Hl [Hd1 Hd2]]]]]]].
    destruct (gets_sent l1 l2 (refresh_request self res) Hd1 Hd2) as [Hg Ha].
    repeat split; auto.
    exists ([EvFind (find_call self tc res)]
            ++ l1 ++ EvGet (refresh_request self res) :: l2).
    split; [exact Hl|].
    rewrite adds_app, gets_app, Hg, Ha. split; reflexivity.
  - intros tc res resp d token Hc Hres Hr Hm Hh Hj Hn.
    destruct (obtain_token_normalizes (_http_client self) res
                (_client_id self) (_object_id self) (_mi_res_id self)
                resp d token (scanning self tc res s) Hh Hj Hn)
      as [Hret Hhas].
    destruct (Hsecond tc res token Hc Hres Hr Hm Hret Hhas)
      as [H1 [_ [H3 [l1 [l2 [Hl [Hd1 Hd2]]]]]]].
    destruct (Hnone _ Hd1) as [G1 A1]. destruct (Hnone _ Hd2) as [G2 A2].
    split; [exact H1|]. split; [exact H3|].
    rewrite Hl, !filter_app. cbn. rewrite G1, G2, A1, A2. cbn.
    split; reflexivity.
Qed.

(** C3. Hard expiry.  A token [acquire_token] returns without a
    transport call was made of a match with at least 300 seconds left,
    never of one with less, and carries that match's own secret; any other
    token it returns is what the backend returned in this run's one
    transport call, or such a live match's token kept as fallback.  Matches
    with less than 300 seconds left are skipped by the scan, and the store
    is left as it was or has taken one [add]; when every match has less
    than 300 seconds left (whatever its [refresh_on]) the run makes exactly
    one transport call. *)
Theorem hard_expiry (self : ManagedIdentity) (resource : string) (s : state) :
  resource <> ""%string ->
  let matches := cache_matches self resource s in
  let now := time_time (st_ticks s) in
  let out := acquire_token self (Some resource) s in
  (forall token, fst out = Ret token ->
     (exists e z secret,
        In e matches /\ ~ hard_expired now e
        /\ expires_at e z /\ (300 <= inject_Z z - now)%Q
        /\ dict_lookup e "secret" = Some secret
        /\ token = cached_token e secret z now)
     \/ (gets (st_log (snd out)) = S (gets (st_log s))
         /\ fst (_obtain_token (_http_client self) resource
                   (_client_id self) (_object_id self) (_mi_res_id self)
                   (match _token_cache self with
                    | Some tc =>
                        snd (scan matches now None (scanning self tc resource s))
                    | None => s
                    end))
            = Ret token))
  /\ (forall token, fst out = Ret token ->
      gets (st_log (snd out)) = gets (st_log s) ->
      exists e z secret,
        In e matches /\ ~ hard_expired now e
        /\ expires_at e z /\ (300 <= inject_Z z - now)%Q
        /\ dict_lookup e "secret" = Some secret
        /\ token = cached_token e secret z now)
  /\ (forall pre rest acc s',
        Forall (hard_expired now) pre ->
        scan (pre ++ rest) now acc s' = scan rest now acc s')
  /\ (st_store (snd out) = st_store s
      \/ exists tc a, _token_cache self = Some tc
                      /\ st_store (snd out) = tc_add tc (st_store s) a)
  /\ (Forall (hard_expired now) matches ->
      gets (st_log (snd out)) = S (gets (st_log s))).
Proof.
  intros Hr. cbn zeta.
  assert (Hlive : forall token,
             from_live_entry (cache_matches self resource s)
               (time_time (st_ticks s)) token ->
             exists e z secret,
               In e (cache_matches self resource s)
               /\ ~ hard_expired (time_time (st_ticks s)) e
               /\ expires_at e z
               /\ (300 <= inject_Z z - time_time (st_ticks s))%Q
               /\ dict_lookup e "secret" = Some secret
               /\ token = cached_token e secret z (time_time (st_ticks s))).
  { intros token [e [z [secret [Hin [He [Hl [Hs ->]]]]]]].
    exists e, z, secret. eauto 10 using live_not_expired. }
  assert (Hfirst : forall token,
    fst (acquire_token self (Some resource) s) = Ret token ->
    (exists e z secret,
        In e (cache_matches self resource s)
        /\ ~ hard_expired (time_time (st_ticks s)) e
        /\ expires_at e z
        /\ (300 <= inject_Z z - time_time (st_ticks s))%Q
        /\ dict_lookup e "secret" = Some secret
        /\ token = cached_token e secret z (time_time (st_ticks s)))
    \/ (gets (st_log (snd (acquire_token self (Some resource) s)))
        = S (gets (st_log s))
        /\ fst (_obtain_token (_http_client self) resource
                  (_client_id self) (_object_id self) (_mi_res_id self)
                  (match _token_cache self with
                   | Some tc =>
                       snd (scan (cache_matches self resource s)
                              (time_time (st_ticks s)) None
                              (scanning self tc resource s))
                   | None => s
                   end))
           = Ret token)).
  { intros token Hret.
    destruct (_token_cache self) as [tc|] eqn:Hc.
    - assert (Em : cache_matches self resource s
                   = tc_find tc (st_store s) (find_call self tc resource)).
      { unfold cache_matches. now rewrite Hc. }
      rewrite (acquire_token_cached self tc) in * by assumption.
      rewrite <- Em in *.
      pose proof (scan_provenance (cache_matches self resource s)
                    (time_time (st_ticks s)) None
                    (scanning self tc resource s)) as Hp.
      destruct (scan_phase_effects self tc resource s
                  (cache_matches self resource s) (time_time (st_ticks s)))
        as [_ [l [Hl [Hg0 _]]]].
      destruct (scan _ _ None _) as [[[token'|cand]|e] s1];
        cbn [fst snd] in *.
      + injection Hret as ->. left. now apply Hlive.
      + destruct (refresh_effects self tc resource cand s1)
          as [l' [Hl' [Hg' _]]].
        assert (Hgets : gets (st_log (snd (refresh self tc resource cand s1)))
                        = S (gets (st_log s))).
        { rewrite Hl', Hl, !gets_app, Hg0, Hg'. lia. }
        unfold refresh in Hret.
        destruct (_obtain_token _ _ _ _ _ s1) as [[result|e] s2] eqn:Eo;
          [|discriminate].
        destruct (py_contains result "access_token") as [[|]|e];
          cbn in Hret; try discriminate; injection Hret as <-;
          [right; split; [exact Hgets | reflexivity]|].
        destruct cand as [token'|]; cbn;
          [|right; split; [exact Hgets | reflexivity]].
        destruct (truthy token');
          [|right; split; [exact Hgets | reflexivity]].
        destruct Hp as [Hp|Hp]; [discriminate|]. left. now apply Hlive.
      + discriminate.
    - rewrite acquire_token_uncached in * by assumption. right.
      split; [|exact Hret].
      destruct (obtain_token_sends (_http_client self) resource
                  (_client_id self) (_object_id self) (_mi_res_id self) s)
        as [_ [l1 [l2 [Hl [Hd1 Hd2]]]]].
      destruct (gets_sent l1 l2 (refresh_request self resource) Hd1 Hd2) as [Hg _].
      fold (refresh_request self resource) in Hl.
      rewrite Hl, gets_app, Hg. lia. }
  split; [exact Hfirst|]. split; [|split; [|split]].
  - intros token Hret Hsame.
    destruct (Hfirst token Hret) as [H|[Hg _]]; [exact H|].
    rewrite Hsame in Hg. lia.
  - intros. now apply scan_expired_prefix.
  - destruct (acquire_token_effects self (Some resource) s)
      as [l [_ [_ [[_ Hst]|[tc [res [result [l0 [Hc [_ [_ [_ [_ [_ Hst]]]]]]]]]]]]]];
      eauto.
  - intros Hall.
    destruct (_token_cache self) as [tc|] eqn:Hc.
    + rewrite (run_miss self tc) by assumption.
      destruct (refresh_effects self tc resource None (scanning self tc resource s))
        as [l [Hl [Hg _]]].
      rewrite Hl, gets_app, Hg.
      destruct (gets_scanning_logged self tc resource s "") as [_ [_ [-> _]]].
      lia.
    + rewrite acquire_token_uncached by assumption.
      destruct (obtain_token_sends (_http_client self) resource
                  (_client_id self) (_object_id self) (_mi_res_id self) s)
        as [_ [l1 [l2 [Hl [Hd1 Hd2]]]]].
      destruct (gets_sent l1 l2 (refresh_request self resource) Hd1 Hd2) as [Hg _].
      fold (refresh_request self resource) in Hl.
      rewrite Hl, gets_app, Hg. lia.
Qed.

(** C2 (amended). Fresh cache hit.  When the first match with at least
    300 seconds left carries no [refresh_on] earlier than now (the matches
    before it all have less than 300 seconds left), [acquire_token]
    returns the token made of that entry, whose [access_token] is the
    entry's secret, with no transport call and no cache write. *)
Theorem fresh_cache_hit (self : ManagedIdentity) (tc : TokenCache)
    (resource : string) (s : state) (pre post : list pydict) (e : pydict)
    (z : Z) (secret : pyval) :
  _token_cache self = Some tc -> resource <> ""%string ->
  cache_matches self resource s = pre ++ e :: post ->
  let now := time_time (st_ticks s) in
  Forall (hard_expired now) pre ->
  expires_at e z -> (300 <= inject_Z z - now)%Q ->
  dict_lookup e "secret" = Some secret ->
  not_aging now e ->
  let out := acquire_token self (Some resource) s in
  fst out = Ret (cached_token e secret z now)
  /\ py_index (cached_token e secret z now) "access_token" = Ret secret
  /\ gets (st_log (snd out)) = gets (st_log s)
  /\ adds (st_log (snd out)) = adds (st_log s)
  /\ st_store (snd out) = st_store s.
Proof.
  intros Hc Hr Hm now Hpre He Hlive Hs Hna out. subst out now.
  rewrite (run_fresh self tc resource s pre post e z secret) by assumption.
  destruct (gets_scanning_logged self tc resource s "Cache hit an AT")
    as [Hg [Ha _]].
  cbn [fst snd]. rewrite Hg, Ha. repeat split; reflexivity.
Qed.

(** C1 (amended). Fallback law.  When the first match with at least 300
    seconds left carries a [refresh_on] earlier than now, [acquire_token]
    makes exactly one transport call; if the transport answers it with a
    JSON object that has no [access_token] (and, on Service Fabric, names
    an error code), [acquire_token] returns the token made of that entry and
    writes nothing to the cache. *)
Theorem fallback_law (self : ManagedIdentity) (tc : TokenCache)
    (resource : string) (s : state) (pre post : list pydict) (e : pydict)
    (z : Z) (secret : pyval) :
  _token_cache self = Some tc -> resource <> ""%string ->
  cache_matches self resource s = pre ++ e :: post ->
  let now := time_time (st_ticks s) in
  Forall (hard_expired now) pre ->
  expires_at e z -> (300 <= inject_Z z - now)%Q ->
  dict_lookup e "secret" = Some secret ->
  aging now e ->
  let out := acquire_token self (Some resource) s in
  gets (st_log (snd out)) = S (gets (st_log s))
  /\ (forall (resp : response) (d : pydict),
        _http_client self (refresh_request self resource) = Ret resp ->
        json_loads (text resp) = Some (PDict d) ->
        dict_has d "access_token" = false ->
        (resolved_backend = ServiceFabric -> carries_error_code d = true) ->
        fst out = Ret (cached_token e secret z now)
        /\ py_index (cached_token e secret z now) "access_token" = Ret secret
        /\ adds (st_log (snd out)) = adds (st_log s)
        /\ st_store (snd out) = st_store s).
Proof.
  intros Hc Hr Hm now Hpre He Hlive Hs Ha out. subst out now.
  rewrite (run_aging self tc resource s pre post e z secret) by assumption.
  set (s1 := logged (scanning self tc resource s) "Cache hit an AT").
  destruct (gets_scanning_logged self tc resource s "Cache hit an AT")
    as [Hg1 [Ha1 _]]. fold s1 in Hg1, Ha1.
  destruct (refresh_effects self tc resource
              (Some (cached_token e secret z (time_time (st_ticks s)))) s1)
    as [l [Hl [Hg [_ Hw]]]].
  split.
  - rewrite Hl, gets_app, Hg, Hg1. lia.
  - intros resp d Hh Hj Hd Hsf.
    destruct (obtain_token_protocol_error (_http_client self) resource
                (_client_id self) (_object_id self) (_mi_res_id self)
                resp d s1 Hh Hj Hd Hsf) as [result [Hres Hno]].
    destruct (obtain_token_sends (_http_client self) resource
                (_client_id self) (_object_id self) (_mi_res_id self) s1)
      as [Hst [l1 [l2 [Hl' [Hd1 Hd2]]]]].
    destruct (gets_sent l1 l2 (refresh_request self resource) Hd1 Hd2) as [_ Ha'].
    fold (refresh_request self resource) in Hl'.
    unfold refresh in *.
    destruct (_obtain_token _ _ _ _ _ s1) as [[result'|e'] s2];
      cbn in Hres; [|discriminate].
    injection Hres as ->. rewrite Hno. cbn [fst snd] in *.
    rewrite Hl', adds_app, Ha', Ha1, Hst.
    repeat split; auto.
Qed.

(** C10. A body that is not JSON.  When the transport answers the
    backend's request with a body [json.loads] rejects, every run of
    [acquire_token] that reaches the transport raises the [ValueError] and
    leaves the cache store as it was, with no write logged; this is so in
    particular when the scan found a live entry due for refresh, whose
    token is not returned. *)
Theorem parse_error_propagates (self : ManagedIdentity) (resource : string)
    (s : state) (resp : response) :
  resource <> ""%string ->
  _http_client self (refresh_request self resource) = Ret resp ->
  json_loads (text resp) = None ->
  let now := time_time (st_ticks s) in
  let out := acquire_token self (Some resource) s in
  (gets (st_log (snd out)) = S (gets (st_log s)) ->
   fst out = Raise (ValueError "json")
   /\ adds (st_log (snd out)) = adds (st_log s)
   /\ st_store (snd out) = st_store s)
  /\ (forall tc pre post e z secret,
        _token_cache self = Some tc ->
        cache_matches self resource s = pre ++ e :: post ->
        Forall (hard_expired now) pre ->
        expires_at e z -> (300 <= inject_Z z - now)%Q ->
        dict_lookup e "secret" = Some secret ->
        aging now e ->
        fst out = Raise (ValueError "json")
        /\ adds (st_log (snd out)) = adds (st_log s)
        /\ st_store (snd out) = st_store s).
Proof.
  intros Hr Hh Hj now out. subst out now.
  assert (Hrefresh : forall tc cand s1,
             fst (refresh self tc resource cand s1) = Raise (ValueError "json")
             /\ adds (st_log (snd (refresh self tc resource cand s1)))
                = adds (st_log s1)
             /\ st_store (snd (refresh self tc resource cand s1)) = st_store s1).
  { intros tc cand s1.
    pose proof (obtain_token_parse_error (_http_client self) resource
                  (_client_id self) (_object_id self) (_mi_res_id self)
                  resp s1 Hh Hj) as Hres.
    destruct (obtain_token_sends (_http_client self) resource
                (_client_id self) (_object_id self) (_mi_res_id self) s1)
      as [Hst [l1 [l2 [Hl [Hd1 Hd2]]]]].
    destruct (gets_sent l1 l2 (refresh_request self resource) Hd1 Hd2) as [_ Ha].
    fold (refresh_request self resource) in Hl.
    unfold refresh.
    destruct (_obtain_token _ _ _ _ _ s1) as [[result|e] s2];
      cbn in Hres; [discriminate|].
    cbn [fst snd] in *. rewrite Hl, adds_app, Ha. auto with arith. }
  split.
  - intros Hg.
    destruct (_token_cache self) as [tc|] eqn:Hc.
    + rewrite (acquire_token_cached self tc) in * by assumption.
      destruct (scan_phase_effects self tc resource s
                  (tc_find tc (st_store s) (find_call self tc resource))
                  (time_time (st_ticks s)))
        as [Hst [l [Hl [Hg0 Ha0]]]].
      destruct (scan _ _ None _) as [[[token|cand]|e] s1];
        cbn [fst snd] in *.
      * rewrite Hl, gets_app, Hg0 in Hg. lia.
      * destruct (Hrefresh tc cand s1) as [H1 [H2 H3]].
        rewrite H1, H2, H3, Hst, Hl, adds_app, Ha0. auto with arith.
      * rewrite Hl, gets_app, Hg0 in Hg. lia.
    + rewrite acquire_token_uncached in * by assumption.
      pose proof (obtain_token_parse_error (_http_client self) resource
                    (_client_id self) (_object_id self) (_mi_res_id self)
                    resp s Hh Hj) as Hres.
      destruct (obtain_token_sends (_http_client self) resource
                  (_client_id self) (_object_id self) (_mi_res_id self) s)
        as [Hst [l1 [l2 [Hl [Hd1 Hd2]]]]].
      destruct (gets_sent l1 l2 (refresh_request self resource) Hd1 Hd2) as [_ Ha].
      fold (refresh_request self resource) in Hl.
      rewrite Hres, Hst, Hl, adds_app, Ha. auto with arith.
  - intros tc pre post e z secret Hc Hm Hpre He Hlive Hs Ha.
    rewrite (run_aging self tc resource s pre post e z secret) by assumption.
    destruct (Hrefresh tc
                (Some (cached_token e secret z (time_time (st_ticks s))))
                (logged (scanning self tc resource s) "Cache hit an AT"))
      as [H1 [H2 H3]].
    destruct (gets_scanning_logged self tc resource s "Cache hit an AT")
      as [_ [Ha1 _]].
    rewrite H1, H2, H3, Ha1. auto.
Qed.

(** *** Claims about the resolver and the adapters *)

Lemma sent_once {A} (req : request) (m : M A) (s : state) :
  sends req m ->
  filter is_get (st_log (snd (m s))) = filter is_get (st_log s) ++ [EvGet req].
Proof.
  intros Hm. destruct (Hm s) as [_ [l1 [l2 [Hl [Hd1 Hd2]]]]].
  assert (Hn : forall l, forallb is_debug l = true -> filter is_get l = []).
  { induction l as [|x l IH]; cbn; [easy|].
    destruct x; cbn; try discriminate; auto. }
  rewrite Hl, !filter_app. cbn. now rewrite (Hn _ Hd1), (Hn _ Hd2).
Qed.

(** C5. Environment resolver.  [_obtain_token] makes exactly one
    transport call, the request of the one backend the environment
    selects: Service Fabric when the endpoint, header and thumbprint
    variables are all present; otherwise App Service when the endpoint and
    header are present; otherwise the Azure VM endpoint.  On Service Fabric
    the run is the adapter's, which takes no identity descriptor and whose
    request carries none; a supplied descriptor only adds a debug message
    to the log. *)
Theorem environment_resolver (http_client : request -> result response)
    (resource : string) (client_id object_id mi_res_id : option string)
    (s : state) :
  let out := _obtain_token http_client resource client_id object_id mi_res_id s in
  let sent b :=
    filter is_get (st_log (snd out))
    = filter is_get (st_log s)
      ++ [EvGet (backend_request b resource client_id object_id mi_res_id)] in
  (environ_has "IDENTITY_ENDPOINT" = true
   /\ environ_has "IDENTITY_HEADER" = true
   /\ environ_has "IDENTITY_SERVER_THUMBPRINT" = true ->
   sent ServiceFabric
   /\ out = _obtain_token_on_service_fabric http_client
              (environ_value "IDENTITY_ENDPOINT") (environ_value "IDENTITY_HEADER")
              (environ_value "IDENTITY_SERVER_THUMBPRINT") resource
              (if truthy_str client_id || truthy_str object_id
                  || truthy_str mi_res_id
               then logged s ignoring_descriptor else s))
  /\ (environ_has "IDENTITY_ENDPOINT" = true
      /\ environ_has "IDENTITY_HEADER" = true
      /\ environ_has "IDENTITY_SERVER_THUMBPRINT" = false ->
      sent AppService)
  /\ (environ_has "IDENTITY_ENDPOINT" = false
      \/ environ_has "IDENTITY_HEADER" = false ->
      sent AzureVM)
  /\ req_params (backend_request ServiceFabric resource client_id object_id mi_res_id)
     = [("api-version", "2019-07-01-preview"); ("resource", resource)]%string.
Proof.
  cbn zeta.
  pose proof (sent_once _ _ s
                (obtain_token_sends http_client resource
                   client_id object_id mi_res_id)) as Hsent.
  repeat split.
  - destruct H as [HE [HH HT]].
    assert (Hb : resolved_backend = ServiceFabric).
    { unfold resolved_backend. now rewrite HE, HH, HT. }
    now rewrite Hb in Hsent.
  - destruct H as [HE [HH HT]].
    apply obtain_token_service_fabric.
    unfold resolved_backend. now rewrite HE, HH, HT.
  - intros [HE [HH HT]].
    assert (Hb : resolved_backend = AppService).
    { unfold resolved_backend. now rewrite HE, HH, HT. }
    now rewrite Hb in Hsent.
  - intros H.
    assert (Hb : resolved_backend = AzureVM).
    { unfold resolved_backend.
      destruct H as [-> | ->]; [reflexivity|].
      now rewrite andb_false_r. }
    now rewrite Hb in Hsent.
Qed.

Lemma dict_index_get (d : pydict) (k : string) (v default : pyval) :
  dict_index d k = Ret v -> dict_get d k default = v.
Proof.
  unfold dict_index, dict_get. destruct (dict_lookup d k); congruence.
Qed.

(** When [payload.get(a) and payload.get(b)] holds, [payload] is a
    dictionary in which both are true. *)
Lemma get_and_get_true (payload : pyval) (a b : string) :
  get_and_get payload a b = Ret true ->
  exists d, payload = PDict d
            /\ truthy (dict_get d a PNone) = true
            /\ truthy (dict_get d b PNone) = true.
Proof.
  unfold get_and_get, py_get.
  destruct payload; try discriminate.
  destruct (truthy (dict_get d a PNone)) eqn:Ha; [|discriminate].
  intros H. injection H as Hb. eauto.
Qed.

Lemma get_and_get_false (payload : pyval) (a b : string) :
  get_and_get payload a b = Ret false ->
  exists d, payload = PDict d
            /\ truthy (dict_get d a PNone) && truthy (dict_get d b PNone) = false.
Proof.
  unfold get_and_get, py_get.
  destruct payload; try discriminate.
  destruct (truthy (dict_get d a PNone)) eqn:Ha.
  - intros H. injection H as Hb. exists d. rewrite Ha, Hb. split; reflexivity.
  - intros _. exists d. rewrite Ha. split; reflexivity.
Qed.

Ltac innermost_match x :=
  lazymatch x with
  | context [match ?y with _ => _ end] => innermost_match y
  | _ => x
  end.

(** Case analysis on what a run recorded in [H] went through. *)
Ltac trace_run H :=
  repeat (lazymatch type of H with
          | context [match ?x with _ => _ end] =>
              let y := innermost_match x in
              destruct y eqn:?; cbn in H; try discriminate H
          end).

(** The access token of a normalized record is true. *)
Ltac token_is_true Ha :=
  match goal with
  | Hg : get_and_get _ _ _ = Ret true,
    Hi : py_index _ "access_token" = Ret _ |- _ =>
      let d := fresh "d" in
      destruct (get_and_get_true _ _ _ Hg) as [d [-> [Ha _]]];
      cbn in Hi; rewrite (dict_index_get _ _ _ PNone Hi) in Ha
  end.

Lemma app_service_shapes (http_client : request -> result response)
    (endpoint identity_header resource : string)
    (client_id object_id mi_res_id : option string) (s : state) (r : pyval) :
  fst (_obtain_token_on_app_service http_client endpoint identity_header
         resource client_id object_id mi_res_id s) = Ret r ->
  xorb (success_record r) (error_record r) = true.
Proof.
  intros H. revert H. run_adapter. intros H. trace_run H.
  - token_is_true Ha. injection H as <-. cbn. now rewrite Ha.
  - injection H as <-. reflexivity.
Qed.

Lemma service_fabric_shapes (http_client : request -> result response)
    (endpoint identity_header server_thumbprint resource : string)
    (s : state) (r : pyval) :
  fst (_obtain_token_on_service_fabric http_client endpoint identity_header
         server_thumbprint resource s) = Ret r ->
  xorb (success_record r) (error_record r) = true.
Proof.
  intros H. revert H. run_adapter. intros H. trace_run H.
  - token_is_true Ha. injection H as <-. cbn. now rewrite Ha.
  - injection H as <-. reflexivity.
Qed.

(** C6 (amended). Canonical token response.  Whatever the App Service and
    Service Fabric adapters return is exactly one of the two shapes: a
    success record with a true [access_token], or an error record without
    [access_token].  What the Azure VM adapter returns is such a success
    record or else the payload itself, unchanged, in which [access_token]
    or [expires_in] is missing or false. *)
Theorem canonical_response_shapes (http_client : request -> result response)
    (endpoint identity_header server_thumbprint resource : string)
    (client_id object_id mi_res_id : option string) (s : state) (r : pyval) :
  (fst (_obtain_token_on_app_service http_client endpoint identity_header
          resource client_id object_id mi_res_id s) = Ret r ->
   xorb (success_record r) (error_record r) = true)
  /\ (fst (_obtain_token_on_service_fabric http_client endpoint identity_header
             server_thumbprint resource s) = Ret r ->
      xorb (success_record r) (error_record r) = true)
  /\ (fst (_obtain_token_on_azure_vm http_client resource
             client_id object_id mi_res_id s) = Ret r ->
      success_record r = true /\ error_record r = false
      \/ exists resp d,
           http_client
             (backend_request AzureVM resource client_id object_id mi_res_id)
           = Ret resp
           /\ json_loads (text resp) = Some (PDict d)
           /\ r = PDict d
           /\ truthy (dict_get d "access_token" PNone)
              && truthy (dict_get d "expires_in" PNone) = false).
Proof.
  split; [apply app_service_shapes|].
  split; [apply service_fabric_shapes|].
  intros H. revert H. run_adapter. intros H. trace_run H.
  - left. token_is_true Ha. injection H as <-. cbn. now rewrite Ha.
  - right. injection H as <-.
    match goal with
    | Hg : get_and_get _ _ _ = Ret false |- _ =>
        destruct (get_and_get_false _ _ _ Hg) as [d [-> Hf]]
    end.
    eauto 10.
Qed.

(** The error table of the Service Fabric adapter. *)
Lemma error_mapping_table :
  error_mapping_get (PStr "SecretHeaderNotFound") "invalid_request"
  = Ret "unauthorized_client"%string
  /\ error_mapping_get (PStr "ManagedIdentityNotFound") "invalid_request"
     = Ret "invalid_client"%string
  /\ error_mapping_get (PStr "ArgumentNullOrEmpty") "invalid_request"
     = Ret "invalid_scope"%string
  /\ forall c : string,
       c <> "SecretHeaderNotFound"%string ->
       c <> "ManagedIdentityNotFound"%string ->
       c <> "ArgumentNullOrEmpty"%string ->
       error_mapping_get (PStr c) "invalid_request" = Ret "invalid_request"%string.
Proof.
  repeat split; try reflexivity.
  intros c H1 H2 H3. unfold error_mapping_get, error_mapping. cbn [dict_lookup].
  destruct (String.eqb_spec "SecretHeaderNotFound" c); [congruence|].
  destruct (String.eqb_spec "ManagedIdentityNotFound" c); [congruence|].
  destruct (String.eqb_spec "ArgumentNullOrEmpty" c); [congruence|].
  reflexivity.
Qed.

(** A Service Fabric body without [access_token] whose error object names
    a code is normalized through the table, with the raw body as the
    description. *)
Lemma service_fabric_error_mapping (http_client : request -> result response)
    (endpoint identity_header server_thumbprint resource : string) (s : state)
    (resp : response) (d e : pydict) (c : string) :
  http_client
    {| req_url := endpoint;
       req_params := [("api-version", "2019-07-01-preview"); ("resource", resource)];
       req_headers := [("Secret", identity_header)] |} = Ret resp ->
  json_loads (text resp) = Some (PDict d) ->
  dict_has d "access_token" = false ->
  dict_lookup d "error" = Some (PDict e) ->
  dict_lookup e "code" = Some (PStr c) ->
  exists mapped,
    error_mapping_get (PStr c) "invalid_request" = Ret mapped
    /\ fst (_obtain_token_on_service_fabric http_client endpoint identity_header
              server_thumbprint resource s)
       = Ret (PDict [("error", PStr mapped);
                     ("error_description", PStr (text resp))]).
Proof.
  intros Hh Hj Hd He Hc.
  run_adapter. rewrite Hh. cbn. rewrite Hj. cbn.
  unfold get_and_get, py_get. rewrite (dict_get_missing _ _ _ Hd). cbn.
  unfold dict_index. rewrite He. cbn. unfold dict_index. rewrite Hc. cbn.
  eexists. split; reflexivity.
Qed.

(** The specification's scenario: [ManagedIdentityNotFound] comes back as
    [invalid_client] with the raw body. *)
Example service_fabric_not_found :
  fst (@_obtain_token_on_service_fabric (demo_runtime environ_service_fabric)
         (demo_transport body_not_found)
         "https://localhost:2377/token" "secret" "0123abcd" demo_resource
         (demo_state environ_service_fabric []))
  = Ret (PDict [("error", PStr "invalid_client");
                ("error_description", PStr body_not_found)]).
Proof. reflexivity. Qed.

(** C7. Service Fabric error normalization: where the code departs from
    it.  A Service Fabric body that is a JSON object with neither
    [access_token] nor [error] makes the adapter raise [KeyError] instead of
    returning an error record: [payload["error"]] is indexed although the
    line before it reads [payload.get("error", {})]. *)
Theorem service_fabric_missing_error_raises
    (http_client : request -> result response)
    (endpoint identity_header server_thumbprint resource : string) (s : state)
    (resp : response) (d : pydict) :
  http_client
    {| req_url := endpoint;
       req_params := [("api-version", "2019-07-01-preview"); ("resource", resource)];
       req_headers := [("Secret", identity_header)] |} = Ret resp ->
  json_loads (text resp) = Some (PDict d) ->
  dict_has d "access_token" = false ->
  dict_has d "error" = false ->
  fst (_obtain_token_on_service_fabric http_client endpoint identity_header
         server_thumbprint resource s)
  = Raise (KeyError "error").
Proof.
  intros Hh Hj Hd He.
  run_adapter. rewrite Hh. cbn. rewrite Hj. cbn.
  unfold get_and_get, py_get. rewrite (dict_get_missing _ _ _ Hd). cbn.
  unfold dict_index. unfold dict_has in He.
  destruct (dict_lookup d "error"); [discriminate|]. reflexivity.
Qed.

End Properties.

(** *** The scope-to-resource mapper *)

(** C9 (amended). Scope-to-resource mapper.  On an input [urlparse]
    parses, [_scope_to_resource] returns [scheme://netloc] when the scheme
    is not empty ([netloc] is the authority as [urlparse] splits it) and the
    input unchanged otherwise; on an input [urlparse] rejects, the exception
    leaves [_scope_to_resource]. *)
Theorem scope_to_resource_maps (urlparse : string -> result ParseResult)
    (scope : string) :
  (forall u, urlparse scope = Ret u ->
     (scheme u <> "" ->
      _scope_to_resource urlparse scope = Ret (scheme u ++ "://" ++ netloc u))
     /\ (scheme u = "" -> _scope_to_resource urlparse scope = Ret scope))
  /\ (forall e, urlparse scope = Raise e ->
        _scope_to_resource urlparse scope = Raise e).
Proof.
  unfold _scope_to_resource. split.
  - intros u ->. cbn. split.
    + intros Hs. destruct (String.eqb_spec (scheme u) ""); [contradiction|reflexivity].
    + intros ->. reflexivity.
  - intros e ->. reflexivity.
Qed.

(** ** The claims on concrete runs *)

(** The matches used below, against the clock of [demo_runtime]. *)
Lemma entry_expired_is_expired (environ : list (string * string)) :
  @hard_expired (demo_runtime environ) (1000 # 1) entry_expired.
Proof.
  exists 1100. split; [exists (PStr "1100"); split; reflexivity | reflexivity].
Qed.

Lemma entry_aging_is_aging (environ : list (string * string)) :
  @expires_at (demo_runtime environ) entry_aging 2000
  /\ (300 <= inject_Z 2000 - (1000 # 1))%Q
  /\ dict_lookup entry_aging "secret" = Some (PStr "AGING")
  /\ @aging (demo_runtime environ) (1000 # 1) entry_aging.
Proof.
  split; [exists (PStr "2000"); split; reflexivity|].
  split; [discriminate|].
  split; [reflexivity|].
  exists (PStr "900"), 900. repeat split; reflexivity.
Qed.

Lemma entry_fresh_is_fresh (environ : list (string * string)) :
  @expires_at (demo_runtime environ) entry_fresh 2000
  /\ (300 <= inject_Z 2000 - (1000 # 1))%Q
  /\ dict_lookup entry_fresh "secret" = Some (PStr "FRESH")
  /\ dict_lookup entry_fresh "refresh_on" = None.
Proof.
  split; [exists (PStr "2000"); split; reflexivity|].
  split; [discriminate|].
  split; reflexivity.
Qed.

(** C1, as stated, fails: the cache holds a matching entry with 1000
    seconds left and a [refresh_on] in the past, but a fresh entry comes
    first in the scan, so no transport call is made. *)
Lemma fallback_law_needs_first_live_entry :
  let self := demo_identity environ_vm body_error true in
  let s := demo_state environ_vm [entry_fresh; entry_aging] in
  let out := acquire_token self (Some demo_resource) s in
  In entry_aging (cache_matches self demo_resource s)
  /\ @expires_at (demo_runtime environ_vm) entry_aging 2000
  /\ (300 <= inject_Z 2000 - @time_time (demo_runtime environ_vm) (st_ticks s))%Q
  /\ @aging (demo_runtime environ_vm) (@time_time (demo_runtime environ_vm) (st_ticks s)) entry_aging
  /\ gets (st_log (snd out)) = 0%nat
  /\ gets (st_log (snd out)) <> S (gets (st_log s)).
Proof.
  destruct (entry_aging_is_aging environ_vm) as [He [Hl [_ Ha]]].
  cbv zeta. split; [right; left; reflexivity|].
  split; [exact He|]. split; [exact Hl|]. split; [exact Ha|].
  split; [reflexivity | discriminate].
Qed.

(** C2, as stated, fails: the cache holds a matching entry with 1000
    seconds left and no [refresh_on], but an aging entry comes first in
    the scan, so the backend is called and its token is written. *)
Lemma fresh_cache_hit_needs_first_live_entry :
  let self := demo_identity environ_vm body_token true in
  let s := demo_state environ_vm [entry_aging; entry_fresh] in
  let out := acquire_token self (Some demo_resource) s in
  In entry_fresh (cache_matches self demo_resource s)
  /\ @expires_at (demo_runtime environ_vm) entry_fresh 2000
  /\ (300 <= inject_Z 2000 - @time_time (demo_runtime environ_vm) (st_ticks s))%Q
  /\ dict_lookup entry_fresh "refresh_on" = None
  /\ gets (st_log (snd out)) = 1%nat
  /\ adds (st_log (snd out)) = 1%nat
  /\ fst out = Ret (PDict [("access_token", PStr "T"); ("expires_in", PInt 3600);
                           ("resource", PNone); ("token_type", PStr "Bearer")]).
Proof.
  destruct (entry_fresh_is_fresh environ_vm) as [He [Hl [_ Hn]]].
  cbv zeta. split; [right; left; reflexivity|].
  split; [exact He|]. split; [exact Hl|]. split; [exact Hn|].
  repeat split; reflexivity.
Qed.

(** C6, as stated, fails on the Azure (demo_runtime environ_vm) adapter: a body with an
    [access_token] and no [expires_in] is returned as it is, which is
    neither a success record nor an error record. *)
Lemma azure_vm_returns_payload_as_is :
  let r := PDict [("access_token", PStr "T")] in
  fst (@_obtain_token_on_azure_vm (demo_runtime environ_vm)
         (demo_transport body_partial) demo_resource None None None
         (demo_state environ_vm []))
  = Ret r
  /\ success_record r = false /\ error_record r = false.
Proof. cbv zeta. repeat split; reflexivity. Qed.

(** C9, as stated, fails: CPython's [urlparse] rejects an authority with
    an unbalanced bracket, and [_scope_to_resource] lets the [ValueError]
    through. *)
Lemma scope_to_resource_can_raise :
  _scope_to_resource cpython_urlparse "http://["
  = Raise (ValueError "Invalid IPv6 URL").
Proof. reflexivity. Qed.

(** *** The theorems applied *)

(** C1 at work: an expired entry is skipped, the aging entry behind it is
    the fallback, the Azure VM endpoint answers with an error body, and
    the aging entry's token is returned after one transport call. *)
Lemma fallback_law_witness :
  let self := demo_identity environ_vm body_error true in
  let s := demo_state environ_vm [entry_expired; entry_aging; entry_fresh] in
  let out := acquire_token self (Some demo_resource) s in
  gets (st_log (snd out)) = 1%nat
  /\ fst out = Ret (PDict [("access_token", PStr "AGING");
                           ("token_type", PStr "Bearer");
                           ("expires_in", PInt 1000)])
  /\ adds (st_log (snd out)) = 0%nat
  /\ st_store (snd out) = [entry_expired; entry_aging; entry_fresh].
Proof.
  cbv zeta.
  destruct (entry_aging_is_aging environ_vm) as [He [Hl [Hs Ha]]].
  destruct (fallback_law (RT := demo_runtime environ_vm)
              (demo_identity environ_vm body_error true)
              (demo_cache environ_vm) demo_resource
              (demo_state environ_vm [entry_expired; entry_aging; entry_fresh])
              [entry_expired] [entry_fresh] entry_aging 2000 (PStr "AGING")
              eq_refl ltac:(discriminate) eq_refl
              (Forall_cons _ (entry_expired_is_expired environ_vm) (Forall_nil _))
              He Hl Hs Ha) as [Hg Hf].
  split; [exact Hg|].
  destruct (Hf {| status_code := 200; text := body_error |}
              [("error", PStr "invalid_resource")]
              eq_refl eq_refl eq_refl ltac:(discriminate))
    as [Hr [_ [Hadd Hst]]].
  split; [exact Hr|]. split; [exact Hadd | exact Hst].
Defined.

(** C2 at work: an expired entry is skipped and the fresh entry behind it
    is returned without any transport call or cache write. *)
Lemma fresh_cache_hit_witness :
  let self := demo_identity environ_vm body_html true in
  let s := demo_state environ_vm [entry_expired; entry_fresh; entry_aging] in
  let out := acquire_token self (Some demo_resource) s in
  fst out = Ret (PDict [("access_token", PStr "FRESH");
                        ("token_type", PStr "Bearer");
                        ("expires_in", PInt 1000)])
  /\ gets (st_log (snd out)) = 0%nat
  /\ adds (st_log (snd out)) = 0%nat
  /\ st_store (snd out) = [entry_expired; entry_fresh; entry_aging].
Proof.
  cbv zeta.
  destruct (entry_fresh_is_fresh environ_vm) as [He [Hl [Hs Hn]]].
  destruct (fresh_cache_hit (RT := demo_runtime environ_vm)
              (demo_identity environ_vm body_html true)
              (demo_cache environ_vm) demo_resource
              (demo_state environ_vm [entry_expired; entry_fresh; entry_aging])
              [entry_expired] [entry_aging] entry_fresh 2000 (PStr "FRESH")
              eq_refl ltac:(discriminate) eq_refl
              (Forall_cons _ (entry_expired_is_expired environ_vm) (Forall_nil _))
              He Hl Hs (or_introl Hn)) as [Hr [_ [Hg [Ha Hst]]]].
  split; [exact Hr|]. split; [exact Hg|]. split; [exact Ha | exact Hst].
Defined.

(** C3 at work: the only match has 100 seconds left (and a [refresh_on] in
    the past); the run goes to the transport. *)
Lemma hard_expiry_witness :
  let self := demo_identity environ_vm body_token true in
  let s := demo_state environ_vm [entry_expired] in
  let out := acquire_token self (Some demo_resource) s in
  demo_resource <> ""
  /\ gets (st_log (snd out)) = 1%nat.
Proof.
  cbv zeta. split; [discriminate|].
  apply (hard_expiry (RT := demo_runtime environ_vm)
           (demo_identity environ_vm body_token true) demo_resource
           (demo_state environ_vm [entry_expired]) ltac:(discriminate)).
  exact (Forall_cons _ (entry_expired_is_expired environ_vm) (Forall_nil _)).
Defined.

(** C4 at work: an empty cache, and the Azure VM endpoint answers
    [{"access_token":"T","expires_in":"3600"}]. *)
Lemma side_effect_bound_witness :
  let self := demo_identity environ_vm body_token true in
  let s := demo_state environ_vm [] in
  let out := acquire_token self (Some demo_resource) s in
  let token := PDict [("access_token", PStr "T"); ("expires_in", PInt 3600);
                      ("resource", PNone); ("token_type", PStr "Bearer")] in
  let written :=
    {| add_client_id := "SYSTEM_ASSIGNED_MANAGED_IDENTITY";
       add_scope := [demo_resource];
       add_token_endpoint := "https://vm.example/managed_identity";
       add_response := token;
       add_params := [];
       add_data := [] |} in
  fst out = Ret token
  /\ st_store (snd out) = tc_add (demo_cache environ_vm) (st_store s) written
  /\ filter is_add (st_log (snd out)) = [EvAdd written]
  /\ filter is_get (st_log (snd out))
     = [EvGet {| req_url := "http://169.254.169.254/metadata/identity/oauth2/token";
                 req_params := [("api-version", "2018-02-01");
                                ("resource", demo_resource)];
                 req_headers := [("Metadata", "true")] |}].
Proof.
  cbv zeta.
  exact (proj2 (proj2 (side_effect_bound (RT := demo_runtime environ_vm)
                         (demo_identity environ_vm body_token true)
                         (Some demo_resource) (demo_state environ_vm [])))
           (demo_cache environ_vm) demo_resource
           {| status_code := 200; text := body_token |}
           [("access_token", PStr "T"); ("expires_in", PStr "3600")]
           (PDict [("access_token", PStr "T"); ("expires_in", PInt 3600);
                   ("resource", PNone); ("token_type", PStr "Bearer")])
           eq_refl eq_refl ltac:(discriminate) eq_refl eq_refl eq_refl
           (normalizes_azure_vm (RT := demo_runtime environ_vm) 1000
              [("access_token", PStr "T"); ("expires_in", PStr "3600")]
              (PStr "T") (PStr "3600") 3600
              eq_refl eq_refl eq_refl eq_refl eq_refl)).
Defined.

(** C5 at work: with the three variables set, the Service Fabric request
    is the one sent, whatever descriptor is supplied. *)
Lemma environment_resolver_witness :
  let out := @_obtain_token (demo_runtime environ_service_fabric)
               (demo_transport body_not_found) demo_resource
               (Some "client") None None
               (demo_state environ_service_fabric []) in
  filter is_get (st_log (snd out))
  = [EvGet {| req_url := "https://localhost:2377/token";
              req_params := [("api-version", "2019-07-01-preview");
                             ("resource", demo_resource)];
              req_headers := [("Secret", "secret")] |}].
Proof.
  cbv zeta.
  apply (proj1 (proj1 (environment_resolver
                         (RT := demo_runtime environ_service_fabric)
                         (demo_transport body_not_found) demo_resource
                         (Some "client") None None
                         (demo_state environ_service_fabric []))
                  (conj eq_refl (conj eq_refl eq_refl)))).
Defined.

(** C6 at work: the Service Fabric adapter on an error body. *)
Lemma canonical_response_shapes_witness :
  let r := PDict [("error", PStr "invalid_client");
                  ("error_description", PStr body_not_found)] in
  xorb (success_record r) (error_record r) = true.
Proof.
  cbv zeta.
  apply (proj1 (proj2 (canonical_response_shapes
                         (RT := demo_runtime environ_service_fabric)
                         (demo_transport body_not_found)
                         "https://localhost:2377/token" "secret" "0123abcd"
                         demo_resource None None None
                         (demo_state environ_service_fabric []) _))).
  reflexivity.
Defined.

(** C7 at work: the Service Fabric adapter on the body [{}]. *)
Lemma service_fabric_missing_error_witness :
  fst (@acquire_token (demo_runtime environ_service_fabric)
         (demo_identity environ_service_fabric body_empty false)
         (Some demo_resource) (demo_state environ_service_fabric []))
  = Raise (KeyError "error")
  /\ fst (@_obtain_token_on_service_fabric (demo_runtime environ_service_fabric)
            (demo_transport body_empty)
            "https://localhost:2377/token" "secret" "0123abcd" demo_resource
            (demo_state environ_service_fabric []))
     = Raise (KeyError "error").
Proof.
  split; [reflexivity|].
  apply (service_fabric_missing_error_raises
           (RT := demo_runtime environ_service_fabric)
           (demo_transport body_empty)
           "https://localhost:2377/token" "secret" "0123abcd" demo_resource
           (demo_state environ_service_fabric [])
           {| status_code := 200; text := body_empty |} []);
    reflexivity.
Defined.

(** C8 at work: two selectors at once, and a missing or empty resource. *)
Lemma invalid_arguments_witness :
  let s := demo_state environ_vm [entry_fresh] in
  (exists msg,
     @__init__ (demo_runtime environ_vm) (demo_transport body_token)
       (Some "client") None (Some "/subscriptions/x") (Some (demo_cache environ_vm)) s
     = (Raise (ValueError msg), s))
  /\ (exists msg,
        acquire_token (demo_identity environ_vm body_token true) None s
        = (Raise (ValueError msg), s))
  /\ (exists msg,
        acquire_token (demo_identity environ_vm body_token true) (Some "") s
        = (Raise (ValueError msg), s)).
Proof.
  cbv zeta.
  destruct (invalid_arguments_fail_before_io (RT := demo_runtime environ_vm))
    as [Hinit Hacq].
  split.
  - apply Hinit. right. left. split.
    + exists "client". split; [reflexivity | discriminate].
    + exists "/subscriptions/x". split; [reflexivity | discriminate].
  - split; apply Hacq; [left | right]; reflexivity.
Defined.

(** C9 at work: a scope URL is cut down to its scheme and authority, and
    a bare scope name is left alone. *)
Lemma scope_to_resource_witness :
  _scope_to_resource cpython_urlparse "https://management.azure.com/.default"
  = Ret "https://management.azure.com"
  /\ _scope_to_resource cpython_urlparse "User.Read" = Ret "User.Read".
Proof.
  split.
  - apply (proj1 (proj1 (scope_to_resource_maps cpython_urlparse
                           "https://management.azure.com/.default")
                    {| scheme := "https"; netloc := "management.azure.com";
                       path := "/.default"; params := ""; query := "";
                       fragment := "" |} eq_refl)).
    discriminate.
  - apply (proj2 (proj1 (scope_to_resource_maps cpython_urlparse "User.Read")
                    {| scheme := ""; netloc := ""; path := "User.Read";
                       params := ""; query := ""; fragment := "" |} eq_refl)).
    reflexivity.
Defined.

(** C10 at work: App Service answers with an HTML page while an aging
    entry is in hand; the [ValueError] wins. *)
Lemma parse_error_propagates_witness :
  let self := demo_identity environ_app_service body_html true in
  let s := demo_state environ_app_service [entry_aging] in
  let out := acquire_token self (Some demo_resource) s in
  fst out = Raise (ValueError "json")
  /\ adds (st_log (snd out)) = 0%nat
  /\ st_store (snd out) = [entry_aging].
Proof.
  cbv zeta.
  destruct (entry_aging_is_aging environ_app_service) as [He [Hl [Hs Ha]]].
  apply (proj2 (parse_error_propagates (RT := demo_runtime environ_app_service)
                  (demo_identity environ_app_service body_html true)
                  demo_resource (demo_state environ_app_service [entry_aging])
                  {| status_code := 200; text := body_html |}
                  ltac:(discriminate) eq_refl eq_refl)
           (demo_cache environ_app_service) [] [] entry_aging 2000 (PStr "AGING")
           eq_refl eq_refl (Forall_nil _) He Hl Hs Ha).
Defined.

(** ** Further properties of the module *)

Section Coverage.

Context {RT : Runtime}.

Local Open Scope list_scope.

Ltac run_adapter :=
  unfold _obtain_token_on_azure_vm, _obtain_token_on_app_service,
    _obtain_token_on_service_fabric, http_client_get, try_except_ValueError,
    int_time_now, time_now, logger_debug, emit, bind, lift, ret, py_json_loads;
  cbn.

(** *** Transport failures *)

Lemma obtain_token_transport_error (http_client : request -> result response)
    (resource : string) (client_id object_id mi_res_id : option string)
    (e : exn) (s : state) :
  http_client (backend_request resolved_backend resource client_id object_id mi_res_id)
  = Raise e ->
  fst (_obtain_token http_client resource client_id object_id mi_res_id s) = Raise e.
Proof.
  intros Hh. destruct resolved_backend eqn:Hb.
  - rewrite obtain_token_service_fabric by assumption.
    run_adapter. cbn in Hh. now rewrite Hh.
  - rewrite obtain_token_app_service by assumption.
    run_adapter. cbn in Hh. now rewrite Hh.
  - rewrite obtain_token_azure_vm by assumption.
    run_adapter. cbn in Hh. now rewrite Hh.
Qed.

Lemma refresh_transport_error (self : ManagedIdentity) (tc : TokenCache)
    (resource : string) (cand : option pyval) (e : exn) (s : state) :
  _http_client self (refresh_request self resource) = Raise e ->
  fst (refresh self tc resource cand s) = Raise e
  /\ adds (st_log (snd (refresh self tc resource cand s))) = adds (st_log s)
  /\ st_store (snd (refresh self tc resource cand s)) = st_store s.
Proof.
  intros Hh.
  pose proof (obtain_token_transport_error (_http_client self) resource
                (_client_id self) (_object_id self) (_mi_res_id self)
                e s Hh) as Hres.
  destruct (obtain_token_sends (_http_client self) resource
              (_client_id self) (_object_id self) (_mi_res_id self) s)
    as [Hst [l1 [l2 [Hl [Hd1 Hd2]]]]].
  destruct (gets_sent l1 l2 (refresh_request self resource) Hd1 Hd2) as [_ Ha].
  fold (refresh_request self resource) in Hl.
  unfold refresh.
  destruct (_obtain_token _ _ _ _ _ s) as [[result|e'] s1];
    cbn in Hres; [discriminate|].
  cbn [fst snd] in *. rewrite Hl, adds_app, Ha. auto with arith.
Qed.

(** X1. A transport failure is not rescued by the cache.  When the
    transport raises on the backend's request, every run of
    [acquire_token] that reaches the transport raises that same exception,
    logs no cache write and leaves the store as it was; in particular a
    live entry due for refresh is not returned in its place. *)
Theorem transport_error_propagates (self : ManagedIdentity) (resource : string)
    (s : state) (e : exn) :
  resource <> ""%string ->
  _http_client self (refresh_request self resource) = Raise e ->
  let now := time_time (st_ticks s) in
  let out := acquire_token self (Some resource) s in
  (gets (st_log (snd out)) = S (gets (st_log s)) ->
   fst out = Raise e
   /\ adds (st_log (snd out)) = adds (st_log s)
   /\ st_store (snd out) = st_store s)
  /\ (forall tc pre post entry z secret,
        _token_cache self = Some tc ->
        cache_matches self resource s = pre ++ entry :: post ->
        Forall (hard_expired now) pre ->
        expires_at entry z -> (300 <= inject_Z z - now)%Q ->
        dict_lookup entry "secret" = Some secret ->
        aging now entry ->
        fst out = Raise e
        /\ gets (st_log (snd out)) = S (gets (st_log s))
        /\ adds (st_log (snd out)) = adds (st_log s)
        /\ st_store (snd out) = st_store s).
Proof.
  intros Hr Hh now out. subst out now. split.
  - intros Hg.
    destruct (_token_cache self) as [tc|] eqn:Hc.
    + rewrite (acquire_token_cached self tc) in * by assumption.
      destruct (scan_phase_effects self tc resource s
                  (tc_find tc (st_store s) (find_call self tc resource))
                  (time_time (st_ticks s)))
        as [Hst [l [Hl [Hg0 Ha0]]]].
      destruct (scan _ _ None _) as [[[token|cand]|e'] s1];
        cbn [fst snd] in *.
      * rewrite Hl, gets_app, Hg0 in Hg. lia.
      * destruct (refresh_transport_error self tc resource cand e s1 Hh)
          as [H1 [H2 H3]].
        rewrite H1, H2, H3, Hst, Hl, adds_app, Ha0. auto with arith.
      * rewrite Hl, gets_app, Hg0 in Hg. lia.
    + rewrite acquire_token_uncached in * by assumption.
      pose proof (obtain_token_transport_error (_http_client self) resource
                    (_client_id self) (_object_id self) (_mi_res_id self)
                    e s Hh) as Hres.
      destruct (obtain_token_sends (_http_client self) resource
                  (_client_id self) (_object_id self) (_mi_res_id self) s)
        as [Hst [l1 [l2 [Hl [Hd1 Hd2]]]]].
      destruct (gets_sent l1 l2 (refresh_request self resource) Hd1 Hd2) as [_ Ha].
      fold (refresh_request self resource) in Hl.
      rewrite Hres, Hst, Hl, adds_app, Ha. auto with arith.
  - intros tc pre post entry z secret Hc Hm Hpre He Hlive Hs Ha.
    rewrite (run_aging self tc resource s pre post entry z secret) by assumption.
    set (s1 := logged (scanning self tc resource s) "Cache hit an AT").
    destruct (refresh_transport_error self tc resource
                (Some (cached_token entry secret z (time_time (st_ticks s))))
                e s1 Hh) as [H1 [H2 H3]].
    destruct (refresh_effects self tc resource
                (Some (cached_token entry secret z (time_time (st_ticks s)))) s1)
      as [l [Hl [Hg _]]].
    destruct (gets_scanning_logged self tc resource s "Cache hit an AT")
      as [Hg1 [Ha1 _]]. fold s1 in Hg1, Ha1.
    rewrite H1, H2, H3, Ha1, Hl, gets_app, Hg, Hg1.
    repeat split; auto. lia.
Qed.

(** X2. A successful refresh replaces the fallback.  When the first live
    match is due for refresh and the backend returns a result holding
    [access_token], [acquire_token] returns that result, not the cached
    token, after one transport call, and its one cache write is the [add]
    of that result for [scope = [resource]]. *)
Theorem refresh_replaces_fallback (self : ManagedIdentity) (tc : TokenCache)
    (resource : string) (s : state) (pre post : list pydict) (entry : pydict)
    (z : Z) (secret result : pyval) :
  _token_cache self = Some tc -> resource <> ""%string ->
  cache_matches self resource s = pre ++ entry :: post ->
  let now := time_time (st_ticks s) in
  Forall (hard_expired now) pre ->
  expires_at entry z -> (300 <= inject_Z z - now)%Q ->
  dict_lookup entry "secret" = Some secret ->
  aging now entry ->
  fst (_obtain_token (_http_client self) resource
         (_client_id self) (_object_id self) (_mi_res_id self)
         (logged (scanning self tc resource s) "Cache hit an AT")) = Ret result ->
  py_contains result "access_token" = Ret true ->
  let out := acquire_token self (Some resource) s in
  fst out = Ret result
  /\ gets (st_log (snd out)) = S (gets (st_log s))
  /\ adds (st_log (snd out)) = S (adds (st_log s))
  /\ (exists l0, st_log (snd out)
                 = st_log s ++ l0 ++ [EvAdd (add_call self resource result)])
  /\ st_store (snd out) = tc_add tc (st_store s) (add_call self resource result).
Proof.
  intros Hc Hr Hm now Hpre He Hlive Hs Ha Hres Hhas out. subst out now.
  rewrite (run_aging self tc resource s pre post entry z secret) by assumption.
  set (s1 := logged (scanning self tc resource s) "Cache hit an AT") in *.
  destruct (gets_scanning_logged self tc resource s "Cache hit an AT")
    as [Hg1 [Ha1 _]]. fold s1 in Hg1, Ha1.
  destruct (obtain_token_sends (_http_client self) resource
              (_client_id self) (_object_id self) (_mi_res_id self) s1)
    as [Hst [l1 [l2 [Hl [Hd1 Hd2]]]]].
  destruct (gets_sent l1 l2 (refresh_request self resource) Hd1 Hd2) as [Hg Hadd].
  fold (refresh_request self resource) in Hl.
  unfold refresh.
  destruct (_obtain_token _ _ _ _ _ s1) as [[result'|e] s2];
    cbn in Hres, Hst, Hl; [|discriminate].
  injection Hres as ->. rewrite Hhas.
  unfold written; cbn [fst snd st_log st_store].
  rewrite Hl, Hst.
  set (sent := l1 ++ EvGet (refresh_request self resource) :: l2) in *.
  rewrite !gets_app, !adds_app, Hg, Hadd. cbn.
  split; [reflexivity|]. split; [lia|]. split; [lia|]. split; [|reflexivity].
  exists ([EvFind (find_call self tc resource); EvDebug "Cache hit an AT" []]
          ++ sent).
  now rewrite <- !app_assoc.
Qed.

(** *** Runs without a cache, and the order of cache calls *)

Lemma debug_only_finds (l : list event) :
  forallb is_debug l = true -> finds l = 0%nat.
Proof.
  unfold finds. induction l as [|x l IH]; cbn; [easy|].
  destruct x; cbn; try discriminate; auto.
Qed.

Lemma finds_app (l l' : list event) : finds (l ++ l') = (finds l + finds l')%nat.
Proof. unfold finds. now rewrite filter_app, length_app. Qed.

Lemma finds_sent (l1 l2 : list event) (req : request) :
  forallb is_debug l1 = true -> forallb is_debug l2 = true ->
  finds (l1 ++ EvGet req :: l2) = 0%nat.
Proof.
  intros H1 H2. rewrite finds_app, (debug_only_finds _ H1).
  change (EvGet req :: l2) with ([EvGet req] ++ l2).
  now rewrite finds_app, (debug_only_finds _ H2).
Qed.

(** X3. Without a cache.  A [ManagedIdentity] built without a token cache
    returns whatever the backend adapter returns or raises, error records
    included, after exactly one transport call and without any cache call. *)
Theorem uncached_run (self : ManagedIdentity) (resource : string) (s : state) :
  _token_cache self = None -> resource <> ""%string ->
  let out := acquire_token self (Some resource) s in
  fst out = fst (_obtain_token (_http_client self) resource
                   (_client_id self) (_object_id self) (_mi_res_id self) s)
  /\ st_store (snd out) = st_store s
  /\ exists l, st_log (snd out) = st_log s ++ l
               /\ gets l = 1%nat /\ finds l = 0%nat /\ adds l = 0%nat.
Proof.
  intros Hc Hr out. subst out.
  rewrite acquire_token_uncached by assumption.
  destruct (obtain_token_sends (_http_client self) resource
              (_client_id self) (_object_id self) (_mi_res_id self) s)
    as [Hst [l1 [l2 [Hl [Hd1 Hd2]]]]].
  destruct (gets_sent l1 l2 (refresh_request self resource) Hd1 Hd2) as [Hg Ha].
  fold (refresh_request self resource) in Hl.
  split; [reflexivity|]. split; [exact Hst|].
  eexists. split; [exact Hl|].
  split; [exact Hg|]. split; [now apply finds_sent | exact Ha].
Qed.

Lemma refresh_finds (self : ManagedIdentity) (tc : TokenCache)
    (resource : string) (cand : option pyval) (s : state) :
  exists l, st_log (snd (refresh self tc resource cand s)) = st_log s ++ l
            /\ finds l = 0%nat.
Proof.
  unfold refresh.
  destruct (obtain_token_sends (_http_client self) resource
              (_client_id self) (_object_id self) (_mi_res_id self) s)
    as [_ [l1 [l2 [Hl [Hd1 Hd2]]]]].
  pose proof (finds_sent l1 l2 (refresh_request self resource) Hd1 Hd2) as Hf.
  fold (refresh_request self resource) in Hl.
  destruct (_obtain_token _ _ _ _ _ s) as [[result|e] s1]; cbn in Hl.
  - destruct (py_contains result "access_token") as [[|]|e]; cbn.
    + exists ((l1 ++ EvGet (refresh_request self resource) :: l2)
              ++ [EvAdd (add_call self resource result)]).
      rewrite Hl, finds_app, Hf. split; [now rewrite <- !app_assoc|reflexivity].
    + eauto.
    + eauto.
  - eauto.
Qed.

(** X4. One lookup, first.  With a cache configured and a resource
    given, the first call [acquire_token] makes is the cache lookup for
    [target = [resource]] under this identity's key and the placeholder
    environment and realm, and it makes no other lookup. *)
Theorem lookup_comes_first (self : ManagedIdentity) (tc : TokenCache)
    (resource : string) (s : state) :
  _token_cache self = Some tc -> resource <> ""%string ->
  let out := acquire_token self (Some resource) s in
  let lookup := find_call self tc resource in
  (exists l, st_log (snd out) = st_log s ++ EvFind lookup :: l
             /\ finds l = 0%nat)
  /\ find_target lookup = [resource]
  /\ find_credential_type lookup = ACCESS_TOKEN tc
  /\ find_query lookup
     = [("client_id", PStr (client_id_in_cache self));
        ("environment", PStr socket_getfqdn);
        ("realm", PStr "managed_identity");
        ("home_account_id", PNone)].
Proof.
  intros Hc Hr out lookup. subst out lookup.
  split; [|repeat split].
  rewrite (acquire_token_cached self tc) by assumption.
  destruct (scan_quiet (tc_find tc (st_store s) (find_call self tc resource))
              (time_time (st_ticks s)) None (scanning self tc resource s))
    as [_ [l [Hl Hd]]].
  pose proof (debug_only_finds _ Hd) as Hf.
  unfold scanning in Hl at 2; cbn [st_log] in Hl.
  destruct (scan _ _ None _) as [[[token|cand]|e] s1]; cbn [fst snd] in *.
  - exists l. rewrite Hl, <- app_assoc. auto.
  - destruct (refresh_finds self tc resource cand s1) as [l' [Hl' Hf']].
    exists (l ++ l'). rewrite Hl', Hl, finds_app, Hf, Hf', <- !app_assoc. auto.
  - exists l. rewrite Hl, <- app_assoc. auto.
Qed.

Lemma no_adds_no_add (l : list event) (a : add_args) :
  adds l = 0%nat -> ~ In (EvAdd a) l.
Proof.
  unfold adds. induction l as [|x l IH]; cbn; [tauto|].
  destruct x; cbn; intros H [Hx|Hin]; try congruence; exact (IH H Hin).
Qed.

(** X5. What is written is what is returned, keyed like the lookup.
    Every cache write of a run of [acquire_token] stores the very result
    the run returns, for [scope = [resource]], under the client id the
    lookup queried, with the token endpoint made of the lookup's
    environment and realm. *)
Theorem write_back_matches_lookup (self : ManagedIdentity) (tc : TokenCache)
    (resource : string) (s : state) :
  _token_cache self = Some tc ->
  let out := acquire_token self (Some resource) s in
  let lookup := find_call self tc resource in
  exists l,
    st_log (snd out) = st_log s ++ l
    /\ forall a, In (EvAdd a) l ->
         fst out = Ret (add_response a)
         /\ add_scope a = find_target lookup
         /\ dict_lookup (find_query lookup) "client_id" = Some (PStr (add_client_id a))
         /\ (exists environment realm,
               dict_lookup (find_query lookup) "environment" = Some (PStr environment)
               /\ dict_lookup (find_query lookup) "realm" = Some (PStr realm)
               /\ add_token_endpoint a
                  = ("https://" ++ environment ++ "/" ++ realm)%string)
         /\ add_params a = [] /\ add_data a = [].
Proof.
  intros Hc out lookup. subst out lookup.
  destruct (acquire_token_effects self (Some resource) s)
    as [l [Hl [_ [[Ha _]|[tc' [res [result [l0 [Hc' [Hres [Hret [_ [El [Ha0 _]]]]]]]]]]]]]].
  - exists l. split; [exact Hl|].
    intros a Hin. now apply no_adds_no_add in Hin.
  - exists l. split; [exact Hl|].
    injection Hres as <-.
    intros a Hin. subst l. apply in_app_or in Hin.
    destruct Hin as [Hin|[Hin|[]]]; [now apply no_adds_no_add in Hin|].
    injection Hin as <-. cbn.
    repeat split; auto.
    exists _instance, _tenant. repeat split.
Qed.

(** X6. A malformed cache entry.  The scan raises on the first match it
    cannot read, before any transport call: [KeyError] when the entry has
    no [expires_on], [ValueError] when [expires_on] is a string that is not
    an integer, [KeyError] when a live entry has no [secret].  Matches after
    the one that decides the scan are never read. *)
Theorem malformed_entry_raises (self : ManagedIdentity) (tc : TokenCache)
    (resource : string) (s : state) (pre post : list pydict) (entry : pydict) :
  _token_cache self = Some tc -> resource <> ""%string ->
  cache_matches self resource s = pre ++ entry :: post ->
  let now := time_time (st_ticks s) in
  Forall (hard_expired now) pre ->
  let out := acquire_token self (Some resource) s in
  (dict_lookup entry "expires_on" = None ->
   out = (Raise (KeyError "expires_on"), scanning self tc resource s))
  /\ (forall v, dict_lookup entry "expires_on" = Some (PStr v) ->
        int_of_str v = None ->
        out = (Raise (ValueError "int"), scanning self tc resource s))
  /\ (forall z, expires_at entry z -> (300 <= inject_Z z - now)%Q ->
        dict_lookup entry "secret" = None ->
        out = (Raise (KeyError "secret"),
               logged (scanning self tc resource s) "Cache hit an AT")).
Proof.
  intros Hc Hr Hm now Hpre out. subst out now.
  unfold cache_matches in Hm. rewrite Hc in Hm.
  rewrite (acquire_token_cached self tc) by assumption.
  rewrite Hm, scan_expired_prefix by assumption.
  cbn [scan]. unfold bind, lift, dict_index.
  split; [|split].
  - intros ->. reflexivity.
  - intros v -> Hv. cbn. rewrite Hv. reflexivity.
  - intros z [v [Hv Hz]] Hlive Hs.
    apply Qle_not_lt, Qlt_bool_false in Hlive.
    rewrite Hv, Hz. change (inject_Z (5 * 60)) with 300%Q. rewrite Hlive.
    unfold logger_debug, emit. cbn. rewrite Hs. reflexivity.
Qed.

(** *** The identity descriptor *)

Lemma truthy_str_true (o : option string) :
  truthy_str o = true -> exists v, o = Some v /\ v <> ""%string.
Proof.
  destruct o as [v|]; cbn; [|discriminate].
  destruct (String.eqb_spec v ""); [discriminate|]. eauto.
Qed.

Lemma init_returns (http_client : request -> result response)
    (client_id object_id mi_res_id : option string)
    (token_cache : option TokenCache) (s s' : state) (self : ManagedIdentity) :
  __init__ http_client client_id object_id mi_res_id token_cache s = (Ret self, s') ->
  s' = s
  /\ self = {| _http_client := http_client; _client_id := client_id;
               _object_id := object_id; _mi_res_id := mi_res_id;
               _token_cache := token_cache |}
  /\ (truthy_str client_id = true ->
      truthy_str object_id = false /\ truthy_str mi_res_id = false)
  /\ (truthy_str object_id = true -> truthy_str mi_res_id = false).
Proof.
  unfold __init__. cbn [filter].
  destruct (truthy_str client_id), (truthy_str object_id),
    (truthy_str mi_res_id); cbn; unfold raise, ret; intros H;
    try discriminate; injection H as <- <-; auto.
Qed.

(** X7. The cache key of a constructed identity.  For an object
    [__init__] returned, the key under which tokens are cached is never
    empty: it is the one selector that was supplied non-empty, whichever of
    the three it is, and the system-assigned sentinel when none was. *)
Theorem cache_key_of_constructed_identity
    (http_client : request -> result response)
    (client_id object_id mi_res_id : option string)
    (token_cache : option TokenCache) (s s' : state) (self : ManagedIdentity) :
  __init__ http_client client_id object_id mi_res_id token_cache s = (Ret self, s') ->
  client_id_in_cache self <> ""%string
  /\ (forall v, v <> ""%string ->
        client_id = Some v \/ object_id = Some v \/ mi_res_id = Some v ->
        client_id_in_cache self = v)
  /\ (truthy_str client_id = false -> truthy_str object_id = false ->
      truthy_str mi_res_id = false ->
      client_id_in_cache self = "SYSTEM_ASSIGNED_MANAGED_IDENTITY"%string).
Proof.
  intros H. destruct (init_returns _ _ _ _ _ _ _ _ H) as [_ [-> [Hc Ho]]].
  unfold client_id_in_cache, str_or; cbn [_client_id _object_id _mi_res_id].
  split; [|split].
  - destruct (truthy_str client_id) eqn:Tc.
    { destruct (truthy_str_true _ Tc) as [v [-> Hv]]. exact Hv. }
    destruct (truthy_str object_id) eqn:To.
    { destruct (truthy_str_true _ To) as [v [-> Hv]].
      destruct client_id; exact Hv. }
    destruct (truthy_str mi_res_id) eqn:Tm.
    { destruct (truthy_str_true _ Tm) as [v [-> Hv]].
      destruct client_id, object_id; exact Hv. }
    destruct client_id, object_id, mi_res_id; discriminate.
  - intros v Hv [-> | [-> | ->]].
    + now rewrite (truthy_str_some _ Hv).
    + pose proof (truthy_str_some _ Hv) as Tv. rewrite Tv.
      destruct (truthy_str client_id) eqn:Tc.
      { destruct (Hc eq_refl); congruence. }
      now destruct client_id.
    + pose proof (truthy_str_some _ Hv) as Tv. rewrite Tv.
      destruct (truthy_str client_id) eqn:Tc.
      { destruct (Hc eq_refl); congruence. }
      destruct (truthy_str object_id) eqn:To.
      { specialize (Ho eq_refl). congruence. }
      now destruct client_id, object_id.
  - intros -> -> ->. now destruct client_id, object_id, mi_res_id.
Qed.

(** The transport calls of a run: none, or the one request of the
    selected backend, which is made when no match is found. *)
Lemma acquire_token_requests (self : ManagedIdentity) (resource : string)
    (s : state) :
  exists l,
    st_log (snd (acquire_token self (Some resource) s)) = st_log s ++ l
    /\ (filter is_get l = []
        \/ filter is_get l = [EvGet (refresh_request self resource)])
    /\ (resource <> ""%string -> cache_matches self resource s = [] ->
        filter is_get l = [EvGet (refresh_request self resource)]).
Proof.
  destruct (string_dec resource "") as [->|Hr].
  { rewrite acquire_token_no_resource by reflexivity.
    exists []. cbn. rewrite app_nil_r.
    split; [reflexivity|]. split; [now left|]. intros H. now destruct H. }
  unfold cache_matches.
  destruct (_token_cache self) as [tc|] eqn:Hc.
  - rewrite (acquire_token_cached self tc) by assumption.
    destruct (scan_phase_effects self tc resource s
                (tc_find tc (st_store s) (find_call self tc resource))
                (time_time (st_ticks s)))
      as [_ [l [Hl [Hg _]]]].
    assert (Hf : filter is_get l = []).
    { apply length_zero_iff_nil. exact Hg. }
    destruct (scan _ _ None _) as [[[token|cand]|e] s1] eqn:Es; cbn in Hl.
    + exists l. split; [exact Hl|]. split; [now left|].
      intros _ Hm. rewrite Hm in Es. discriminate.
    + destruct (refresh_effects self tc resource cand s1)
        as [l' [Hl' [_ [Hf' _]]]].
      exists (l ++ l'). rewrite Hl', Hl, <- app_assoc, filter_app, Hf, Hf'.
      cbn. auto.
    + exists l. split; [exact Hl|]. split; [now left|].
      intros _ Hm. rewrite Hm in Es. discriminate.
  - rewrite acquire_token_uncached by assumption.
    destruct (obtain_token_sends (_http_client self) resource
                (_client_id self) (_object_id self) (_mi_res_id self) s)
      as [_ [l1 [l2 [Hl [Hd1 Hd2]]]]].
    fold (refresh_request self resource) in Hl.
    exists (l1 ++ EvGet (refresh_request self resource) :: l2).
    split; [exact Hl|].
    assert (Hn : forall l, forallb is_debug l = true -> filter is_get l = []).
    { induction l as [|x l IH]; cbn; [easy|].
      destruct x; cbn; try discriminate; auto. }
    rewrite filter_app. cbn. rewrite (Hn _ Hd1), (Hn _ Hd2). cbn. auto.
Qed.

(** X8. At most one selector goes out.  For an object [__init__]
    returned, every transport call that a run of [acquire_token] logs
    carries the resource and at most one identity selector: none when the
    three Service Fabric variables are present, and otherwise exactly the
    selectors that were supplied non-empty, of which there is at most one.
    A run that finds no match in the cache logs exactly one such call. *)
Theorem one_selector_forwarded
    (http_client : request -> result response)
    (client_id object_id mi_res_id : option string)
    (token_cache : option TokenCache) (s s' : state) (self : ManagedIdentity)
    (resource : string) (st : state) :
  __init__ http_client client_id object_id mi_res_id token_cache s = (Ret self, s') ->
  let out := acquire_token self (Some resource) st in
  let fabric :=
    environ_has "IDENTITY_ENDPOINT" && environ_has "IDENTITY_HEADER"
    && environ_has "IDENTITY_SERVER_THUMBPRINT" in
  let selectors :=
    (if truthy_str client_id
     then [("client_id", match client_id with Some v => v | None => "" end)]
     else [])
    ++ (if truthy_str object_id
        then [("object_id", match object_id with Some v => v | None => "" end)]
        else [])
    ++ (if truthy_str mi_res_id
        then [("mi_res_id", match mi_res_id with Some v => v | None => "" end)]
        else []) in
  exists l,
    st_log (snd out) = st_log st ++ l
    /\ (forall req, In (EvGet req) l ->
          dict_lookup (req_params req) "resource" = Some resource
          /\ (length (filter is_identity_param (req_params req)) <= 1)%nat
          /\ filter is_identity_param (req_params req)
             = if fabric then [] else selectors)
    /\ (resource <> ""%string -> cache_matches self resource st = [] ->
        exists req, filter is_get l = [EvGet req]).
Proof.
  intros H. cbn zeta.
  destruct (init_returns _ _ _ _ _ _ _ _ H) as [_ [-> [Hc Ho]]].
  assert (Hw : forall api,
             let p := with_identity client_id object_id mi_res_id
                        [("api-version", api); ("resource", resource)]%string in
             dict_lookup p "resource" = Some resource
             /\ (length (filter is_identity_param p) <= 1)%nat
             /\ filter is_identity_param p
                = (if truthy_str client_id
                   then [("client_id", match client_id with Some v => v | None => "" end)]
                   else [])
                  ++ (if truthy_str object_id
                      then [("object_id", match object_id with Some v => v | None => "" end)]
                      else [])
                  ++ (if truthy_str mi_res_id
                      then [("mi_res_id", match mi_res_id with Some v => v | None => "" end)]
                      else [])%string).
  { intros api. unfold with_identity.
    destruct (truthy_str client_id) eqn:Tc.
    - destruct (Hc eq_refl) as [To Tm]. rewrite To, Tm.
      destruct client_id as [c|]; [|discriminate].
      destruct object_id, mi_res_id; cbn; auto.
    - destruct (truthy_str object_id) eqn:To.
      + rewrite (Ho eq_refl).
        destruct object_id as [o|]; [|discriminate].
        destruct client_id, mi_res_id; cbn; auto.
      + destruct (truthy_str mi_res_id) eqn:Tm.
        * destruct mi_res_id as [m|]; [|discriminate].
          destruct client_id, object_id; cbn; auto.
        * destruct client_id, object_id, mi_res_id; cbn; auto. }
  destruct (acquire_token_requests
              {| _http_client := http_client; _client_id := client_id;
                 _object_id := object_id; _mi_res_id := mi_res_id;
                 _token_cache := token_cache |} resource st)
    as [l [Hl [Hd Hone]]].
  exists l. split; [exact Hl|]. split.
  - intros req Hin.
    assert (Hreq : In (EvGet req) (filter is_get l)).
    { apply filter_In. split; [exact Hin|reflexivity]. }
    destruct Hd as [E|E]; rewrite E in Hreq; [contradiction|].
    destruct Hreq as [Hreq|[]]. injection Hreq as <-.
    unfold refresh_request, resolved_backend;
      cbn [_client_id _object_id _mi_res_id].
    destruct (environ_has "IDENTITY_ENDPOINT" && environ_has "IDENTITY_HEADER"
              && environ_has "IDENTITY_SERVER_THUMBPRINT").
    + cbn. auto.
    + destruct (environ_has "IDENTITY_ENDPOINT" && environ_has "IDENTITY_HEADER");
        cbn [backend_request req_params].
      * exact (Hw "2019-08-01"%string).
      * exact (Hw "2018-02-01"%string).
  - intros Hr Hm. eexists. now apply Hone.
Qed.

(** *** Normalization by the adapters *)

Lemma dict_get_found (d : pydict) (k : string) (v default : pyval) :
  dict_lookup d k = Some v -> dict_get d k default = v.
Proof. unfold dict_get. now intros ->. Qed.

(** X9. Azure VM normalization.  A body with a true [access_token] and
    a true [expires_in] comes back as a record of exactly four fields:
    the token, [expires_in] converted by [int] (so a string of digits
    becomes a number), [resource] ([None] when absent) and [token_type]
    ([Bearer] when absent); when [int] rejects [expires_in] its exception
    is raised instead. *)
Theorem azure_vm_normalizes (http_client : request -> result response)
    (resource : string) (client_id object_id mi_res_id : option string)
    (s : state) (resp : response) (d : pydict) (token expires : pyval) :
  http_client (backend_request AzureVM resource client_id object_id mi_res_id)
  = Ret resp ->
  json_loads (text resp) = Some (PDict d) ->
  dict_lookup d "access_token" = Some token -> truthy token = true ->
  dict_lookup d "expires_in" = Some expires -> truthy expires = true ->
  let out := _obtain_token_on_azure_vm http_client resource
               client_id object_id mi_res_id s in
  (forall n, py_int expires = Ret n ->
     fst out = Ret (PDict [("access_token", token);
                           ("expires_in", PInt n);
                           ("resource", dict_get d "resource" PNone);
                           ("token_type", dict_get d "token_type" (PStr "Bearer"))]))
  /\ (forall e, py_int expires = Raise e -> fst out = Raise e)
  /\ st_ticks (snd out) = st_ticks s.
Proof.
  intros Hh Hj Ha Ta He Te out. subst out.
  run_adapter. cbn in Hh. rewrite Hh. cbn. rewrite Hj. cbn.
  unfold get_and_get, py_get, dict_index.
  rewrite (dict_get_found _ _ _ PNone Ha), Ta, (dict_get_found _ _ _ PNone He), Te.
  cbn. rewrite Ha. cbn. rewrite He. cbn.
  destruct (py_int expires) as [n|e] eqn:Hi; cbn.
  - repeat split; [|discriminate].
    intros n' Hn. now injection Hn as <-.
  - repeat split; try discriminate.
    + intros e' He'. injection He' as <-. now destruct e.
    + now destruct e.
Qed.

(** X10. App Service expiry.  A body with a true [access_token] and a
    true [expires_on] that [int] accepts comes back with [expires_in] equal
    to [int(expires_on)] minus the whole seconds of the clock, read once at
    that moment: an [expires_on] that lies [k] seconds after the clock's whole
    second gives [expires_in = k]. *)
Theorem app_service_expires_in (http_client : request -> result response)
    (endpoint identity_header resource : string)
    (client_id object_id mi_res_id : option string)
    (s : state) (resp : response) (d : pydict) (token expires : pyval) (k : Z) :
  http_client
    {| req_url := endpoint;
       req_params := with_identity client_id object_id mi_res_id
                       [("api-version", "2019-08-01"); ("resource", resource)]%string;
       req_headers := [("X-IDENTITY-HEADER", identity_header);
                       ("Metadata", "true")]%string |} = Ret resp ->
  json_loads (text resp) = Some (PDict d) ->
  dict_lookup d "access_token" = Some token -> truthy token = true ->
  dict_lookup d "expires_on" = Some expires -> truthy expires = true ->
  py_int expires = Ret (Qtrunc (time_time (st_ticks s)) + k) ->
  let out := _obtain_token_on_app_service http_client endpoint identity_header
               resource client_id object_id mi_res_id s in
  fst out = Ret (PDict [("access_token", token);
                        ("expires_in", PInt k);
                        ("resource", dict_get d "resource" PNone);
                        ("token_type", dict_get d "token_type" (PStr "Bearer"))])
  /\ st_ticks (snd out) = S (st_ticks s).
Proof.
  intros Hh Hj Ha Ta He Te Hi out. subst out.
  run_adapter. rewrite Hh. cbn. rewrite Hj. cbn.
  unfold get_and_get, py_get, dict_index.
  rewrite (dict_get_found _ _ _ PNone Ha), Ta, (dict_get_found _ _ _ PNone He), Te.
  cbn. rewrite Ha. cbn. rewrite He. cbn. rewrite Hi. cbn.
  split; [|reflexivity].
  do 3 f_equal. f_equal. f_equal. f_equal. lia.
Qed.

(** X11. App Service error synthesis.  Any JSON object in which
    [access_token] or [expires_on] is missing or false comes back as the
    record [{error: invalid_scope, error_description: "<statusCode>,
    <message>"}], built from the body's own fields; no exception is
    raised. *)
Theorem app_service_error_synthesis (http_client : request -> result response)
    (endpoint identity_header resource : string)
    (client_id object_id mi_res_id : option string)
    (s : state) (resp : response) (d : pydict) :
  http_client
    {| req_url := endpoint;
       req_params := with_identity client_id object_id mi_res_id
                       [("api-version", "2019-08-01"); ("resource", resource)]%string;
       req_headers := [("X-IDENTITY-HEADER", identity_header);
                       ("Metadata", "true")]%string |} = Ret resp ->
  json_loads (text resp) = Some (PDict d) ->
  truthy (dict_get d "access_token" PNone)
  && truthy (dict_get d "expires_on" PNone) = false ->
  fst (_obtain_token_on_app_service http_client endpoint identity_header
         resource client_id object_id mi_res_id s)
  = Ret (PDict [("error", PStr "invalid_scope");
                ("error_description",
                 PStr (py_format (dict_get d "statusCode" PNone) ++ ", "
                       ++ py_format (dict_get d "message" PNone))%string)]).
Proof.
  intros Hh Hj Hf.
  run_adapter. rewrite Hh. cbn. rewrite Hj. cbn.
  unfold get_and_get, py_get.
  destruct (truthy (dict_get d "access_token" PNone)); cbn in Hf |- *;
    [rewrite Hf|]; reflexivity.
Qed.

(** X12. What Service Fabric success needs.  A body with a true
    [access_token] and a true [expires_on] is normalized only when
    [expires_on] is a number and [token_type] is present: the record then
    carries [expires_on] minus the clock's whole seconds and the body's
    [token_type].  A string [expires_on] raises [TypeError] (it is
    subtracted from, not converted), and a missing [token_type] raises
    [KeyError]. *)
Theorem service_fabric_success_needs (http_client : request -> result response)
    (endpoint identity_header server_thumbprint resource : string)
    (s : state) (resp : response) (d : pydict) (token expires : pyval) :
  http_client
    {| req_url := endpoint;
       req_params := [("api-version", "2019-07-01-preview");
                      ("resource", resource)]%string;
       req_headers := [("Secret", identity_header)]%string |} = Ret resp ->
  json_loads (text resp) = Some (PDict d) ->
  dict_lookup d "access_token" = Some token -> truthy token = true ->
  dict_lookup d "expires_on" = Some expires -> truthy expires = true ->
  let out := _obtain_token_on_service_fabric http_client endpoint identity_header
               server_thumbprint resource s in
  (forall n token_type,
     expires = PInt n -> dict_lookup d "token_type" = Some token_type ->
     fst out = Ret (PDict [("access_token", token);
                           ("expires_in",
                            PInt (n - Qtrunc (time_time (st_ticks s))));
                           ("resource", dict_get d "resource" PNone);
                           ("token_type", token_type)]))
  /\ (forall text, expires = PStr text -> fst out = Raise TypeError)
  /\ (forall n, expires = PInt n -> dict_lookup d "token_type" = None ->
        fst out = Raise (KeyError "token_type")).
Proof.
  intros Hh Hj Ha Ta He Te out. subst out.
  run_adapter. rewrite Hh. cbn. rewrite Hj. cbn.
  unfold get_and_get, py_get, dict_index.
  rewrite (dict_get_found _ _ _ PNone Ha), Ta, (dict_get_found _ _ _ PNone He), Te.
  cbn. rewrite Ha. cbn. rewrite He. cbn.
  split; [|split].
  - intros n token_type -> Ht. cbn. now rewrite Ht.
  - intros text ->. reflexivity.
  - intros n -> Ht. cbn. now rewrite Ht.
Qed.

(** X13. A JSON body that is not an object.  When the body parses to a
    list, a string, a number, a boolean or [null], every adapter raises
    [AttributeError], which the [except ValueError] clause does not
    catch. *)
Theorem non_object_body_raises (http_client : request -> result response)
    (resource : string) (client_id object_id mi_res_id : option string)
    (s : state) (resp : response) (payload : pyval) :
  http_client (backend_request resolved_backend resource client_id object_id mi_res_id)
  = Ret resp ->
  json_loads (text resp) = Some payload ->
  (forall d, payload <> PDict d) ->
  fst (_obtain_token http_client resource client_id object_id mi_res_id s)
  = Raise AttributeError.
Proof.
  intros Hh Hj Hn.
  assert (Hg : forall a b, get_and_get payload a b = Raise AttributeError).
  { intros a b. unfold get_and_get, py_get.
    destruct payload; try reflexivity. now destruct (Hn d). }
  destruct resolved_backend eqn:Hb.
  - rewrite obtain_token_service_fabric by assumption.
    run_adapter. cbn in Hh. rewrite Hh. cbn. rewrite Hj. cbn. now rewrite Hg.
  - rewrite obtain_token_app_service by assumption.
    run_adapter. cbn in Hh. rewrite Hh. cbn. rewrite Hj. cbn. now rewrite Hg.
  - rewrite obtain_token_azure_vm by assumption.
    run_adapter. cbn in Hh. rewrite Hh. cbn. rewrite Hj. cbn. now rewrite Hg.
Qed.

(** *** What a backend call logs *)

Ltac innermost_match x :=
  lazymatch x with
  | context [match ?y with _ => _ end] => innermost_match y
  | _ => x
  end.

(** Case analysis on every branch the run in the goal can take. *)
Ltac all_branches :=
  repeat (lazymatch goal with
          | |- context [match ?x with _ => _ end] =>
              let y := innermost_match x in
              destruct y eqn:?; cbn
          end).

(** X14. The log of a backend call.  [_obtain_token] logs, in this
    order: on Service Fabric with a descriptor supplied, the note that it
    is ignored; the adapter's opening message; the request; and, exactly
    when a [ValueError] leaves the block that parses and normalizes the
    body, the raw body.  Nothing else is logged, whatever the outcome. *)
Theorem backend_call_log (http_client : request -> result response)
    (resource : string) (client_id object_id mi_res_id : option string)
    (s : state) :
  let req := backend_request resolved_backend resource
               client_id object_id mi_res_id in
  let out := _obtain_token http_client resource client_id object_id mi_res_id s in
  st_log (snd out)
  = st_log s
    ++ (match resolved_backend with
        | ServiceFabric =>
            if truthy_str client_id || truthy_str object_id || truthy_str mi_res_id
            then [EvDebug ignoring_descriptor []] else []
        | _ => []
        end)
    ++ [EvDebug (backend_banner resolved_backend) []; EvGet req]
    ++ match http_client req, fst out with
       | Ret resp, Raise (ValueError _) =>
           [EvDebug "IMDS emits unexpected payload: %s" [text resp]]
       | _, _ => []
       end.
Proof.
  cbn zeta. destruct resolved_backend eqn:Hb.
  - rewrite obtain_token_service_fabric by assumption.
    destruct (truthy_str client_id || truthy_str object_id || truthy_str mi_res_id);
      run_adapter;
      (destruct (http_client _) as [resp|e]; cbn;
       [destruct (json_loads (text resp)); cbn|]);
      all_branches; rewrite <- ?app_assoc; reflexivity.
  - rewrite obtain_token_app_service by assumption.
    run_adapter.
    (destruct (http_client _) as [resp|e]; cbn;
     [destruct (json_loads (text resp)); cbn|]);
    all_branches; rewrite <- ?app_assoc; reflexivity.
  - rewrite obtain_token_azure_vm by assumption.
    run_adapter.
    (destruct (http_client _) as [resp|e]; cbn;
     [destruct (json_loads (text resp)); cbn|]);
    all_branches; rewrite <- ?app_assoc; reflexivity.
Qed.

(** X15. An Azure VM body that could not be normalized is still cached.
    On the Azure VM backend, when every match is past hard expiry and the
    body is a JSON object that has the key [access_token] but no true
    [access_token] and [expires_in] together, [acquire_token] returns the
    body as it is and writes it to the cache. *)
Theorem azure_vm_unnormalized_body_is_cached (self : ManagedIdentity)
    (tc : TokenCache) (resource : string) (s : state) (resp : response)
    (d : pydict) :
  resolved_backend = AzureVM ->
  _token_cache self = Some tc -> resource <> ""%string ->
  Forall (hard_expired (time_time (st_ticks s))) (cache_matches self resource s) ->
  _http_client self (refresh_request self resource) = Ret resp ->
  json_loads (text resp) = Some (PDict d) ->
  dict_has d "access_token" = true ->
  truthy (dict_get d "access_token" PNone)
  && truthy (dict_get d "expires_in" PNone) = false ->
  let out := acquire_token self (Some resource) s in
  fst out = Ret (PDict d)
  /\ st_store (snd out)
     = tc_add tc (st_store s) (add_call self resource (PDict d))
  /\ adds (st_log (snd out)) = S (adds (st_log s)).
Proof.
  intros Hb Hc Hr Hall Hh Hj Hk Hf out. subst out.
  rewrite (run_miss self tc) by assumption.
  unfold refresh. rewrite obtain_token_azure_vm by assumption.
  unfold refresh_request in Hh. rewrite Hb in Hh. cbn in Hh.
  run_adapter. rewrite Hh. cbn. rewrite Hj. cbn.
  unfold get_and_get, py_get.
  assert (Hg : (if truthy (dict_get d "access_token" PNone)
                then Ret (truthy (dict_get d "expires_in" PNone))
                else Ret false) = Ret false).
  { destruct (truthy (dict_get d "access_token" PNone)); cbn in Hf;
      [now rewrite Hf | reflexivity]. }
  rewrite Hg. cbn. rewrite Hk. cbn.
  repeat split.
  unfold adds. rewrite !filter_app, !length_app. cbn. lia.
Qed.

End Coverage.

(** ** Properties of the authority helpers *)

Section AuthorityProperties.

Local Open Scope list_scope.

Variable urlparse : string -> result ParseResult.
Variable hostname : ParseResult -> option string.

Lemma str_app_nil_r (s : string) : (s ++ "")%string = s.
Proof. induction s as [|c s IH]; cbn; [reflexivity|now rewrite IH]. Qed.

Lemma str_split_nonempty (sep : ascii) (s : string) : str_split sep s <> [].
Proof.
  destruct s as [|c s]; cbn; [discriminate|].
  destruct (Ascii.eqb c sep); [discriminate|].
  destruct (str_split sep s); discriminate.
Qed.

(** What [split] returns, read backwards: the first part holds no
    separator, and what follows it in [s] is a separator and a string that
    splits into the other parts. *)
Lemma str_split_inv (sep : ascii) (s : string) (p : string) (ps : list string) :
  str_split sep s = p :: ps ->
  str_mem sep p = false
  /\ ((ps = [] /\ s = p)
      \/ exists rest, s = (p ++ String sep rest)%string /\ str_split sep rest = ps).
Proof.
  revert p ps. induction s as [|c s IH]; intros p ps; cbn.
  - intros H. injection H as <- <-. auto.
  - destruct (Ascii.eqb_spec c sep) as [->|Hc].
    + intros H. injection H as <- <-. split; [reflexivity|].
      right. exists s. auto.
    + destruct (str_split sep s) as [|q qs] eqn:Hs.
      { now destruct (str_split_nonempty sep s). }
      intros H. injection H as <- <-.
      destruct (IH q qs eq_refl) as [Hq Hrest].
      split.
      * cbn. destruct (Ascii.eqb_spec c sep); [contradiction|exact Hq].
      * destruct Hrest as [[-> ->]|[rest [-> Hr]]]; [now left|].
        right. exists rest. auto.
Qed.

Lemma str_split_no_sep (sep : ascii) (s : string) :
  str_mem sep s = false -> str_split sep s = [s].
Proof.
  induction s as [|c s IH]; cbn; [reflexivity|].
  destruct (Ascii.eqb c sep); cbn; [discriminate|].
  intros H. now rewrite (IH H).
Qed.

Lemma str_split_app (sep : ascii) (p rest : string) :
  str_mem sep p = false ->
  str_split sep (p ++ String sep rest) = p :: str_split sep rest.
Proof.
  induction p as [|c p IH]; cbn.
  - intros _. now rewrite Ascii.eqb_refl.
  - destruct (Ascii.eqb c sep); cbn; [discriminate|].
    intros H. now rewrite (IH H).
Qed.

(** X16. What [canonicalize] accepts.  When [canonicalize] returns, the
    URL parsed with scheme [https], the host is the parse result's
    [hostname], and the tenant is the path's second component between
    slashes: it is not empty, holds no slash, and the path reads
    [<no slash>/<tenant>] followed by nothing or by a slash and more. *)
Theorem canonicalize_accepts (authority_url : string) (authority : ParseResult)
    (host : option string) (tenant : string) :
  Authority.canonicalize urlparse hostname authority_url
  = Ret (authority, host, tenant) ->
  urlparse authority_url = Ret authority
  /\ scheme authority = "https"%string
  /\ host = hostname authority
  /\ tenant <> ""%string
  /\ str_mem "/" tenant = false
  /\ exists before rest,
       path authority = (before ++ "/" ++ tenant ++ rest)%string
       /\ str_mem "/" before = false
       /\ (rest = ""%string \/ str_first rest = Some "/"%char).
Proof.
  unfold Authority.canonicalize.
  destruct (urlparse authority_url) as [u|e]; [|discriminate].
  destruct (String.eqb_spec (scheme u) "https") as [Hs|Hs]; cbn; [|discriminate].
  destruct (str_split "/" (path u)) as [|before [|t ps]] eqn:Hp; cbn;
    try discriminate.
  destruct (String.eqb_spec t "") as [Ht|Ht]; cbn; [discriminate|].
  intros H. injection H as <- <- <-.
  destruct (str_split_inv _ _ _ _ Hp) as [Hb [[Hnil _]|[rest1 [Hpath Hr1]]]];
    [discriminate|].
  destruct (str_split_inv _ _ _ _ Hr1) as [Htn Hrest].
  repeat split; auto.
  destruct Hrest as [[_ ->]|[rest2 [-> _]]].
  - exists before, ""%string. rewrite Hpath.
    repeat split; auto.
    repeat split; auto.
    now rewrite str_app_nil_r.
  - exists before, (String "/" rest2). rewrite Hpath.
    repeat split; auto.
Qed.

(** X17. What [canonicalize] rejects.  An exception of [urlparse] goes
    through.  A URL that parses is rejected with [ValueError], its message
    quoting the URL, when the scheme is not [https], when the path holds
    no slash, and when nothing or another slash follows the path's first
    slash. *)
Theorem canonicalize_rejects (authority_url : string) :
  (forall e, urlparse authority_url = Raise e ->
     Authority.canonicalize urlparse hostname authority_url = Raise e)
  /\ (forall authority, urlparse authority_url = Ret authority ->
        scheme authority <> "https"%string
        \/ str_mem "/" (path authority) = false
        \/ (exists before rest,
              path authority = (before ++ "/" ++ rest)%string
              /\ str_mem "/" before = false
              /\ (rest = ""%string \/ str_first rest = Some "/"%char)) ->
        Authority.canonicalize urlparse hostname authority_url
        = Raise (ValueError (Authority.address_message authority_url))).
Proof.
  unfold Authority.canonicalize. split.
  - intros e ->. reflexivity.
  - intros u -> H.
    destruct (String.eqb_spec (scheme u) "https") as [Hs|Hs]; cbn;
      [|reflexivity].
    destruct H as [H|[H|[before [rest [Hp [Hb Hr]]]]]]; [contradiction| |].
    + now rewrite (str_split_no_sep _ _ H).
    + rewrite Hp. cbn [append]. rewrite (str_split_app _ _ _ Hb).
      destruct Hr as [->|Hr]; [reflexivity|].
      destruct rest as [|c rest]; [discriminate|].
      injection Hr as ->. reflexivity.
Qed.

(** *** The authority builder *)

Lemma str_rstrip_last (f : ascii -> bool) (s : string) (c : ascii) :
  str_last (str_rstrip f s) = Some c -> f c = false.
Proof.
  induction s as [|a s IH]; cbn; [discriminate|].
  destruct (str_rstrip f s) as [|b r] eqn:Hr.
  - destruct (f a) eqn:Hf; cbn; [discriminate|].
    intros H. now injection H as <-.
  - exact IH.
Qed.

Lemma str_rstrip_id (f : ascii -> bool) (s : string) :
  (forall c, str_last s = Some c -> f c = false) -> str_rstrip f s = s.
Proof.
  induction s as [|a s IH]; cbn; [reflexivity|].
  destruct s as [|b s'].
  - intros H. cbn. now rewrite (H a eq_refl).
  - intros H. rewrite (IH H). reflexivity.
Qed.

Lemma str_lstrip_first (f : ascii -> bool) (s : string) (c : ascii) :
  str_first (str_lstrip f s) = Some c -> f c = false.
Proof.
  induction s as [|a s IH]; cbn; [discriminate|].
  destruct (f a) eqn:Hf; [exact IH|].
  cbn. intros H. now injection H as <-.
Qed.

Lemma str_lstrip_id (f : ascii -> bool) (s : string) :
  (forall c, str_first s = Some c -> f c = false) -> str_lstrip f s = s.
Proof.
  destruct s as [|a s]; cbn; [reflexivity|].
  intros H. now rewrite (H a eq_refl).
Qed.

Lemma str_lstrip_last (f : ascii -> bool) (s : string) (c : ascii) :
  str_last (str_lstrip f s) = Some c -> str_last s = Some c.
Proof.
  induction s as [|a s IH]; cbn; [discriminate|].
  destruct (f a).
  - intros H. specialize (IH H). destruct s; [discriminate|exact IH].
  - exact (fun H => H).
Qed.

Lemma is_slash_false (c : ascii) : is_slash c = false <-> c <> "/"%char.
Proof.
  unfold is_slash. destruct (Ascii.eqb_spec c "/"); split; congruence.
Qed.

(** X18. The authority a builder renders.  [str(AuthorityBuilder(instance,
    tenant))] is [https://I/T] where [I], the instance without its trailing
    slashes, does not end in a slash and [T], the tenant without its
    leading and trailing slashes, neither starts nor ends in one.  Arguments
    that are already so are rendered unchanged, and building again from the
    stored fields changes nothing. *)
Theorem authority_builder_renders (instance tenant : string) :
  let b := Authority.__init__ instance tenant in
  Authority.__str__ b
  = ("https://" ++ Authority._instance b ++ "/" ++ Authority._tenant b)%string
  /\ str_last (Authority._instance b) <> Some "/"%char
  /\ str_first (Authority._tenant b) <> Some "/"%char
  /\ str_last (Authority._tenant b) <> Some "/"%char
  /\ (str_last instance <> Some "/"%char ->
      str_first tenant <> Some "/"%char ->
      str_last tenant <> Some "/"%char ->
      Authority.__str__ b = ("https://" ++ instance ++ "/" ++ tenant)%string)
  /\ Authority.__init__ (Authority._instance b) (Authority._tenant b) = b.
Proof.
  cbn zeta. unfold Authority.__init__, Authority.__str__, str_strip.
  cbn [Authority._instance Authority._tenant].
  assert (HI : str_last (str_rstrip is_slash instance) <> Some "/"%char).
  { intros H. apply str_rstrip_last in H. discriminate. }
  assert (HF : str_first (str_lstrip is_slash (str_rstrip is_slash tenant))
               <> Some "/"%char).
  { intros H. apply str_lstrip_first in H. discriminate. }
  assert (HL : str_last (str_lstrip is_slash (str_rstrip is_slash tenant))
               <> Some "/"%char).
  { intros H. apply str_lstrip_last, str_rstrip_last in H. discriminate. }
  assert (Hr : forall s, str_last s <> Some "/"%char -> str_rstrip is_slash s = s).
  { intros s H. apply str_rstrip_id. intros c Hc. apply is_slash_false.
    congruence. }
  assert (Hl : forall s, str_first s <> Some "/"%char -> str_lstrip is_slash s = s).
  { intros s H. apply str_lstrip_id. intros c Hc. apply is_slash_false.
    congruence. }
  repeat split; auto.
  - intros H1 H2 H3. now rewrite (Hr _ H1), (Hr _ H3), (Hl _ H2).
  - f_equal.
    + now apply Hr.
    + rewrite (Hr _ HL). now apply Hl.
Qed.

(** *** Builder and [canonicalize] together *)

Lemma str_forallb_app (f : ascii -> bool) (a b : string) :
  str_forallb f (a ++ b) = str_forallb f a && str_forallb f b.
Proof.
  induction a as [|c a IH]; cbn; [reflexivity|].
  now rewrite IH, andb_assoc.
Qed.

Lemma str_remove_id (f : ascii -> bool) (s : string) :
  str_forallb (fun c => negb (f c)) s = true -> str_remove f s = s.
Proof.
  induction s as [|c s IH]; cbn; [reflexivity|].
  destruct (f c); cbn; [discriminate|].
  intros H. now rewrite (IH H).
Qed.

Lemma str_break_app (f : ascii -> bool) (a : string) (c : ascii) (b : string) :
  str_forallb (fun x => negb (f x)) a = true -> f c = true ->
  str_break f (a ++ String c b) = (a, Some (String c b)).
Proof.
  intros Ha Hc. induction a as [|x a IH]; cbn in *.
  - now rewrite Hc.
  - destruct (f x); cbn in Ha; [discriminate|].
    now rewrite (IH Ha).
Qed.

Lemma str_forallb_impl (f g : ascii -> bool) (s : string) :
  (forall c, f c = true -> g c = true) ->
  str_forallb f s = true -> str_forallb g s = true.
Proof.
  intros Hfg. induction s as [|c s IH]; cbn; [reflexivity|].
  intros H. apply andb_true_iff in H. destruct H as [Hc Hs].
  now rewrite (Hfg _ Hc), (IH Hs).
Qed.

Lemma str_mem_forallb (x : ascii) (f : ascii -> bool) (s : string) :
  f x = false -> str_forallb f s = true -> str_mem x s = false.
Proof.
  intros Hx. induction s as [|c s IH]; cbn; [reflexivity|].
  intros H. apply andb_true_iff in H. destruct H as [Hc Hs].
  rewrite (IH Hs), orb_false_r.
  destruct (Ascii.eqb_spec c x); [congruence|reflexivity].
Qed.

Lemma is_host_char_not (x : ascii) :
  str_mem x "/?#[]" = true \/ is_unsafe_url_byte x = true ->
  is_host_char x = false.
Proof.
  unfold is_host_char. intros [->| ->]; cbn;
    [now rewrite andb_false_r | now rewrite andb_false_r].
Qed.

Lemma is_path_char_not (x : ascii) :
  str_mem x "?#;" = true \/ is_unsafe_url_byte x = true ->
  is_path_char x = false.
Proof.
  unfold is_path_char. intros [->| ->]; cbn;
    [reflexivity | now rewrite andb_false_r].
Qed.

Lemma cpython_urlparse_authority (host rest : string) :
  str_forallb is_host_char host = true ->
  str_forallb is_path_char rest = true ->
  cpython_urlparse ("https://" ++ host ++ "/" ++ rest)
  = Ret {| scheme := "https"; netloc := host; path := "/" ++ rest;
           params := ""; query := ""; fragment := "" |}.
Proof.
  intros Hh Hr.
  assert (Hx : str_forallb (fun c => negb (is_unsafe_url_byte c))
                 (host ++ String "/" rest) = true).
  { rewrite str_forallb_app. cbn. apply andb_true_iff. split.
    - revert Hh. apply str_forallb_impl. intros c Hc.
      destruct (is_unsafe_url_byte c) eqn:E; [|reflexivity].
      rewrite is_host_char_not in Hc; auto.
    - revert Hr. apply str_forallb_impl. intros c Hc.
      destruct (is_unsafe_url_byte c) eqn:E; [|reflexivity].
      rewrite is_path_char_not in Hc; auto. }
  assert (Hn : str_forallb
                 (fun x => negb (Ascii.eqb x "/" || Ascii.eqb x "?" || Ascii.eqb x "#"))
                 host = true).
  { revert Hh. apply str_forallb_impl. intros c Hc.
    destruct (Ascii.eqb_spec c "/") as [->|H1]; [vm_compute in Hc; discriminate|].
    destruct (Ascii.eqb_spec c "?") as [->|H2]; [vm_compute in Hc; discriminate|].
    destruct (Ascii.eqb_spec c "#") as [->|H3]; [vm_compute in Hc; discriminate|].
    reflexivity. }
  assert (Hm : forall x, is_host_char x = false -> str_mem x host = false).
  { intros x Hx'. now apply (str_mem_forallb x is_host_char). }
  assert (Hp : forall x, is_path_char x = false -> x <> "/"%char ->
                         str_mem x (String "/" rest) = false).
  { intros x Hx' Hs. cbn [str_mem].
    rewrite (str_mem_forallb x is_path_char rest Hx' Hr), orb_false_r.
    destruct (Ascii.eqb_spec "/" x); [congruence|reflexivity]. }
  unfold cpython_urlparse, urlsplit.
  change (str_lstrip is_c0_control_or_space ("https://" ++ host ++ "/" ++ rest))
    with ("https://" ++ host ++ "/" ++ rest)%string.
  change ("https://" ++ host ++ "/" ++ rest)%string
    with (String "h" (String "t" (String "t" (String "p" (String "s"
           (String ":" (String "/" (String "/" (host ++ String "/" rest))))))))).
  cbn [str_remove].
  change (is_unsafe_url_byte "h") with false.
  change (is_unsafe_url_byte "t") with false.
  change (is_unsafe_url_byte "p") with false.
  change (is_unsafe_url_byte "s") with false.
  change (is_unsafe_url_byte ":") with false.
  change (is_unsafe_url_byte "/") with false.
  cbn iota. rewrite (str_remove_id _ _ Hx).
  change (split_scheme
            (String "h" (String "t" (String "t" (String "p" (String "s"
               (String ":" (String "/" (String "/" (host ++ String "/" rest))))))))))
    with ("https"%string, String "/" (String "/" (host ++ String "/" rest))).
  cbn iota beta.
  unfold _splitnetloc. rewrite (str_break_app _ host "/"%char rest Hn eq_refl).
  rewrite (Hm "["%char eq_refl), (Hm "]"%char eq_refl). cbn [andb orb negb].
  rewrite (Hp "#"%char eq_refl ltac:(discriminate)).
  rewrite (Hp "?"%char eq_refl ltac:(discriminate)).
  cbn iota beta.
  rewrite (Hp ";"%char eq_refl ltac:(discriminate)).
  reflexivity.
Qed.

(** X19. A built authority is accepted.  For an instance that,
    without its trailing slashes, is a plain ASCII host (no slash, [?], [#],
    bracket, tab or line break) and a tenant that, without its surrounding
    slashes, is not empty and holds no [?], [#], [;], tab or line break,
    [canonicalize] accepts [str(AuthorityBuilder(instance, tenant))] under
    CPython's [urlparse]: the authority is the stored instance, the path is
    a slash and the stored tenant, and the tenant returned is the stored
    tenant up to its first slash. *)
Theorem built_authority_is_accepted (instance tenant : string) :
  let b := Authority.__init__ instance tenant in
  str_forallb is_host_char (Authority._instance b) = true ->
  str_forallb is_path_char (Authority._tenant b) = true ->
  Authority._tenant b <> ""%string ->
  exists first,
    Authority.canonicalize cpython_urlparse hostname (Authority.__str__ b)
    = Ret ({| scheme := "https"; netloc := Authority._instance b;
              path := "/" ++ Authority._tenant b;
              params := ""; query := ""; fragment := "" |},
           hostname {| scheme := "https"; netloc := Authority._instance b;
                       path := "/" ++ Authority._tenant b;
                       params := ""; query := ""; fragment := "" |},
           first)
    /\ first <> ""%string
    /\ str_mem "/" first = false
    /\ (exists rest, Authority._tenant b = (first ++ rest)%string
                     /\ (rest = ""%string \/ str_first rest = Some "/"%char)).
Proof.
  intros b Hh Hp Hne.
  destruct (authority_builder_renders instance tenant)
    as [_ [_ [Hfirst _]]]. fold b in Hfirst. clearbody b.
  unfold Authority.canonicalize, Authority.__str__.
  rewrite (cpython_urlparse_authority _ _ Hh Hp).
  cbn [scheme path]. change (("https" =? "https")%string) with true.
  cbn [negb orb].
  change ("/" ++ Authority._tenant b)%string
    with (String "/" (Authority._tenant b)).
  cbn [str_split]. change (Ascii.eqb "/" "/") with true. cbn iota.
  destruct (str_split "/" (Authority._tenant b)) as [|first ps] eqn:Hs.
  { exact (False_ind _ (str_split_nonempty _ _ Hs)). }
  destruct (str_split_inv _ _ _ _ Hs) as [Hm Hrest].
  assert (Hf : first <> ""%string).
  { intros ->. destruct Hrest as [[_ H]|[rest [H _]]].
    - now apply Hne.
    - apply Hfirst. rewrite H. reflexivity. }
  exists first. cbn [List.length Nat.ltb Nat.leb nth truthy orb].
  destruct (String.eqb_spec first "") as [E|E]; [contradiction|].
  cbn [negb]. split; [reflexivity|]. split; [exact Hf|]. split; [exact Hm|].
  destruct Hrest as [[_ ->]|[rest [-> _]]].
  - exists ""%string. rewrite str_app_nil_r. auto.
  - exists (String "/" rest). auto.
Qed.

End AuthorityProperties.

(** ** The further properties on concrete runs *)

Lemma entry_aging_in_lab (environ : list (string * string)) :
  @expires_at (lab_runtime environ) entry_aging 2000
  /\ (300 <= inject_Z 2000 - (2001 # 2))%Q
  /\ dict_lookup entry_aging "secret" = Some (PStr "AGING")
  /\ @aging (lab_runtime environ) (2001 # 2) entry_aging.
Proof.
  split; [exists (PStr "2000"); split; reflexivity|].
  split; [discriminate|].
  split; [reflexivity|].
  exists (PStr "900"), 900. repeat split; reflexivity.
Qed.

(** X1 at work: the transport is down while an aging entry is in hand. *)
Lemma transport_error_witness :
  let self := lab_identity environ_vm transport_down None None None true in
  let s := lab_state environ_vm [entry_aging] in
  let out := acquire_token self (Some demo_resource) s in
  fst out = Raise (TransportError "connection refused")
  /\ gets (st_log (snd out)) = 1%nat
  /\ adds (st_log (snd out)) = 0%nat
  /\ st_store (snd out) = [entry_aging].
Proof.
  cbv zeta.
  destruct (entry_aging_in_lab environ_vm) as [He [Hl [Hs Ha]]].
  apply (proj2 (transport_error_propagates (RT := lab_runtime environ_vm)
                  (lab_identity environ_vm transport_down None None None true)
                  demo_resource (lab_state environ_vm [entry_aging])
                  (TransportError "connection refused")
                  ltac:(discriminate) eq_refl)
           (lab_cache environ_vm) [] [] entry_aging 2000 (PStr "AGING")
           eq_refl eq_refl (Forall_nil _) He Hl Hs Ha).
Defined.

(** X2 at work: the aging entry's token gives way to the new one. *)
Lemma refresh_replaces_fallback_witness :
  let self := demo_identity environ_vm body_token true in
  let s := demo_state environ_vm [entry_aging] in
  let out := acquire_token self (Some demo_resource) s in
  let result := PDict [("access_token", PStr "T"); ("expires_in", PInt 3600);
                       ("resource", PNone); ("token_type", PStr "Bearer")] in
  fst out = Ret result
  /\ gets (st_log (snd out)) = 1%nat
  /\ adds (st_log (snd out)) = 1%nat
  /\ st_store (snd out)
     = tc_add (demo_cache environ_vm) [entry_aging]
         (add_call self demo_resource result).
Proof.
  cbv zeta.
  destruct (entry_aging_is_aging environ_vm) as [He [Hl [Hs Ha]]].
  destruct (refresh_replaces_fallback (RT := demo_runtime environ_vm)
              (demo_identity environ_vm body_token true)
              (demo_cache environ_vm) demo_resource
              (demo_state environ_vm [entry_aging])
              [] [] entry_aging 2000 (PStr "AGING")
              (PDict [("access_token", PStr "T"); ("expires_in", PInt 3600);
                      ("resource", PNone); ("token_type", PStr "Bearer")])
              eq_refl ltac:(discriminate) eq_refl (Forall_nil _)
              He Hl Hs Ha eq_refl eq_refl)
    as [Hr [Hg [Hadd [_ Hst]]]].
  split; [exact Hr|]. split; [exact Hg|]. split; [exact Hadd | exact Hst].
Defined.

(** X3 at work: no cache, and the backend's error record comes back. *)
Lemma uncached_run_witness :
  let self := demo_identity environ_vm body_error false in
  let s := demo_state environ_vm [entry_fresh] in
  let out := acquire_token self (Some demo_resource) s in
  fst out = Ret (PDict [("error", PStr "invalid_resource")])
  /\ st_store (snd out) = [entry_fresh]
  /\ exists l, st_log (snd out) = (st_log s ++ l)%list
               /\ gets l = 1%nat /\ finds l = 0%nat /\ adds l = 0%nat.
Proof.
  cbv zeta.
  apply (uncached_run (RT := demo_runtime environ_vm)
           (demo_identity environ_vm body_error false) demo_resource
           (demo_state environ_vm [entry_fresh]) eq_refl ltac:(discriminate)).
Defined.

(** X4 at work: the lookup of a user-assigned identity. *)
Lemma lookup_comes_first_witness :
  let self := lab_identity environ_vm (demo_transport body_token)
                (Some "client") None None true in
  let s := lab_state environ_vm [] in
  let out := acquire_token self (Some demo_resource) s in
  exists l,
    st_log (snd out)
    = (st_log s
       ++ EvFind {| find_credential_type := "AccessToken";
                    find_target := [demo_resource];
                    find_query := [("client_id", PStr "client");
                                   ("environment", PStr "vm.example");
                                   ("realm", PStr "managed_identity");
                                   ("home_account_id", PNone)] |} :: l)%list
    /\ finds l = 0%nat.
Proof.
  cbv zeta.
  apply (proj1 (lookup_comes_first (RT := lab_runtime environ_vm)
                  (lab_identity environ_vm (demo_transport body_token)
                     (Some "client") None None true)
                  (lab_cache environ_vm) demo_resource
                  (lab_state environ_vm []) eq_refl ltac:(discriminate))).
Defined.

(** X5 at work: a token written back after a miss. *)
Lemma write_back_witness :
  let self := demo_identity environ_vm body_token true in
  let s := demo_state environ_vm [] in
  let out := acquire_token self (Some demo_resource) s in
  exists l,
    st_log (snd out) = (st_log s ++ l)%list
    /\ forall a, In (EvAdd a) l ->
         fst out = Ret (add_response a)
         /\ add_scope a = [demo_resource]
         /\ add_client_id a = "SYSTEM_ASSIGNED_MANAGED_IDENTITY".
Proof.
  cbv zeta.
  destruct (write_back_matches_lookup (RT := demo_runtime environ_vm)
              (demo_identity environ_vm body_token true)
              (demo_cache environ_vm) demo_resource
              (demo_state environ_vm []) eq_refl) as [l [Hl Ha]].
  exists l. split; [exact Hl|].
  intros a Hin. destruct (Ha a Hin) as [H1 [H2 [H3 _]]].
  split; [exact H1|]. split; [exact H2|].
  cbn in H3. now injection H3 as <-.
Defined.

(** X6 at work: the only match has no [expires_on]. *)
Lemma malformed_entry_witness :
  let self := demo_identity environ_vm body_token true in
  let s := demo_state environ_vm [entry_without_expiry] in
  fst (acquire_token self (Some demo_resource) s) = Raise (KeyError "expires_on")
  /\ gets (st_log (snd (acquire_token self (Some demo_resource) s))) = 0%nat.
Proof.
  cbv zeta.
  rewrite (proj1 (malformed_entry_raises (RT := demo_runtime environ_vm)
                    (demo_identity environ_vm body_token true)
                    (demo_cache environ_vm) demo_resource
                    (demo_state environ_vm [entry_without_expiry])
                    [] [] entry_without_expiry
                    eq_refl ltac:(discriminate) eq_refl (Forall_nil _))
             eq_refl).
  split; reflexivity.
Defined.

(** X7 at work: an object id alone is the cache key. *)
Lemma cache_key_witness :
  let self := lab_identity environ_vm (demo_transport body_token)
                None (Some "0bj3ct") None false in
  client_id_in_cache self = "0bj3ct".
Proof.
  cbv zeta.
  apply (proj1 (proj2 (cache_key_of_constructed_identity
                         (RT := lab_runtime environ_vm)
                         (demo_transport body_token) None (Some "0bj3ct") None None
                         (lab_state environ_vm []) (lab_state environ_vm [])
                         (lab_identity environ_vm (demo_transport body_token)
                            None (Some "0bj3ct") None false)
                         eq_refl))
           "0bj3ct" ltac:(discriminate) (or_intror (or_introl eq_refl))).
Defined.

(** X8 at work: App Service is sent the one selector supplied. *)
Lemma one_selector_forwarded_witness :
  let self := lab_identity environ_app_service (demo_transport body_token)
                None None (Some "/subscriptions/x") false in
  let out := acquire_token self (Some demo_resource)
               (lab_state environ_app_service []) in
  exists req,
    filter is_get (st_log (snd out)) = [EvGet req]
    /\ dict_lookup (req_params req) "resource" = Some demo_resource
    /\ filter is_identity_param (req_params req)
       = [("mi_res_id", "/subscriptions/x")].
Proof.
  cbv zeta.
  destruct (one_selector_forwarded
              (RT := lab_runtime environ_app_service)
              (demo_transport body_token)
              None None (Some "/subscriptions/x") None
              (lab_state environ_app_service [])
              (lab_state environ_app_service [])
              (lab_identity environ_app_service
                 (demo_transport body_token)
                 None None (Some "/subscriptions/x") false)
              demo_resource (lab_state environ_app_service []) eq_refl)
    as [l [Hl [Hall Hone]]].
  destruct Hone as [req Hreq]; [discriminate|reflexivity|].
  exists req. rewrite Hl. split; [exact Hreq|].
  assert (Hin : In (EvGet req) l).
  { apply (proj1 (filter_In is_get (EvGet req) l)). rewrite Hreq. now left. }
  destruct (Hall req Hin) as [Hres [_ Hsel]].
  split; [exact Hres|exact Hsel].
Defined.

(** X9 at work: the specification's scenario, [expires_in] given as the
    string 3600. *)
Lemma azure_vm_normalizes_witness :
  fst (@_obtain_token_on_azure_vm (demo_runtime environ_vm)
         (demo_transport body_token) demo_resource None None None
         (demo_state environ_vm []))
  = Ret (PDict [("access_token", PStr "T"); ("expires_in", PInt 3600);
                ("resource", PNone); ("token_type", PStr "Bearer")]).
Proof.
  apply (proj1 (azure_vm_normalizes (RT := demo_runtime environ_vm)
                  (demo_transport body_token) demo_resource None None None
                  (demo_state environ_vm [])
                  {| status_code := 200; text := body_token |}
                  [("access_token", PStr "T"); ("expires_in", PStr "3600")]
                  (PStr "T") (PStr "3600")
                  eq_refl eq_refl eq_refl eq_refl eq_refl eq_refl)
           3600 eq_refl).
Defined.

(** X10 at work: the clock reads 1000.5 and the token expires at 4600. *)
Lemma app_service_expires_in_witness :
  fst (@_obtain_token_on_app_service (lab_runtime environ_app_service)
         (demo_transport body_expires_on)
         "http://localhost:4141/token" "secret" demo_resource None None None
         (lab_state environ_app_service []))
  = Ret (PDict [("access_token", PStr "T"); ("expires_in", PInt 3600);
                ("resource", PNone); ("token_type", PStr "Bearer")]).
Proof.
  apply (proj1 (app_service_expires_in (RT := lab_runtime environ_app_service)
                  (demo_transport body_expires_on)
                  "http://localhost:4141/token" "secret" demo_resource
                  None None None (lab_state environ_app_service [])
                  {| status_code := 200; text := body_expires_on |}
                  [("access_token", PStr "T"); ("expires_on", PStr "4600")]
                  (PStr "T") (PStr "4600") 3600
                  eq_refl eq_refl eq_refl eq_refl eq_refl eq_refl eq_refl)).
Defined.

(** X11 at work: App Service answers with an error body of its own
    shape. *)
Lemma app_service_error_witness :
  fst (@_obtain_token_on_app_service (demo_runtime environ_app_service)
         (demo_transport body_error)
         "http://localhost:4141/token" "secret" demo_resource None None None
         (demo_state environ_app_service []))
  = Ret (PDict [("error", PStr "invalid_scope");
                ("error_description", PStr "None, None")]).
Proof.
  apply (app_service_error_synthesis (RT := demo_runtime environ_app_service)
           (demo_transport body_error)
           "http://localhost:4141/token" "secret" demo_resource None None None
           (demo_state environ_app_service [])
           {| status_code := 200; text := body_error |}
           [("error", PStr "invalid_resource")] eq_refl eq_refl eq_refl).
Defined.

(** X12 at work: Service Fabric with a numeric [expires_on] and a
    [token_type]. *)
Lemma service_fabric_success_witness :
  fst (@_obtain_token_on_service_fabric (lab_runtime environ_service_fabric)
         (demo_transport body_fabric_token)
         "https://localhost:2377/token" "secret" "0123abcd" demo_resource
         (lab_state environ_service_fabric []))
  = Ret (PDict [("access_token", PStr "T"); ("expires_in", PInt 3600);
                ("resource", PNone); ("token_type", PStr "Bearer")]).
Proof.
  apply (proj1 (service_fabric_success_needs
                  (RT := lab_runtime environ_service_fabric)
                  (demo_transport body_fabric_token)
                  "https://localhost:2377/token" "secret" "0123abcd" demo_resource
                  (lab_state environ_service_fabric [])
                  {| status_code := 200; text := body_fabric_token |}
                  [("access_token", PStr "T"); ("expires_on", PInt 4600);
                   ("token_type", PStr "Bearer")]
                  (PStr "T") (PInt 4600)
                  eq_refl eq_refl eq_refl eq_refl eq_refl eq_refl)
           4600 (PStr "Bearer") eq_refl eq_refl).
Defined.

(** X13 at work: the Azure VM endpoint answers with a JSON array. *)
Lemma non_object_body_witness :
  fst (@_obtain_token (lab_runtime environ_vm) (demo_transport body_array)
         demo_resource None None None (lab_state environ_vm []))
  = Raise AttributeError.
Proof.
  apply (non_object_body_raises (RT := lab_runtime environ_vm)
           (demo_transport body_array) demo_resource None None None
           (lab_state environ_vm [])
           {| status_code := 200; text := body_array |} (PList [])
           eq_refl eq_refl).
  intros d. discriminate.
Defined.

(** X15 at work: a body with a token and no [expires_in] lands in the
    cache. *)
Lemma unnormalized_body_witness :
  let self := demo_identity environ_vm body_partial true in
  let s := demo_state environ_vm [] in
  let out := acquire_token self (Some demo_resource) s in
  fst out = Ret (PDict [("access_token", PStr "T")])
  /\ st_store (snd out) = [[("access_token", PStr "T")]]
  /\ adds (st_log (snd out)) = 1%nat.
Proof.
  cbv zeta.
  apply (azure_vm_unnormalized_body_is_cached (RT := demo_runtime environ_vm)
           (demo_identity environ_vm body_partial true) (demo_cache environ_vm)
           demo_resource (demo_state environ_vm [])
           {| status_code := 200; text := body_partial |}
           [("access_token", PStr "T")]
           eq_refl eq_refl ltac:(discriminate) (Forall_nil _)
           eq_refl eq_refl eq_refl eq_refl).
Defined.

(** X16 at work: a tenant and a policy behind a host. *)
Lemma canonicalize_accepts_witness :
  Authority.canonicalize cpython_urlparse bare_hostname
    "https://Login.MicrosoftOnline.com/contoso/v2.0"
  = Ret ({| scheme := "https"; netloc := "Login.MicrosoftOnline.com";
            path := "/contoso/v2.0"; params := ""; query := "";
            fragment := "" |},
         Some "login.microsoftonline.com", "contoso")
  /\ exists before rest,
       "/contoso/v2.0" = (before ++ "/" ++ "contoso" ++ rest)%string
       /\ str_mem "/" before = false
       /\ (rest = "" \/ str_first rest = Some "/"%char).
Proof.
  split; [reflexivity|].
  apply (canonicalize_accepts cpython_urlparse bare_hostname
           "https://Login.MicrosoftOnline.com/contoso/v2.0"
           {| scheme := "https"; netloc := "Login.MicrosoftOnline.com";
              path := "/contoso/v2.0"; params := ""; query := "";
              fragment := "" |}
           (Some "login.microsoftonline.com") "contoso" eq_refl).
Defined.

(** X19 at work: an instance with a trailing slash and a tenant between
    slashes. *)
Lemma built_authority_witness :
  Authority.__str__ (Authority.__init__ "login.microsoftonline.com/" "/contoso/")
  = "https://login.microsoftonline.com/contoso"
  /\ exists first,
       Authority.canonicalize cpython_urlparse bare_hostname
         (Authority.__str__
            (Authority.__init__ "login.microsoftonline.com/" "/contoso/"))
       = Ret ({| scheme := "https"; netloc := "login.microsoftonline.com";
                 path := "/contoso"; params := ""; query := "";
                 fragment := "" |},
              Some "login.microsoftonline.com", first)
       /\ first <> "".
Proof.
  split; [reflexivity|].
  destruct (built_authority_is_accepted bare_hostname
              "login.microsoftonline.com/" "/contoso/"
              eq_refl eq_refl ltac:(discriminate))
    as [first [Hc [Hf _]]].
  exists first. split; [exact Hc | exact Hf].
Defined.
